(** * AzureKinect2lsl: skeleton tracking data from an Azure Kinect, sent as an LSL stream

    A shallow embedding of [src/AzureKinect2lsl/AKlsl.cpp].  That file holds two
    translation units, each with its own [main]:

    - lines 1-164, the commented program (module [AKlsl] below);
    - lines 164-334, the earlier program whose messages name the file
      "AzureKinect2lsl.cpp" (module [AzureKinect2lsl] below).

    Both programs talk to three outside parties: the Azure Kinect device
    (k4a), the body tracker (k4abt) and the Lab Streaming Layer (lsl).  The
    answers of these parties are the inputs of the model (records [SetupIO]
    and [FrameIO]); the calls the program makes are the outputs (a list of
    [event]s) together with the way the process ends ([outcome]).

    What is taken for granted about the outside parties:

    - every call returns (the waits are K4A_WAIT_INFINITE; a call that
      never returns is not modelled);
    - a call of k4abt_tracker_create that fails leaves the handle as it is,
      and k4abt_frame_get_body_skeleton for a body that the frame does not
      have leaves the skeleton as it is;
    - the iteration order of the unordered map [g_jointNames] is the same
      in every loop over it, as nothing ever changes the map;
    - the texts handed to the XML interface hold no NUL character.

    The table [g_jointNames] comes from BodyTrackingHelpers.h, which is not
    among the sources; it is a parameter throughout, given as the list of
    its entries in iteration order.  So is K4ABT_TRACKER_CONFIG_DEFAULT of
    the Body Tracking SDK.  Console output is not modelled.

    The loops that wait on the outside parties are given fuel; a run that
    uses it up has the outcome [OutOfFuel]. *)

From Stdlib Require Import ZArith String List Lia.
From stdpp Require Import base list strings.

Open Scope string_scope.
Open Scope list_scope.

(** ** Values of the Azure Kinect SDKs *)

(** A [float] is only ever copied by the programs, never computed with; it
    is represented by the integer that encodes its 32 bits. *)
Definition float := Z.

Inductive k4a_result_t := K4A_RESULT_SUCCEEDED | K4A_RESULT_FAILED.

Inductive k4a_wait_result_t :=
  | K4A_WAIT_RESULT_SUCCEEDED
  | K4A_WAIT_RESULT_FAILED
  | K4A_WAIT_RESULT_TIMEOUT.

#[global] Instance k4a_result_eq_dec : EqDecision k4a_result_t.
Proof. solve_decision. Defined.

#[global] Instance k4a_wait_result_eq_dec : EqDecision k4a_wait_result_t.
Proof. solve_decision. Defined.

Record k4a_float3_t := { xyz_x : float; xyz_y : float; xyz_z : float }.

Record k4a_quaternion_t :=
  { wxyz_w : float; wxyz_x : float; wxyz_y : float; wxyz_z : float }.

Record k4abt_joint_t :=
  { position : k4a_float3_t; orientation : k4a_quaternion_t }.

(** Joint identifiers are the values of the SDK's enumeration.  A skeleton
    has a joint for each of them: [joints] stands for the array
    [skeleton.joints], which the programs index by identifiers only. *)
Definition k4abt_joint_id_t := nat.

Record k4abt_skeleton_t := { joints : k4abt_joint_id_t -> k4abt_joint_t }.

Inductive k4abt_tracker_processing_mode_t :=
  | K4ABT_TRACKER_PROCESSING_MODE_GPU
  | K4ABT_TRACKER_PROCESSING_MODE_CPU
  | K4ABT_TRACKER_PROCESSING_MODE_GPU_CUDA
  | K4ABT_TRACKER_PROCESSING_MODE_GPU_TENSORRT
  | K4ABT_TRACKER_PROCESSING_MODE_GPU_DIRECTML.

Record k4abt_tracker_configuration_t :=
  { processing_mode : k4abt_tracker_processing_mode_t }.

(** [config.processing_mode = mode]. *)
Definition set_processing_mode (config : k4abt_tracker_configuration_t)
    (mode : k4abt_tracker_processing_mode_t) : k4abt_tracker_configuration_t :=
  {| processing_mode := mode |}.

(** A tracker handle: [None] is NULL, [Some k] the tracker made by the
    [k]-th call of k4abt_tracker_create. *)
Definition k4abt_tracker_t := option nat.

(** One entry of [g_jointNames]: [it->first] and [it->second]. *)
Definition joint_entry := (k4abt_joint_id_t * string)%type.

(** ** Values of the Lab Streaming Layer *)

Inductive lsl_channel_format_t :=
  | cft_undefined
  | cft_float32
  | cft_double64
  | cft_string
  | cft_int32
  | cft_int16
  | cft_int8
  | cft_int64.

#[global] Instance lsl_channel_format_eq_dec : EqDecision lsl_channel_format_t.
Proof. solve_decision. Defined.

(** The typed push operations of the C interface, and the value type each
    one takes. *)
Inductive lsl_push_op :=
  | lsl_push_sample_f
  | lsl_push_sample_d
  | lsl_push_sample_l
  | lsl_push_sample_i
  | lsl_push_sample_s
  | lsl_push_sample_c
  | lsl_push_sample_str.


(** The description of a stream is an XML tree that the program only ever
    extends, through handles to its elements.  It is kept as the table of
    its elements in order of creation; a handle is an index in the table,
    and every element records its parent. *)
Definition lsl_xml_ptr := nat.

Record xml_node :=
  { xml_parent : option lsl_xml_ptr;
    xml_name : string;
    xml_value : option string }.

Record lsl_streaminfo :=
  { name : string;
    type : string;
    channel_count : Z;
    nominal_srate : Z;
    channel_format : lsl_channel_format_t;
    source_id : string;
    desc : list xml_node }.

Definition lsl_create_streaminfo (name type : string) (channel_count : Z)
    (nominal_srate : Z) (channel_format : lsl_channel_format_t)
    (source_id : string) : lsl_streaminfo :=
  {| name := name; type := type; channel_count := channel_count;
     nominal_srate := nominal_srate; channel_format := channel_format;
     source_id := source_id;
     desc := [ {| xml_parent := None; xml_name := "desc"; xml_value := None |} ] |}.

(** The root element of the description. *)
Definition lsl_get_desc (info : lsl_streaminfo) : lsl_xml_ptr := 0.

Definition set_desc (info : lsl_streaminfo) (d : list xml_node) : lsl_streaminfo :=
  {| name := name info; type := type info; channel_count := channel_count info;
     nominal_srate := nominal_srate info; channel_format := channel_format info;
     source_id := source_id info; desc := d |}.

(** A new, empty last child of [e]; the result is the handle of the child. *)
Definition lsl_append_child (e : lsl_xml_ptr) (name : string)
    (info : lsl_streaminfo) : lsl_xml_ptr * lsl_streaminfo :=
  (length (desc info),
   set_desc info
     (desc info ++ [ {| xml_parent := Some e; xml_name := name; xml_value := None |} ])).

(** A new last child of [e] that holds a text. *)
Definition lsl_append_child_value (e : lsl_xml_ptr) (name value : string)
    (info : lsl_streaminfo) : lsl_streaminfo :=
  set_desc info
    (desc info ++ [ {| xml_parent := Some e; xml_name := name; xml_value := Some value |} ]).

(** Reading a description back: the children of an element, first to last. *)
Fixpoint children_from (e : lsl_xml_ptr) (i : nat) (d : list xml_node) : list lsl_xml_ptr :=
  match d with
  | [] => []
  | n :: d' =>
      if decide (xml_parent n = Some e)
      then i :: children_from e (S i) d'
      else children_from e (S i) d'
  end.

Definition children (e : lsl_xml_ptr) (d : list xml_node) : list lsl_xml_ptr :=
  children_from e 0 d.

(** The text of the child of [e] called [name], if [k] is such a child. *)
Definition value_if_named (name : string) (d : list xml_node) (k : lsl_xml_ptr)
    : option string :=
  n ← d !! k; if decide (xml_name n = name) then xml_value n else None.

Definition child_value (e : lsl_xml_ptr) (name : string) (d : list xml_node)
    : option string :=
  head (omap (value_if_named name d) (children e d)).

(** ** What the programs do and how they end *)

(** The calls to the outside parties, with the answer where the program
    looks at it.  The captures and the frames are numbered by the turn of
    the loop, [n], in which they are obtained.  [lsl_push_sample] carries
    the push operation used and the contents of the array handed to it;
    how many of its values the outlet reads is the outlet's affair. *)
Inductive event :=
  | k4a_device_open (r : k4a_result_t)
  | k4a_device_start_cameras (r : k4a_result_t)
  | k4a_device_get_calibration (r : k4a_result_t)
  | k4abt_tracker_create (config : k4abt_tracker_configuration_t) (r : k4a_result_t)
  | lsl_create_outlet (info : lsl_streaminfo)
  | lsl_wait_for_consumers (r : bool)
  | k4a_device_get_capture (n : nat) (r : k4a_wait_result_t)
  | k4abt_tracker_enqueue_capture (tracker : k4abt_tracker_t) (n : nat) (r : k4a_wait_result_t)
  | k4a_capture_release (n : nat)
  | k4abt_tracker_pop_result (tracker : k4abt_tracker_t) (n : nat) (r : k4a_wait_result_t)
  | lsl_push_sample (op : lsl_push_op) (n : nat) (data : list float)
  | k4abt_frame_release (n : nat)
  | k4abt_tracker_shutdown (tracker : k4abt_tracker_t)
  | k4abt_tracker_destroy (tracker : k4abt_tracker_t)
  | k4a_device_stop_cameras
  | k4a_device_close.

Inductive outcome :=
  | Exited (status : Z)
  | UndefinedBehaviour
  | OutOfFuel.

(** A computation that logs events and either yields a value or ends the
    process. *)
Inductive result (A : Type) :=
  | Val (a : A)
  | Stop (o : outcome).
Arguments Val {A} a.
Arguments Stop {A} o.

Definition proc (A : Type) : Type := (list event * result A)%type.

Definition ret {A} (a : A) : proc A := ([], Val a).

Definition bind {A B} (m : proc A) (f : A -> proc B) : proc B :=
  match m with
  | (t, Val a) => let '(t', r) := f a in (t ++ t', r)
  | (t, Stop o) => (t, Stop o)
  end.

Definition emit (e : event) : proc unit := ([e], Val tt).

Definition stop {A} (o : outcome) : proc A := ([], Stop o).

(** [exit(status)], and [return status] from [main]. *)
Definition exit {A} (status : Z) : proc A := stop (Exited status).

Declare Scope proc_scope.
Delimit Scope proc_scope with proc.
Notation "x <- m ;; k" := (bind m (fun x => k))
  (at level 20, m at level 99, k at level 200, only parsing) : proc_scope.
Notation "' p <- m ;; k" := (bind m (fun x => match x with p => k end))
  (at level 20, p pattern, m at level 99, k at level 200, only parsing) : proc_scope.
Notation "m ;; k" := (bind m (fun _ => k))
  (at level 100, k at level 200, right associativity, only parsing) : proc_scope.

(** The VERIFY macro (lines 16-21 and 172-177). *)
Definition VERIFY (r : k4a_result_t) : proc unit :=
  if decide (r <> K4A_RESULT_SUCCEEDED) then exit 1 else ret tt.

(** How the body of a loop is left. *)
Inductive ctl := Normal | Break.

(** [do { body } while (cond)]: [cond] may change the state, as in
    [++frame_count < 100]. *)
Fixpoint do_while {S : Type} (body : S -> proc (ctl * S)) (cond : S -> bool * S)
    (fuel : nat) (st : S) : proc S :=
  match fuel with
  | O => stop OutOfFuel
  | Datatypes.S fuel' =>
      bind (body st) (fun '(c, st1) =>
        match c with
        | Break => ret st1
        | Normal =>
            let '(b, st2) := cond st1 in
            if b then do_while body cond fuel' st2 else ret st2
        end)
  end.

(** ** The answers of the outside parties *)

(** Before the capture loop.  Trackers and polls are numbered from 0. *)
Record SetupIO :=
  { device_open_result : k4a_result_t;
    start_cameras_result : k4a_result_t;
    get_calibration_result : k4a_result_t;
    tracker_create_result : nat -> k4abt_tracker_configuration_t -> k4a_result_t;
    consumers : nat -> bool }.

(** During one turn of the capture loop.  [stack_data] and [stack_skeleton]
    are what the memory of the locals [data] and [skeleton] holds before the
    program writes to it.  Where that memory comes from is not modelled: on
    a real stack it is often what the turn before has left there, so that
    nothing below tells the values of one turn to be independent of the
    turns before it. *)
Record FrameIO :=
  { get_capture_result : k4a_wait_result_t;
    queue_capture_result : k4a_wait_result_t;
    pop_frame_result : k4a_wait_result_t;
    bodies : list k4abt_skeleton_t;
    stack_data : nat -> float;
    stack_skeleton : k4abt_skeleton_t }.

#[global] Instance nat_gt_dec (n m : nat) : Decision (n > m) := decide (m < n).

(** [k4abt_tracker_create(&sensor_calibration, config, &tracker)], as the
    [k]-th call of it: the result, and what [tracker] holds afterwards. *)
Definition tracker_create (io : SetupIO) (k : nat) (config : k4abt_tracker_configuration_t)
    (tracker : k4abt_tracker_t) : proc (k4a_result_t * k4abt_tracker_t) :=
  let r := tracker_create_result io k config in
  bind (emit (k4abt_tracker_create config r)) (fun _ =>
  ret (r, if decide (r = K4A_RESULT_SUCCEEDED) then Some k else tracker)).

(** [k4abt_frame_get_num_bodies]. *)
Definition k4abt_frame_get_num_bodies (f : FrameIO) : nat := length (bodies f).

(** [k4abt_frame_get_body_skeleton(body_frame, i, &skeleton)]: the local is
    filled when the frame has a body [i] and left as it is otherwise. *)
Definition k4abt_frame_get_body_skeleton (f : FrameIO) (i : nat)
    (skeleton : k4abt_skeleton_t) : k4abt_skeleton_t :=
  match bodies f !! i with
  | Some s => s
  | None => skeleton
  end.

(** ** The local array [float data[7 * 31]] *)

Definition data_length : nat := 7 * 31.

(** The array before anything is written to it. *)
Definition fresh_data (f : FrameIO) : list float :=
  map (stack_data f) (seq 0 data_length).

(** [data[i] = v].  A write outside the array has no defined behaviour. *)
Definition store (i : nat) (v : float) (data : list float) : option (list float) :=
  if decide (i < length data) then Some (<[i:=v]> data) else None.

(** The seven values of a joint, in the order in which both programs store
    them. *)
Definition pose (skeleton : k4abt_skeleton_t) (it : joint_entry) : list float :=
  let position := position (joints skeleton it.1) in
  let orientation := orientation (joints skeleton it.1) in
  [ xyz_x position; xyz_y position; xyz_z position;
    wxyz_w orientation; wxyz_x orientation; wxyz_y orientation; wxyz_z orientation ].

(** The capture, or the frame made from it, that an event is about. *)
Definition event_frame (e : event) : option nat :=
  match e with
  | k4a_device_get_capture n _
  | k4abt_tracker_enqueue_capture _ n _
  | k4a_capture_release n
  | k4abt_tracker_pop_result _ n _
  | lsl_push_sample _ n _
  | k4abt_frame_release n => Some n
  | _ => None
  end.

(** A process that cannot yield a value: it ends at [exit] or [return]. *)
Definition run (p : proc Empty_set) : list event * outcome :=
  match p with
  | (t, Val a) => match a with end
  | (t, Stop o) => (t, o)
  end.

(** The state of the capture loop: the counter [int frame_count] of the
    program (it never exceeds 100, so far below the range of [int]), and
    the number of captures asked for so far, which numbers the captures,
    the frames and the answers of the outside parties. *)
Record loop_state := { frame_count : Z; captures : nat }.

Definition next_capture (st : loop_state) : loop_state :=
  {| frame_count := frame_count st; captures := S (captures st) |}.

Open Scope proc_scope.

(** ** The program of lines 1-164 *)

Module AKlsl.
Section Program.

Variable g_jointNames : list joint_entry.
Variable K4ABT_TRACKER_CONFIG_DEFAULT : k4abt_tracker_configuration_t.

(** Lines 28-43: the device. *)
Definition open_device (io : SetupIO) : proc unit :=
  emit (k4a_device_open (device_open_result io));;
  VERIFY (device_open_result io);;
  emit (k4a_device_start_cameras (start_cameras_result io));;
  VERIFY (start_cameras_result io);;
  emit (k4a_device_get_calibration (get_calibration_result io));;
  VERIFY (get_calibration_result io).

(** Lines 45-65: the tracker and the stream. *)
Definition create_tracker (io : SetupIO) : proc (k4abt_tracker_t * lsl_streaminfo) :=
  let tracker : k4abt_tracker_t := None in
  let tracker_config := K4ABT_TRACKER_CONFIG_DEFAULT in
  let tracker_config :=
    set_processing_mode tracker_config K4ABT_TRACKER_PROCESSING_MODE_GPU_CUDA in
  '(r, tracker) <- tracker_create io 0 tracker_config tracker;;
  if decide (r <> K4A_RESULT_SUCCEEDED) then
    let tracker_config :=
      set_processing_mode tracker_config K4ABT_TRACKER_PROCESSING_MODE_CPU in
    '(r, tracker) <- tracker_create io 1 tracker_config tracker;;
    VERIFY r;;
    ret (tracker,
         lsl_create_streaminfo "Azure-Kinect" "MoCap" (32 * 7) 4 cft_double64 "325wqer4354")
  else
    ret (tracker,
         lsl_create_streaminfo "Azure-Kinect" "MoCap" (32 * 7) 10 cft_double64 "325wqer4354").

Definition suffixes : list string :=
  ["_posx"; "_posy"; "_posz"; "_oriw"; "_orix"; "_oriy"; "_oriz"].

(** Lines 82-84: one channel. *)
Definition append_channel (chns : lsl_xml_ptr) (jointName : string)
    (info : lsl_streaminfo) (suffix : string) : lsl_streaminfo :=
  let '(channel, info) := lsl_append_child chns "channel" info in
  let info := lsl_append_child_value channel "name" (jointName +:+ suffix) info in
  lsl_append_child_value channel "unit" "mm" info.

(** Lines 77-86: the channels of all joints. *)
Definition append_channels (chns : lsl_xml_ptr) (info : lsl_streaminfo) : lsl_streaminfo :=
  fold_left
    (fun info (it : joint_entry) =>
       let jointName := it.2 in
       fold_left (append_channel chns jointName) suffixes info)
    g_jointNames info.

(** Lines 68-86: the description; the result holds the local [chns]. *)
Definition describe (info : lsl_streaminfo) : lsl_xml_ptr * lsl_streaminfo :=
  let desc := lsl_get_desc info in
  let info := lsl_append_child_value desc "manufacturer" "University of Groningen" info in
  let info := lsl_append_child_value desc "model" "Azure Kinect" info in
  let '(chns, info) := lsl_append_child desc "channels" info in
  (chns, append_channels chns info).

(** Lines 93-94. *)
Fixpoint wait_for_recorder (io : SetupIO) (fuel : nat) (k : nat) : proc unit :=
  match fuel with
  | O => stop OutOfFuel
  | S fuel' =>
      let r := consumers io k in
      emit (lsl_wait_for_consumers r);;
      if r then ret tt else wait_for_recorder io fuel' (S k)
  end.

(** Lines 131-147; [j] is the distance of the iterator from the start of
    the table. *)
Fixpoint extract (f : FrameIO) (it : list joint_entry) (j : nat) (data : list float)
    : option (list float) :=
  match it with
  | [] => Some data
  | entry :: it' =>
      let skeleton := k4abt_frame_get_body_skeleton f 0 (stack_skeleton f) in
      let position := position (joints skeleton entry.1) in
      let orientation := orientation (joints skeleton entry.1) in
      data ← store (j * 7 + 0) (xyz_x position) data;
      data ← store (j * 7 + 1) (xyz_y position) data;
      data ← store (j * 7 + 2) (xyz_z position) data;
      data ← store (j * 7 + 3) (wxyz_w orientation) data;
      data ← store (j * 7 + 4) (wxyz_x orientation) data;
      data ← store (j * 7 + 5) (wxyz_y orientation) data;
      data ← store (j * 7 + 6) (wxyz_z orientation) data;
      extract f it' (S j) data
  end.

(** Lines 102-153: one turn of the loop. *)
Definition loop_body (tracker : k4abt_tracker_t) (frames : nat -> FrameIO)
    (st : loop_state) : proc (ctl * loop_state) :=
  let n := captures st in
  let f := frames n in
  let st := next_capture st in
  emit (k4a_device_get_capture n (get_capture_result f));;
  if decide (get_capture_result f = K4A_WAIT_RESULT_SUCCEEDED) then
    emit (k4abt_tracker_enqueue_capture tracker n (queue_capture_result f));;
    emit (k4a_capture_release n);;
    if decide (queue_capture_result f <> K4A_WAIT_RESULT_SUCCEEDED) then
      ret (Break, st)
    else
      emit (k4abt_tracker_pop_result tracker n (pop_frame_result f));;
      if decide (pop_frame_result f = K4A_WAIT_RESULT_SUCCEEDED) then
        let num_bodies := k4abt_frame_get_num_bodies f in
        if decide (num_bodies > 1) then
          exit (-1)
        else
          match extract f g_jointNames 0 (fresh_data f) with
          | None => stop UndefinedBehaviour
          | Some data =>
              emit (lsl_push_sample lsl_push_sample_f n data);;
              emit (k4abt_frame_release n);;
              ret (Normal, st)
          end
      else ret (Normal, st)
  else ret (Normal, st).

(** Line 154: [++frame_count < 100]. *)
Definition loop_cond (st : loop_state) : bool * loop_state :=
  let frame_count := (frame_count st + 1)%Z in
  ((frame_count <? 100)%Z, {| frame_count := frame_count; captures := captures st |}).

(** Lines 28-96: everything before the capture loop; the result is the
    local [tracker]. *)
Definition prelude (io : SetupIO) (fuel : nat) : proc k4abt_tracker_t :=
  open_device io;;
  '(tracker, info) <- create_tracker io;;
  let '(chns, info) := describe info in
  emit (lsl_create_outlet info);;
  wait_for_recorder io fuel 0;;
  ret tracker.

(** Lines 99-154: the capture loop. *)
Definition capture_loop (tracker : k4abt_tracker_t) (frames : nat -> FrameIO)
    (fuel : nat) : proc loop_state :=
  do_while (loop_body tracker frames) loop_cond fuel
    {| frame_count := 0; captures := 0 |}.

(** Lines 156-163: what follows the loop. *)
Definition cleanup (tracker : k4abt_tracker_t) : proc Empty_set :=
  emit (k4abt_tracker_shutdown tracker);;
  emit (k4abt_tracker_destroy tracker);;
  emit k4a_device_stop_cameras;;
  emit k4a_device_close;;
  exit 0.

Definition main (io : SetupIO) (frames : nat -> FrameIO) (fuel : nat)
    : list event * outcome :=
  run (
    tracker <- prelude io fuel;;
    capture_loop tracker frames fuel;;
    cleanup tracker).

End Program.
End AKlsl.

(** ** The program of lines 164-334 *)

Module AzureKinect2lsl.
Section Program.

Variable g_jointNames : list joint_entry.
Variable K4ABT_TRACKER_CONFIG_DEFAULT : k4abt_tracker_configuration_t.

(** Lines 181-194: the device. *)
Definition open_device (io : SetupIO) : proc unit :=
  emit (k4a_device_open (device_open_result io));;
  VERIFY (device_open_result io);;
  emit (k4a_device_start_cameras (start_cameras_result io));;
  VERIFY (start_cameras_result io);;
  emit (k4a_device_get_calibration (get_calibration_result io));;
  VERIFY (get_calibration_result io).

(** Lines 196-215: the tracker and the stream.  The second tracker is
    stored in the local [tracker] of the inner block, written [tracker']
    here, which hides the outer [tracker]; its result is not looked at. *)
Definition create_tracker (io : SetupIO) : proc (k4abt_tracker_t * lsl_streaminfo) :=
  let tracker : k4abt_tracker_t := None in
  let tracker_config := K4ABT_TRACKER_CONFIG_DEFAULT in
  let tracker_config :=
    set_processing_mode tracker_config K4ABT_TRACKER_PROCESSING_MODE_GPU_CUDA in
  '(r, tracker) <- tracker_create io 0 tracker_config tracker;;
  if decide (r <> K4A_RESULT_SUCCEEDED) then
    let tracker' : k4abt_tracker_t := None in
    let tracker_config' := K4ABT_TRACKER_CONFIG_DEFAULT in
    '(_, tracker') <- tracker_create io 1 tracker_config' tracker';;
    ret (tracker,
         lsl_create_streaminfo "Azure-Kinect" "MoCap" (32 * 7) 4 cft_double64 "325wqer4354")
  else
    ret (tracker,
         lsl_create_streaminfo "Azure-Kinect" "MoCap" (32 * 7) 10 cft_double64 "325wqer4354").

(** Lines 228-234: the channels of one joint. *)
Definition append_joint (chns : lsl_xml_ptr) (info : lsl_streaminfo) (it : joint_entry)
    : lsl_streaminfo :=
  let info := (lsl_append_child chns (it.2 +:+ "_posx") info).2 in
  let info := (lsl_append_child chns (it.2 +:+ "_posy") info).2 in
  let info := (lsl_append_child chns (it.2 +:+ "_posz") info).2 in
  let info := (lsl_append_child chns (it.2 +:+ "_oriw") info).2 in
  let info := (lsl_append_child chns (it.2 +:+ "_orix") info).2 in
  let info := (lsl_append_child chns (it.2 +:+ "_oriy") info).2 in
  (lsl_append_child chns (it.2 +:+ "_oriz") info).2.

(** Lines 220-235: the description; the result holds the local [chns]. *)
Definition describe (info : lsl_streaminfo) : lsl_xml_ptr * lsl_streaminfo :=
  let desc := lsl_get_desc info in
  let info := lsl_append_child_value desc "manufacturer" "University of Groningen" info in
  let info := lsl_append_child_value desc "model" "Azure Kinect" info in
  let '(chns, info) := lsl_append_child desc "channels" info in
  let info := lsl_append_child_value desc "unit" "mm" info in
  (chns, fold_left (append_joint chns) g_jointNames info).

(** Lines 237-238. *)
Fixpoint wait_for_recorder (io : SetupIO) (fuel : nat) (k : nat) : proc unit :=
  match fuel with
  | O => stop OutOfFuel
  | S fuel' =>
      let r := consumers io k in
      emit (lsl_wait_for_consumers r);;
      if r then ret tt else wait_for_recorder io fuel' (S k)
  end.

(** Lines 281-295: the joints of one skeleton. *)
Fixpoint extract_joints (skeleton : k4abt_skeleton_t) (it : list joint_entry) (j : nat)
    (data : list float) : option (list float) :=
  match it with
  | [] => Some data
  | entry :: it' =>
      let position := position (joints skeleton entry.1) in
      let orientation := orientation (joints skeleton entry.1) in
      data ← store (j * 7) (xyz_x position) data;
      data ← store (1 + j * 7) (xyz_y position) data;
      data ← store (2 + j * 7) (xyz_z position) data;
      data ← store (3 + j * 7) (wxyz_w orientation) data;
      data ← store (4 + j * 7) (wxyz_x orientation) data;
      data ← store (5 + j * 7) (wxyz_y orientation) data;
      data ← store (6 + j * 7) (wxyz_z orientation) data;
      let j := j + 1 in
      extract_joints skeleton it' j data
  end.

(** Lines 276-296: the bodies [i], [i + 1], ... below [num_bodies]. *)
Fixpoint extract_bodies (f : FrameIO) (i : nat) (todo : nat) (data : list float)
    : option (list float) :=
  match todo with
  | O => Some data
  | S todo' =>
      let skeleton := k4abt_frame_get_body_skeleton f i (stack_skeleton f) in
      data ← extract_joints skeleton g_jointNames 0 data;
      extract_bodies f (S i) todo' data
  end.

(** Lines 244-322: one turn of the loop. *)
Definition loop_body (tracker : k4abt_tracker_t) (frames : nat -> FrameIO)
    (st : loop_state) : proc (ctl * loop_state) :=
  let n := captures st in
  let f := frames n in
  let st := next_capture st in
  emit (k4a_device_get_capture n (get_capture_result f));;
  if decide (get_capture_result f = K4A_WAIT_RESULT_SUCCEEDED) then
    emit (k4abt_tracker_enqueue_capture tracker n (queue_capture_result f));;
    emit (k4a_capture_release n);;
    if decide (queue_capture_result f = K4A_WAIT_RESULT_TIMEOUT) then
      ret (Break, st)
    else if decide (queue_capture_result f = K4A_WAIT_RESULT_FAILED) then
      ret (Break, st)
    else
      let data := fresh_data f in
      emit (k4abt_tracker_pop_result tracker n (pop_frame_result f));;
      if decide (pop_frame_result f = K4A_WAIT_RESULT_SUCCEEDED) then
        let num_bodies := k4abt_frame_get_num_bodies f in
        if decide (num_bodies > 1) then
          exit (-1)
        else
          match extract_bodies f 0 num_bodies data with
          | None => stop UndefinedBehaviour
          | Some data =>
              emit (lsl_push_sample lsl_push_sample_f n data);;
              emit (k4abt_frame_release n);;
              ret (Normal, st)
          end
      else if decide (pop_frame_result f = K4A_WAIT_RESULT_TIMEOUT) then
        ret (Break, st)
      else
        ret (Break, st)
  else if decide (get_capture_result f = K4A_WAIT_RESULT_TIMEOUT) then
    ret (Break, st)
  else
    ret (Break, st).

(** Line 324: [frame_count < 100]; the increment of line 248 is commented
    out. *)
Definition loop_cond (st : loop_state) : bool * loop_state :=
  ((frame_count st <? 100)%Z, st).

(** Lines 181-239: everything before the capture loop; the result is the
    local [tracker]. *)
Definition prelude (io : SetupIO) (fuel : nat) : proc k4abt_tracker_t :=
  open_device io;;
  '(tracker, info) <- create_tracker io;;
  let '(chns, info) := describe info in
  emit (lsl_create_outlet info);;
  wait_for_recorder io fuel 0;;
  ret tracker.

(** Lines 241-324: the capture loop. *)
Definition capture_loop (tracker : k4abt_tracker_t) (frames : nat -> FrameIO)
    (fuel : nat) : proc loop_state :=
  do_while (loop_body tracker frames) loop_cond fuel
    {| frame_count := 0; captures := 0 |}.

(** Lines 326-333: what follows the loop. *)
Definition cleanup (tracker : k4abt_tracker_t) : proc Empty_set :=
  emit (k4abt_tracker_shutdown tracker);;
  emit (k4abt_tracker_destroy tracker);;
  emit k4a_device_stop_cameras;;
  emit k4a_device_close;;
  exit 0.

Definition main (io : SetupIO) (frames : nat -> FrameIO) (fuel : nat)
    : list event * outcome :=
  run (
    tracker <- prelude io fuel;;
    capture_loop tracker frames fuel;;
    cleanup tracker).

End Program.
End AzureKinect2lsl.

(** ** Both programs side by side *)

Inductive program := AKlsl_cpp | AzureKinect2lsl_cpp.

Definition main_of (p : program) :=
  match p with
  | AKlsl_cpp => AKlsl.main
  | AzureKinect2lsl_cpp => AzureKinect2lsl.main
  end.

Definition prelude_of (p : program) :=
  match p with
  | AKlsl_cpp => AKlsl.prelude
  | AzureKinect2lsl_cpp => AzureKinect2lsl.prelude
  end.

Definition loop_body_of (p : program) :=
  match p with
  | AKlsl_cpp => AKlsl.loop_body
  | AzureKinect2lsl_cpp => AzureKinect2lsl.loop_body
  end.

Definition loop_cond_of (p : program) :=
  match p with
  | AKlsl_cpp => AKlsl.loop_cond
  | AzureKinect2lsl_cpp => AzureKinect2lsl.loop_cond
  end.

Definition capture_loop_of (p : program) :=
  match p with
  | AKlsl_cpp => AKlsl.capture_loop
  | AzureKinect2lsl_cpp => AzureKinect2lsl.capture_loop
  end.

(** The events of the lines after the loop: the same in both programs. *)
Definition cleanup_events (tracker : k4abt_tracker_t) : list event :=
  (AKlsl.cleanup tracker).1.

(** ** Reading a description *)

Definition find_child (e : lsl_xml_ptr) (name : string) (d : list xml_node)
    : option lsl_xml_ptr :=
  head (filter (fun k => xml_name <$> d !! k = Some name) (children e d)).

(** The children of the element "channels" of a description. *)
Definition channel_entries (d : list xml_node) : list lsl_xml_ptr :=
  match find_child 0 "channels" d with
  | Some chns => children chns d
  | None => []
  end.

(** The label of such a child: in the first program the text of its child
    "name", in the second the name of the element itself. *)
Definition channel_label (p : program) (d : list xml_node) (c : lsl_xml_ptr)
    : option string :=
  match p with
  | AKlsl_cpp => child_value c "name" d
  | AzureKinect2lsl_cpp => xml_name <$> d !! c
  end.

(** The labels both programs give to the channels of a table. *)
Definition labels_of_table (g : list joint_entry) : list string :=
  flat_map (fun it : joint_entry => map (fun suffix => it.2 +:+ suffix) AKlsl.suffixes) g.

(** The elements that the first program appends for the channels with the
    given labels, when the first of them gets the handle [base]. *)
Fixpoint channel_nodes (chns base : lsl_xml_ptr) (labels : list string) : list xml_node :=
  match labels with
  | [] => []
  | label :: labels' =>
      {| xml_parent := Some chns; xml_name := "channel"; xml_value := None |} ::
      {| xml_parent := Some base; xml_name := "name"; xml_value := Some label |} ::
      {| xml_parent := Some base; xml_name := "unit"; xml_value := Some "mm" |} ::
      channel_nodes chns (base + 3) labels'
  end.

(** The elements that the second program appends for them. *)
Definition label_nodes (chns : lsl_xml_ptr) (labels : list string) : list xml_node :=
  map (fun label => {| xml_parent := Some chns; xml_name := label; xml_value := None |})
      labels.

Definition describe_of (p : program) :=
  match p with
  | AKlsl_cpp => AKlsl.describe
  | AzureKinect2lsl_cpp => AzureKinect2lsl.describe
  end.

(** The stream before it is described, with the given rate. *)
Definition stream (rate : Z) : lsl_streaminfo :=
  lsl_create_streaminfo "Azure-Kinect" "MoCap" (32 * 7) rate cft_double64 "325wqer4354".

(** A frame that the tracker delivers: all three calls succeed. *)
Definition delivered (f : FrameIO) : Prop :=
  get_capture_result f = K4A_WAIT_RESULT_SUCCEEDED /\
  queue_capture_result f = K4A_WAIT_RESULT_SUCCEEDED /\
  pop_frame_result f = K4A_WAIT_RESULT_SUCCEEDED.

(** ** Reading a run *)

(** The samples pushed, with the number of their frame. *)
Definition pushed (t : list event) : list (nat * list float) :=
  omap (fun e => match e with
                 | lsl_push_sample _ n data => Some (n, data)
                 | _ => None
                 end) t.

(** The streams handed to an outlet. *)
Definition outlets (t : list event) : list lsl_streaminfo :=
  omap (fun e => match e with
                 | lsl_create_outlet info => Some info
                 | _ => None
                 end) t.

(** The captures asked for. *)
Definition captures_asked (t : list event) : list nat :=
  omap (fun e => match e with
                 | k4a_device_get_capture n _ => Some n
                 | _ => None
                 end) t.

(** No call fails and no frame has several bodies. *)
Definition no_failure (frames : nat -> FrameIO) : Prop :=
  forall n, delivered (frames n) /\ k4abt_frame_get_num_bodies (frames n) <= 1.

(** What is pushed is pushed as floats, from the whole array [data]. *)
Definition float_sample (e : event) : Prop :=
  forall op n data,
    e = lsl_push_sample op n data -> op = lsl_push_sample_f /\ length data = data_length.

(** In the first program the counter of the loop is the number of the
    capture, and the loop is left when it comes to 100. *)
Definition counted (st : loop_state) : Prop :=
  frame_count st = Z.of_nat (captures st) /\ captures st < 100.

(** A description in which every element was made after its parent. *)
Definition parents_first (d : list xml_node) : Prop :=
  Forall (fun n => forall q, xml_parent n = Some q -> q < length d) d.

(** ** Turns that end the loop *)

(** The answers to which a program reacts with [break]. *)
Definition failure_breaks (p : program) (f : FrameIO) : Prop :=
  match p with
  | AKlsl_cpp =>
      get_capture_result f = K4A_WAIT_RESULT_SUCCEEDED /\
      queue_capture_result f <> K4A_WAIT_RESULT_SUCCEEDED
  | AzureKinect2lsl_cpp =>
      get_capture_result f <> K4A_WAIT_RESULT_SUCCEEDED \/
      queue_capture_result f <> K4A_WAIT_RESULT_SUCCEEDED \/
      pop_frame_result f <> K4A_WAIT_RESULT_SUCCEEDED
  end.

(** The calls of turn [n] up to the first answer that is not a success. *)
Definition failed_turn (tracker : k4abt_tracker_t) (n : nat) (f : FrameIO) : list event :=
  k4a_device_get_capture n (get_capture_result f) ::
  if decide (get_capture_result f = K4A_WAIT_RESULT_SUCCEEDED) then
    k4abt_tracker_enqueue_capture tracker n (queue_capture_result f) ::
    k4a_capture_release n ::
    if decide (queue_capture_result f = K4A_WAIT_RESULT_SUCCEEDED) then
      [k4abt_tracker_pop_result tracker n (pop_frame_result f)]
    else []
  else [].

(** The calls of turn [n] up to the result of the tracker. *)
Definition frame_popped (tracker : k4abt_tracker_t) (n : nat) : list event :=
  [ k4a_device_get_capture n K4A_WAIT_RESULT_SUCCEEDED;
    k4abt_tracker_enqueue_capture tracker n K4A_WAIT_RESULT_SUCCEEDED;
    k4a_capture_release n;
    k4abt_tracker_pop_result tracker n K4A_WAIT_RESULT_SUCCEEDED ].

(** ** Sample inputs *)

Module Sample.

(** The 32 joints of the Body Tracking SDK by identifier, as a table. *)
Definition sdk_joints : list joint_entry :=
  [ (0, "PELVIS"); (1, "SPINE_NAVEL"); (2, "SPINE_CHEST"); (3, "NECK");
    (4, "CLAVICLE_LEFT"); (5, "SHOULDER_LEFT"); (6, "ELBOW_LEFT"); (7, "WRIST_LEFT");
    (8, "HAND_LEFT"); (9, "HANDTIP_LEFT"); (10, "THUMB_LEFT"); (11, "CLAVICLE_RIGHT");
    (12, "SHOULDER_RIGHT"); (13, "ELBOW_RIGHT"); (14, "WRIST_RIGHT"); (15, "HAND_RIGHT");
    (16, "HANDTIP_RIGHT"); (17, "THUMB_RIGHT"); (18, "HIP_LEFT"); (19, "KNEE_LEFT");
    (20, "ANKLE_LEFT"); (21, "FOOT_LEFT"); (22, "HIP_RIGHT"); (23, "KNEE_RIGHT");
    (24, "ANKLE_RIGHT"); (25, "FOOT_RIGHT"); (26, "HEAD"); (27, "NOSE");
    (28, "EYE_LEFT"); (29, "EAR_LEFT"); (30, "EYE_RIGHT"); (31, "EAR_RIGHT") ].

(** A table of two joints. *)
Definition two_joints : list joint_entry := [ (0, "PELVIS"); (3, "NECK") ].

(** The state of the loop at the start of turn [n] of the first program. *)
Definition turn (n : nat) : loop_state :=
  {| frame_count := Z.of_nat n; captures := n |}.

Definition config : k4abt_tracker_configuration_t :=
  {| processing_mode := K4ABT_TRACKER_PROCESSING_MODE_GPU |}.

(** A skeleton whose values tell the joint and the component: joint [id]
    has the values [b + 10 * id + 1 .. b + 10 * id + 7]. *)
Definition skeleton (b : Z) : k4abt_skeleton_t :=
  {| joints := fun id =>
       let v := (b + 10 * Z.of_nat id)%Z in
       {| position := {| xyz_x := v + 1; xyz_y := v + 2; xyz_z := v + 3 |}%Z;
          orientation :=
            {| wxyz_w := v + 4; wxyz_x := v + 5; wxyz_y := v + 6; wxyz_z := v + 7 |}%Z |} |}.

(** A turn with the given answers and bodies; the memory of the locals
    holds negative numbers. *)
Definition frame (capture queue pop : k4a_wait_result_t)
    (bodies : list k4abt_skeleton_t) : FrameIO :=
  {| get_capture_result := capture;
     queue_capture_result := queue;
     pop_frame_result := pop;
     bodies := bodies;
     stack_data := fun i => (- Z.of_nat i - 1)%Z;
     stack_skeleton := skeleton (-1000) |}.

Definition good_frame (bodies : list k4abt_skeleton_t) : FrameIO :=
  frame K4A_WAIT_RESULT_SUCCEEDED K4A_WAIT_RESULT_SUCCEEDED K4A_WAIT_RESULT_SUCCEEDED bodies.

(** The device works, the two attempts to make a tracker end as given, and
    a recorder is there at poll [recorder]. *)
Definition setup (first second : k4a_result_t) (recorder : nat) : SetupIO :=
  {| device_open_result := K4A_RESULT_SUCCEEDED;
     start_cameras_result := K4A_RESULT_SUCCEEDED;
     get_calibration_result := K4A_RESULT_SUCCEEDED;
     tracker_create_result := fun k _ => if decide (k = 0) then first else second;
     consumers := fun k => bool_decide (k = recorder) |}.

(** All goes well: the CUDA tracker is made and a recorder is there at the
    second poll. *)
Definition good_setup : SetupIO := setup K4A_RESULT_SUCCEEDED K4A_RESULT_SUCCEEDED 1.

(** One body in every frame. *)
Definition one_body (n : nat) : FrameIO := good_frame [skeleton (100 * Z.of_nat n)].

(** One body, then none, then two, then one again. *)
Definition session (n : nat) : FrameIO :=
  match n with
  | 0 => good_frame [skeleton 100]
  | 1 => good_frame []
  | 2 => good_frame [skeleton 200; skeleton 300]
  | _ => good_frame [skeleton 400]
  end.

(** The capture fails in turn 1. *)
Definition capture_fails (n : nat) : FrameIO :=
  match n with
  | 1 => frame K4A_WAIT_RESULT_FAILED K4A_WAIT_RESULT_SUCCEEDED K4A_WAIT_RESULT_SUCCEEDED []
  | _ => good_frame [skeleton 100]
  end.

(** The tracker does not take the capture of turn 1. *)
Definition queue_fails (n : nat) : FrameIO :=
  match n with
  | 1 => frame K4A_WAIT_RESULT_SUCCEEDED K4A_WAIT_RESULT_FAILED K4A_WAIT_RESULT_SUCCEEDED []
  | _ => good_frame [skeleton 100]
  end.

End Sample.

(** ** More ways to read a run *)

(** The device answers all three calls of the prelude with success. *)
Definition device_ok (io : SetupIO) : Prop :=
  device_open_result io = K4A_RESULT_SUCCEEDED /\
  start_cameras_result io = K4A_RESULT_SUCCEEDED /\
  get_calibration_result io = K4A_RESULT_SUCCEEDED.

(** The calls to the device up to the first that fails. *)
Definition device_calls (io : SetupIO) : list event :=
  k4a_device_open (device_open_result io) ::
  if decide (device_open_result io = K4A_RESULT_SUCCEEDED) then
    k4a_device_start_cameras (start_cameras_result io) ::
    if decide (start_cameras_result io = K4A_RESULT_SUCCEEDED) then
      [k4a_device_get_calibration (get_calibration_result io)]
    else []
  else [].

(** The configuration of the first attempt to make a tracker, and that of
    the second attempt of each program. *)
Definition cuda_config (cfg : k4abt_tracker_configuration_t) : k4abt_tracker_configuration_t :=
  set_processing_mode cfg K4ABT_TRACKER_PROCESSING_MODE_GPU_CUDA.

Definition second_config (p : program) (cfg : k4abt_tracker_configuration_t)
    : k4abt_tracker_configuration_t :=
  match p with
  | AKlsl_cpp => set_processing_mode (cuda_config cfg) K4ABT_TRACKER_PROCESSING_MODE_CPU
  | AzureKinect2lsl_cpp => cfg
  end.

(** The tracker that an event hands to the tracker library. *)
Definition event_tracker (e : event) : option k4abt_tracker_t :=
  match e with
  | k4abt_tracker_enqueue_capture tracker _ _
  | k4abt_tracker_pop_result tracker _ _
  | k4abt_tracker_shutdown tracker
  | k4abt_tracker_destroy tracker => Some tracker
  | _ => None
  end.

(** The events of the lines after the loop. *)
Definition is_cleanup (e : event) : Prop :=
  match e with
  | k4abt_tracker_shutdown _ | k4abt_tracker_destroy _
  | k4a_device_stop_cameras | k4a_device_close => True
  | _ => False
  end.

(** The events of a run that are about capture [n], in order. *)
Definition events_of_frame (n : nat) (t : list event) : list event :=
  filter (fun e => event_frame e = Some n) t.

(** The answers to the polls for a recorder. *)
Definition polls (t : list event) : list bool :=
  omap (fun e => match e with
                 | lsl_wait_for_consumers r => Some r
                 | _ => None
                 end) t.

(** The array that a program hands to the outlet for a frame it got from
    the tracker with at most one body, if its stores stay in the array. *)
Definition sample_of (p : program) (g : list joint_entry) (f : FrameIO)
    : option (list float) :=
  match p with
  | AKlsl_cpp => AKlsl.extract f g 0 (fresh_data f)
  | AzureKinect2lsl_cpp =>
      AzureKinect2lsl.extract_bodies g f 0 (k4abt_frame_get_num_bodies f) (fresh_data f)
  end.

(** The answers to the two attempts to make a tracker, and the calls made:
    the second attempt is made only when the first has failed. *)
Definition first_result (cfg : k4abt_tracker_configuration_t) (io : SetupIO) : k4a_result_t :=
  tracker_create_result io 0 (cuda_config cfg).

Definition second_result (p : program) (cfg : k4abt_tracker_configuration_t) (io : SetupIO)
    : k4a_result_t :=
  tracker_create_result io 1 (second_config p cfg).

Definition create_calls (p : program) (cfg : k4abt_tracker_configuration_t) (io : SetupIO)
    : list event :=
  k4abt_tracker_create (cuda_config cfg) (first_result cfg io) ::
  if decide (first_result cfg io = K4A_RESULT_SUCCEEDED) then []
  else [k4abt_tracker_create (second_config p cfg) (second_result p cfg io)].

(** What follows the making of the stream: the polls, and the tracker if
    a recorder comes. *)
Definition after_outlet (io : SetupIO) (fuel : nat) (before : list event)
    (tracker : k4abt_tracker_t) : proc k4abt_tracker_t :=
  (before ++ (AKlsl.wait_for_recorder io fuel 0).1,
   match (AKlsl.wait_for_recorder io fuel 0).2 with
   | Val _ => Val tracker
   | Stop o => Stop o
   end).

(** The captures obtained and the captures released, the frames obtained
    and the frames released, each in the order of the events. *)
Definition obtained_captures (t : list event) : list nat :=
  omap (fun e => match e with
                 | k4a_device_get_capture n K4A_WAIT_RESULT_SUCCEEDED => Some n
                 | _ => None
                 end) t.

Definition queued_captures (t : list event) : list nat :=
  omap (fun e => match e with
                 | k4abt_tracker_enqueue_capture _ n _ => Some n
                 | _ => None
                 end) t.

Definition released_captures (t : list event) : list nat :=
  omap (fun e => match e with
                 | k4a_capture_release n => Some n
                 | _ => None
                 end) t.

Definition popped_frames (t : list event) : list nat :=
  omap (fun e => match e with
                 | k4abt_tracker_pop_result _ n K4A_WAIT_RESULT_SUCCEEDED => Some n
                 | _ => None
                 end) t.

Definition released_frames (t : list event) : list nat :=
  omap (fun e => match e with
                 | k4abt_frame_release n => Some n
                 | _ => None
                 end) t.

(** The rate of the stream tells which tracker was made. *)
Definition rate_of (cfg : k4abt_tracker_configuration_t) (io : SetupIO) : Z :=
  if decide (first_result cfg io = K4A_RESULT_SUCCEEDED) then 10 else 4.

(** The events of the lines before the loop. *)
Definition is_setup (e : event) : Prop :=
  match e with
  | k4a_device_open _ | k4a_device_start_cameras _ | k4a_device_get_calibration _
  | k4abt_tracker_create _ _ | lsl_create_outlet _ | lsl_wait_for_consumers _ => True
  | _ => False
  end.

(** The ways in which a process ends while it holds a frame of the
    tracker: [return -1], and a store outside the array. *)
Definition holds_frame (o : outcome) : Prop :=
  o = Exited (-1) \/ o = UndefinedBehaviour.

(** ** More sample inputs *)

Module Inputs.

(** The device opens and starts, and its calibration cannot be read. *)
Definition no_calibration : SetupIO :=
  {| device_open_result := K4A_RESULT_SUCCEEDED;
     start_cameras_result := K4A_RESULT_SUCCEEDED;
     get_calibration_result := K4A_RESULT_FAILED;
     tracker_create_result := fun _ _ => K4A_RESULT_SUCCEEDED;
     consumers := fun _ => true |}.

(** All goes well, and no recorder ever comes. *)
Definition no_recorder : SetupIO :=
  {| device_open_result := K4A_RESULT_SUCCEEDED;
     start_cameras_result := K4A_RESULT_SUCCEEDED;
     get_calibration_result := K4A_RESULT_SUCCEEDED;
     tracker_create_result := fun _ _ => K4A_RESULT_SUCCEEDED;
     consumers := fun _ => false |}.

(** The result of the tracker cannot be popped in turn 1. *)
Definition pop_fails (n : nat) : FrameIO :=
  match n with
  | 1 => Sample.frame K4A_WAIT_RESULT_SUCCEEDED K4A_WAIT_RESULT_SUCCEEDED
           K4A_WAIT_RESULT_TIMEOUT []
  | _ => Sample.good_frame [Sample.skeleton 100]
  end.

End Inputs.

(** ** A turn in closed form *)

(** What follows the calls of [failed_turn] in a turn: the sample and the
    release of the frame, when the frame was delivered with at most one
    body and the stores stayed in the array. *)
Definition sample_calls (p : program) (g : list joint_entry) (n : nat) (f : FrameIO)
    : list event :=
  if decide (get_capture_result f = K4A_WAIT_RESULT_SUCCEEDED) then
    if decide (queue_capture_result f = K4A_WAIT_RESULT_SUCCEEDED) then
      if decide (pop_frame_result f = K4A_WAIT_RESULT_SUCCEEDED) then
        if decide (k4abt_frame_get_num_bodies f > 1) then []
        else
          match sample_of p g f with
          | Some data => [lsl_push_sample lsl_push_sample_f n data; k4abt_frame_release n]
          | None => []
          end
      else []
    else []
  else [].

Definition turn_calls (p : program) (g : list joint_entry) (tracker : k4abt_tracker_t)
    (n : nat) (f : FrameIO) : list event :=
  failed_turn tracker n f ++ sample_calls p g n f.

(** The answers after which the first program goes on with the next turn
    without a sample. *)
Definition skipped (f : FrameIO) : Prop :=
  get_capture_result f <> K4A_WAIT_RESULT_SUCCEEDED \/
  (queue_capture_result f = K4A_WAIT_RESULT_SUCCEEDED /\
   pop_frame_result f <> K4A_WAIT_RESULT_SUCCEEDED).

(** ** The claims in their own words *)

(** The seven labels of a joint as the specification writes them: the name
    of the joint followed by _posx, _posy, _posz, _oriw, _orix, _oriy,
    _oriz. *)
Definition labels_of_joint (name : string) : list string :=
  [ name +:+ "_posx"; name +:+ "_posy"; name +:+ "_posz";
    name +:+ "_oriw"; name +:+ "_orix"; name +:+ "_oriy"; name +:+ "_oriz" ].

(** The labels of a table: those of its joints, in table order. *)
Definition claimed_labels (g : list joint_entry) : list string :=
  flat_map (fun it : joint_entry => labels_of_joint it.2) g.

(** The answers of a turn after which a program goes on with the next
    turn: the frame is delivered with at most one body and the stores stay
    in the array, or, in the first program, the wait for the capture or for
    the result of the tracker has failed. *)
Definition goes_on (p : program) (g : list joint_entry) (f : FrameIO) : Prop :=
  (delivered f /\ k4abt_frame_get_num_bodies f <= 1 /\ is_Some (sample_of p g f)) \/
  (p = AKlsl_cpp /\ skipped f).

(** ** Tactics *)

(** Goes through the members of a list that is given by its elements. *)
Ltac members H :=
  repeat (apply elem_of_cons in H as [H|H]; [try done|]);
  try (by apply elem_of_nil in H).

Ltac turn_cases :=
  unfold AKlsl.loop_body, AzureKinect2lsl.loop_body;
  repeat case_decide;
  repeat match goal with
         | |- context [ AKlsl.extract ?f ?it ?j ?d ] =>
             destruct (AKlsl.extract f it j d)
         | |- context [ AzureKinect2lsl.extract_bodies ?g ?f ?i ?n ?d ] =>
             destruct (AzureKinect2lsl.extract_bodies g f i n d)
         end;
  simpl.

Ltac prelude_cases io :=
  unfold AKlsl.prelude, AzureKinect2lsl.prelude,
    AKlsl.open_device, AzureKinect2lsl.open_device,
    AKlsl.create_tracker, AzureKinect2lsl.create_tracker, VERIFY;
  destruct (device_open_result io), (start_cameras_result io),
    (get_calibration_result io); simpl;
  repeat (case_decide; simpl).

(** Finds an event in a run that is computed. *)
Ltac in_run := apply list_elem_of_In; vm_compute; tauto.

#[local] Arguments Nat.mul : simpl never.

(** ** Facts about the array *)

Lemma length_fresh_data (f : FrameIO) : length (fresh_data f) = data_length.
Proof. unfold fresh_data. by rewrite length_map, length_seq. Qed.

Lemma store_Some (i : nat) (v : float) (data : list float) :
  i < length data -> store i v data = Some (<[i:=v]> data).
Proof. intros H. unfold store. by rewrite decide_True. Qed.

Lemma store_None (i : nat) (v : float) (data : list float) :
  length data <= i -> store i v data = None.
Proof. intros H. unfold store. rewrite decide_False; [done | lia]. Qed.

Lemma store_length (i : nat) (v : float) (data data' : list float) :
  store i v data = Some data' -> length data' = length data.
Proof.
  unfold store. case_decide; [|done]. intros [= <-]. apply length_insert.
Qed.

Lemma insert7 (d : list float) (b : nat) (v0 v1 v2 v3 v4 v5 v6 : float) :
  b + 7 <= length d ->
  <[b+6:=v6]> (<[b+5:=v5]> (<[b+4:=v4]> (<[b+3:=v3]> (<[b+2:=v2]> (<[b+1:=v1]> (<[b+0:=v0]> d))))))
  = take b d ++ [v0;v1;v2;v3;v4;v5;v6] ++ drop (b+7) d.
Proof.
  intros Hb.
  rewrite <- (take_drop b d) at 1.
  assert (Hl : length (take b d) = b) by (rewrite length_take; lia).
  remember (take b d) as p. remember (drop b d) as q.
  assert (Hq : 7 <= length q) by (subst q; rewrite length_drop; lia).
  assert (Hd : drop (b + 7) d = drop 7 q) by (subst q; rewrite drop_drop; done).
  rewrite Hd. clear Heqp Heqq Hd Hb d.
  do 7 (destruct q as [|? q]; [simpl in Hq; lia|]).
  rewrite <- Hl.
  repeat (rewrite insert_app_r_alt by lia).
  repeat match goal with
         | |- context [ (length p + ?k - length p)%nat ] =>
             replace (length p + k - length p)%nat with k by lia
         end.
  reflexivity.
Qed.

Lemma extract_joints_step {A : Type} (k : list float -> option A)
    (sk : k4abt_skeleton_t) (entry : joint_entry) (j : nat) (data : list float) :
  7 * j + 7 <= length data ->
  (data ← store (j * 7) (xyz_x (position (joints sk entry.1))) data;
   data ← store (1 + j * 7) (xyz_y (position (joints sk entry.1))) data;
   data ← store (2 + j * 7) (xyz_z (position (joints sk entry.1))) data;
   data ← store (3 + j * 7) (wxyz_w (orientation (joints sk entry.1))) data;
   data ← store (4 + j * 7) (wxyz_x (orientation (joints sk entry.1))) data;
   data ← store (5 + j * 7) (wxyz_y (orientation (joints sk entry.1))) data;
   data ← store (6 + j * 7) (wxyz_z (orientation (joints sk entry.1))) data;
   k data)
  = k (take (7 * j) data ++ pose sk entry ++ drop (7 * j + 7) data).
Proof.
  intros Hb.
  replace (j * 7) with (7 * j + 0) by lia.
  replace (1 + (7 * j + 0)) with (7 * j + 1) by lia.
  replace (2 + (7 * j + 0)) with (7 * j + 2) by lia.
  replace (3 + (7 * j + 0)) with (7 * j + 3) by lia.
  replace (4 + (7 * j + 0)) with (7 * j + 4) by lia.
  replace (5 + (7 * j + 0)) with (7 * j + 5) by lia.
  replace (6 + (7 * j + 0)) with (7 * j + 6) by lia.
  repeat (rewrite store_Some by (rewrite ?length_insert; lia); simpl).
  f_equal. by apply insert7.
Qed.

Lemma extract_joints_step_overflow {A : Type} (k : list float -> option A)
    (sk : k4abt_skeleton_t) (entry : joint_entry) (j : nat) (data : list float) :
  length data < 7 * j + 7 ->
  (data ← store (j * 7) (xyz_x (position (joints sk entry.1))) data;
   data ← store (1 + j * 7) (xyz_y (position (joints sk entry.1))) data;
   data ← store (2 + j * 7) (xyz_z (position (joints sk entry.1))) data;
   data ← store (3 + j * 7) (wxyz_w (orientation (joints sk entry.1))) data;
   data ← store (4 + j * 7) (wxyz_x (orientation (joints sk entry.1))) data;
   data ← store (5 + j * 7) (wxyz_y (orientation (joints sk entry.1))) data;
   data ← store (6 + j * 7) (wxyz_z (orientation (joints sk entry.1))) data;
   k data)
  = None.
Proof.
  intros Hb. unfold store.
  repeat (case_decide; simpl; rewrite ?length_insert in *; try done).
  lia.
Qed.

Lemma extract_joints_spec (sk : k4abt_skeleton_t) (it : list joint_entry) :
  forall (j : nat) (data : list float),
    7 * (j + length it) <= length data ->
    AzureKinect2lsl.extract_joints sk it j data
    = Some (take (7 * j) data ++ flat_map (pose sk) it ++ drop (7 * (j + length it)) data).
Proof.
  induction it as [|entry it IH]; intros j data Hb;
    cbn [AzureKinect2lsl.extract_joints flat_map length] in *.
  - rewrite Nat.add_0_r, app_nil_l. by rewrite take_drop.
  - etrans; [apply (extract_joints_step (fun d => AzureKinect2lsl.extract_joints sk it (j + 1) d)); lia|].
    set (p := take (7 * j) data).
    assert (Hp : length p = 7 * j) by (subst p; rewrite length_take; lia).
    assert (Hpose : length (pose sk entry) = 7) by done.
    rewrite IH.
    2:{ rewrite !length_app, Hp, Hpose, length_drop. lia. }
    f_equal.
    replace (7 * (j + 1)) with (length (p ++ pose sk entry)) by (rewrite length_app, Hp, Hpose; lia).
    rewrite (app_assoc p). rewrite take_app_length.
    rewrite <- !app_assoc. f_equal. f_equal. f_equal.
    rewrite (app_assoc p).
    rewrite drop_app_ge by (rewrite length_app, Hp, Hpose; lia).
    rewrite drop_drop. f_equal. rewrite length_app, Hp, Hpose. lia.
Qed.

Lemma extract_joints_overflow (sk : k4abt_skeleton_t) (it : list joint_entry) :
  forall (j : nat) (data : list float),
    it <> [] ->
    length data < 7 * (j + length it) ->
    AzureKinect2lsl.extract_joints sk it j data = None.
Proof.
  induction it as [|entry it IH]; intros j data Hne Hb; [done|].
  cbn [AzureKinect2lsl.extract_joints length] in *.
  destruct (decide (7 * j + 7 <= length data)) as [Hin|Hout].
  - etrans; [apply (extract_joints_step (fun d => AzureKinect2lsl.extract_joints sk it (j + 1) d)); lia|].
    apply IH.
    + intros ->. simpl in Hb. lia.
    + rewrite !length_app, length_take, length_drop.
      assert (Hpose : length (pose sk entry) = 7) by done. rewrite Hpose. lia.
  - apply extract_joints_step_overflow. lia.
Qed.

(** The loop of lines 131-147 stores what the loop of lines 282-295 stores
    for the skeleton of body 0. *)
Lemma extract_extract_joints (f : FrameIO) (it : list joint_entry) :
  forall (j : nat) (data : list float),
    AKlsl.extract f it j data
    = AzureKinect2lsl.extract_joints
        (k4abt_frame_get_body_skeleton f 0 (stack_skeleton f)) it j data.
Proof.
  induction it as [|entry it IH]; intros j data; [done|].
  cbn [AKlsl.extract AzureKinect2lsl.extract_joints].
  rewrite !Nat.add_0_r.
  replace (j * 7 + 1) with (1 + j * 7) by lia.
  replace (j * 7 + 2) with (2 + j * 7) by lia.
  replace (j * 7 + 3) with (3 + j * 7) by lia.
  replace (j * 7 + 4) with (4 + j * 7) by lia.
  replace (j * 7 + 5) with (5 + j * 7) by lia.
  replace (j * 7 + 6) with (6 + j * 7) by lia.
  replace (j + 1) with (S j) by lia.
  repeat (apply option_bind_ext_fun; intros ?).
  apply IH.
Qed.

(** ** Facts about processes *)

Lemma bind_Val {A B : Type} (t : list event) (a : A) (f : A -> proc B) :
  bind (t, Val a) f = (t ++ (f a).1, (f a).2).
Proof. unfold bind. by destruct (f a). Qed.

Lemma bind_Stop {A B : Type} (t : list event) (o : outcome) (f : A -> proc B) :
  bind (t, Stop o) f = (t, Stop o).
Proof. done. Qed.

Lemma bind_assoc {A B C : Type} (m : proc A) (f : A -> proc B) (g : B -> proc C) :
  bind (bind m f) g = bind m (fun a => bind (f a) g).
Proof.
  destruct m as [t [a|o]]; [|done].
  unfold bind at 2 3. destruct (f a) as [t' [b|o]]; simpl.
  - destruct (g b). by rewrite app_assoc.
  - done.
Qed.

Lemma run_trace (p : proc Empty_set) : (run p).1 = p.1.
Proof. by destruct p as [t [[]|o]]. Qed.

Lemma run_outcome (p : proc Empty_set) : p.2 = Stop (run p).2.
Proof. by destruct p as [t [[]|o]]. Qed.

Lemma bind_trace_Forall {A B : Type} (P : event -> Prop) (m : proc A) (f : A -> proc B) :
  Forall P m.1 -> (forall a, m.2 = Val a -> Forall P (f a).1) -> Forall P (bind m f).1.
Proof.
  destruct m as [t [a|o]]; simpl; intros Ht Hf; [|done].
  specialize (Hf a eq_refl). destruct (f a). simpl in *. by apply Forall_app.
Qed.

(** ** Facts about the turns of a loop *)

Section Loop.
Variable body : loop_state -> proc (ctl * loop_state).
Variable cond : loop_state -> bool * loop_state.

Hypothesis body_events :
  forall st, Forall (fun e => event_frame e = Some (captures st)) (body st).1.
Hypothesis body_state :
  forall st c st', (body st).2 = Val (c, st') -> captures st' = S (captures st).
Hypothesis cond_state :
  forall st, captures (cond st).2 = captures st.

Lemma do_while_S (fuel : nat) (st : loop_state) :
  do_while body cond (S fuel) st
  = bind (body st) (fun '(c, st1) =>
      match c with
      | Break => ret st1
      | Normal =>
          let '(b, st2) := cond st1 in
          if b then do_while body cond fuel st2 else ret st2
      end).
Proof. done. Qed.

(** The events of a loop are about the captures from the current one on. *)
Lemma do_while_frames (fuel : nat) :
  forall st,
    Forall (fun e => exists n, event_frame e = Some n /\ captures st <= n)
      (do_while body cond fuel st).1.
Proof.
  induction fuel as [|fuel IH]; intros st; [by constructor|].
  rewrite do_while_S. apply bind_trace_Forall.
  - eapply Forall_impl; [apply body_events|]. intros e He. exists (captures st). split; [done|lia].
  - intros [c st1] Hb. apply body_state in Hb.
    destruct c; [|by constructor].
    pose proof (cond_state st1) as Hc.
    destruct (cond st1) as [b st2]. simpl in Hc.
    destruct b; [|by constructor].
    eapply Forall_impl; [apply IH|].
    intros e (n & Hn & Hle). exists n. split; [done|lia].
Qed.

(** When a loop has an event about capture [k], the loop has come to turn
    [k], after events about earlier captures only. *)
Lemma do_while_reach (k : nat) (fuel : nat) :
  forall st e,
    e ∈ (do_while body cond fuel st).1 ->
    event_frame e = Some k ->
    exists pre fuel' st',
      captures st' = k /\
      Forall (fun e => exists n, event_frame e = Some n /\ n < k) pre /\
      (forall m, captures st <= m < k ->
         exists st_m t st1, captures st_m = m /\ body st_m = (t, Val (Normal, st1))) /\
      do_while body cond fuel st
      = (pre ++ (do_while body cond (S fuel') st').1,
         (do_while body cond (S fuel') st').2).
Proof.
  induction fuel as [|fuel IH]; intros st e He Hk.
  { simpl in He. by apply elem_of_nil in He. }
  destruct (decide (captures st = k)) as [Heq|Hne].
  { exists [], fuel, st. split; [done|]. split; [constructor|].
    split; [intros m Hm; lia|].
    by destruct (do_while body cond (S fuel) st). }
  rewrite do_while_S in He |- *.
  pose proof (body_events st) as Hev.
  pose proof (body_state st) as Hst.
  destruct (body st) as [t [[c st1]|o]] eqn:Hbody; simpl in Hev, Hst.
  2:{ simpl in He. eapply Forall_forall in Hev; [|done]. congruence. }
  specialize (Hst c st1 eq_refl).
  rewrite bind_Val in He |- *. simpl in He.
  apply elem_of_app in He as [He|He].
  { eapply Forall_forall in Hev; [|done]. congruence. }
  destruct c; [|simpl in He; by apply elem_of_nil in He].
  pose proof (cond_state st1) as Hc.
  destruct (cond st1) as [b st2]. simpl in Hc.
  destruct b; [|simpl in He; by apply elem_of_nil in He].
  pose proof (do_while_frames fuel st2) as Hge.
  eapply Forall_forall in Hge; [|done].
  destruct Hge as (n & Hn & Hle). assert (n = k) by congruence. subst n.
  destruct (IH st2 e He Hk) as (pre & fuel' & st' & Hcap & Hpre & Hturns & Heq).
  exists (t ++ pre), fuel', st'. split; [done|]. split; [|split].
  - apply Forall_app. split; [|done].
    eapply Forall_impl; [apply Hev|]. intros e' He'. exists (captures st). split; [done|lia].
  - intros m Hm. destruct (decide (m = captures st)) as [->|Hm'].
    + by exists st, t, st1.
    + apply Hturns. lia.
  - rewrite Heq. simpl. by rewrite app_assoc.
Qed.

End Loop.

(** ** Facts about both programs *)

Lemma AKlsl_body_events (g : list joint_entry) (tracker : k4abt_tracker_t)
    (frames : nat -> FrameIO) (st : loop_state) :
  Forall (fun e => event_frame e = Some (captures st))
    (AKlsl.loop_body g tracker frames st).1.
Proof. turn_cases; repeat constructor. Qed.

Lemma AKlsl_body_state (g : list joint_entry) (tracker : k4abt_tracker_t)
    (frames : nat -> FrameIO) (st : loop_state) (c : ctl) (st' : loop_state) :
  (AKlsl.loop_body g tracker frames st).2 = Val (c, st') ->
  captures st' = S (captures st).
Proof. turn_cases; intros [= <- <-] || intros [=]; done. Qed.

Lemma AKlsl_cond_state (st : loop_state) :
  captures (AKlsl.loop_cond st).2 = captures st.
Proof. done. Qed.

Lemma AzureKinect2lsl_body_events (g : list joint_entry) (tracker : k4abt_tracker_t)
    (frames : nat -> FrameIO) (st : loop_state) :
  Forall (fun e => event_frame e = Some (captures st))
    (AzureKinect2lsl.loop_body g tracker frames st).1.
Proof. turn_cases; repeat constructor. Qed.

Lemma AzureKinect2lsl_body_state (g : list joint_entry) (tracker : k4abt_tracker_t)
    (frames : nat -> FrameIO) (st : loop_state) (c : ctl) (st' : loop_state) :
  (AzureKinect2lsl.loop_body g tracker frames st).2 = Val (c, st') ->
  captures st' = S (captures st).
Proof. turn_cases; intros [= <- <-] || intros [=]; done. Qed.

Lemma AzureKinect2lsl_cond_state (st : loop_state) :
  captures (AzureKinect2lsl.loop_cond st).2 = captures st.
Proof. done. Qed.

(** No event of the prelude is about a capture. *)
Lemma VERIFY_trace (r : k4a_result_t) : (VERIFY r).1 = [].
Proof. by destruct r. Qed.

Lemma wait_for_recorder_events (io : SetupIO) (fuel : nat) :
  forall k, Forall (fun e => exists r, e = lsl_wait_for_consumers r)
              (AKlsl.wait_for_recorder io fuel k).1.
Proof.
  induction fuel as [|fuel IH]; intros k; simpl; [constructor|].
  destruct (consumers io k); simpl.
  - repeat constructor. by eexists.
  - specialize (IH (S k)). destruct (AKlsl.wait_for_recorder io fuel (S k)) as [t r].
    simpl in *. constructor; [by eexists|done].
Qed.

Lemma wait_for_recorder_same (io : SetupIO) (fuel : nat) :
  forall k, AzureKinect2lsl.wait_for_recorder io fuel k = AKlsl.wait_for_recorder io fuel k.
Proof. induction fuel as [|fuel IH]; intros k; simpl; [done|]. by rewrite IH. Qed.

Lemma AKlsl_prelude_events (g : list joint_entry) (cfg : k4abt_tracker_configuration_t)
    (io : SetupIO) (fuel : nat) :
  Forall (fun e => event_frame e = None) (AKlsl.prelude g cfg io fuel).1.
Proof.
  pose proof (wait_for_recorder_events io fuel 0) as Hw.
  assert (Hw' : Forall (fun e => event_frame e = None) (AKlsl.wait_for_recorder io fuel 0).1).
  { eapply Forall_impl; [done|]. by intros e [r ->]. }
  prelude_cases io; repeat constructor;
    destruct (AKlsl.wait_for_recorder io fuel 0) as [t [[]|o]]; simpl in *;
    rewrite ?app_nil_r; repeat constructor; done.
Qed.

Lemma AzureKinect2lsl_prelude_events (g : list joint_entry)
    (cfg : k4abt_tracker_configuration_t) (io : SetupIO) (fuel : nat) :
  Forall (fun e => event_frame e = None) (AzureKinect2lsl.prelude g cfg io fuel).1.
Proof.
  pose proof (wait_for_recorder_events io fuel 0) as Hw.
  assert (Hw' : Forall (fun e => event_frame e = None) (AKlsl.wait_for_recorder io fuel 0).1).
  { eapply Forall_impl; [done|]. by intros e [r ->]. }
  prelude_cases io; repeat constructor;
    rewrite wait_for_recorder_same;
    destruct (AKlsl.wait_for_recorder io fuel 0) as [t [[]|o]]; simpl in *;
    rewrite ?app_nil_r; repeat constructor; done.
Qed.

Section Programs.
Variable p : program.
Variable g : list joint_entry.
Variable cfg : k4abt_tracker_configuration_t.

Lemma prelude_events (io : SetupIO) (fuel : nat) :
  Forall (fun e => event_frame e = None) (prelude_of p g cfg io fuel).1.
Proof.
  destruct p; [apply AKlsl_prelude_events | apply AzureKinect2lsl_prelude_events].
Qed.

Lemma body_events (tracker : k4abt_tracker_t) (frames : nat -> FrameIO) (st : loop_state) :
  Forall (fun e => event_frame e = Some (captures st))
    (loop_body_of p g tracker frames st).1.
Proof.
  destruct p; [apply AKlsl_body_events | apply AzureKinect2lsl_body_events].
Qed.

Lemma body_state (tracker : k4abt_tracker_t) (frames : nat -> FrameIO) (st : loop_state)
    (c : ctl) (st' : loop_state) :
  (loop_body_of p g tracker frames st).2 = Val (c, st') ->
  captures st' = S (captures st).
Proof.
  destruct p; [apply AKlsl_body_state | apply AzureKinect2lsl_body_state].
Qed.

Lemma cond_state (st : loop_state) : captures (loop_cond_of p st).2 = captures st.
Proof. by destruct p. Qed.

Lemma capture_loop_eq (tracker : k4abt_tracker_t) (frames : nat -> FrameIO) (fuel : nat) :
  capture_loop_of p g tracker frames fuel
  = do_while (loop_body_of p g tracker frames) (loop_cond_of p) fuel
      {| frame_count := 0; captures := 0 |}.
Proof. by destruct p. Qed.

(** [main], by the way its parts end. *)
Lemma main_eq (io : SetupIO) (frames : nat -> FrameIO) (fuel : nat) :
  main_of p g cfg io frames fuel
  = match prelude_of p g cfg io fuel with
    | (t0, Stop o) => (t0, o)
    | (t0, Val tracker) =>
        match capture_loop_of p g tracker frames fuel with
        | (t1, Stop o) => (t0 ++ t1, o)
        | (t1, Val _) => (t0 ++ t1 ++ cleanup_events tracker, Exited 0)
        end
    end.
Proof.
  destruct p; simpl; unfold AKlsl.main, AzureKinect2lsl.main.
  - destruct (AKlsl.prelude g cfg io fuel) as [t0 [tracker|o]]; [|done].
    rewrite bind_Val.
    destruct (AKlsl.capture_loop g tracker frames fuel) as [t1 [st|o]]; done.
  - destruct (AzureKinect2lsl.prelude g cfg io fuel) as [t0 [tracker|o]]; [|done].
    rewrite bind_Val.
    destruct (AzureKinect2lsl.capture_loop g tracker frames fuel) as [t1 [st|o]]; done.
Qed.

Lemma cleanup_events_frame (tracker : k4abt_tracker_t) :
  Forall (fun e => event_frame e = None) (cleanup_events tracker).
Proof. repeat constructor. Qed.

(** When a run has an event about capture [k], the prelude has ended well
    and the loop has come to turn [k], after turns that ended normally. *)
Lemma main_reach (io : SetupIO) (frames : nat -> FrameIO) (fuel : nat)
    (e : event) (k : nat) :
  e ∈ (main_of p g cfg io frames fuel).1 ->
  event_frame e = Some k ->
  exists t0 tracker pre fuel' st',
    prelude_of p g cfg io fuel = (t0, Val tracker) /\
    captures st' = k /\
    Forall (fun e => forall n, event_frame e = Some n -> n < k) (t0 ++ pre) /\
    (forall m, m < k ->
       exists st_m t st1,
         captures st_m = m /\
         loop_body_of p g tracker frames st_m = (t, Val (Normal, st1))) /\
    main_of p g cfg io frames fuel
    = match do_while (loop_body_of p g tracker frames) (loop_cond_of p) (S fuel') st' with
      | (t1, Stop o) => (t0 ++ pre ++ t1, o)
      | (t1, Val _) => (t0 ++ pre ++ t1 ++ cleanup_events tracker, Exited 0)
      end.
Proof.
  intros He Hk. rewrite main_eq in He |- *.
  pose proof (prelude_events io fuel) as Hpre.
  destruct (prelude_of p g cfg io fuel) as [t0 [tracker|o]]; simpl in Hpre.
  2:{ simpl in He. eapply Forall_forall in Hpre; [|done]. congruence. }
  assert (Hin : e ∈ (capture_loop_of p g tracker frames fuel).1).
  { destruct (capture_loop_of p g tracker frames fuel) as [t1 [st|o]]; simpl in *.
    - rewrite !elem_of_app in He. destruct He as [He|[He|He]]; [|done|].
      + eapply Forall_forall in Hpre; [|done]. congruence.
      + pose proof (cleanup_events_frame tracker) as Hc.
        eapply Forall_forall in Hc; [|done]. congruence.
    - rewrite elem_of_app in He. destruct He as [He|He]; [|done].
      eapply Forall_forall in Hpre; [|done]. congruence. }
  rewrite capture_loop_eq in Hin |- *.
  destruct (do_while_reach _ _ (body_events tracker frames) (body_state tracker frames)
              cond_state k fuel _ e Hin Hk)
    as (pre & fuel' & st' & Hcap & Hlt & Hturns & Heq).
  exists t0, tracker, pre, fuel', st'.
  split; [done|]. split; [done|]. split; [|split].
  - apply Forall_app. split.
    + eapply Forall_impl; [apply Hpre|]. intros e' He' n Hn. congruence.
    + eapply Forall_impl; [apply Hlt|]. intros e' (n' & Hn' & Hlt') n Hn.
      assert (n = n') by congruence. lia.
  - intros m Hm. apply Hturns. simpl. lia.
  - rewrite Heq.
    destruct (do_while _ _ (S fuel') st') as [t1 [st|o]]; simpl;
      by rewrite <- ?app_assoc.
Qed.

End Programs.

(** ** Single turns *)

(** The array [data] has room for the joints of a table of 31 entries, and
    of no larger table. *)
Lemma extract_fits (g : list joint_entry) (f : FrameIO) (sk : k4abt_skeleton_t) :
  length g <= 31 ->
  AzureKinect2lsl.extract_joints sk g 0 (fresh_data f)
  = Some (flat_map (pose sk) g ++ drop (7 * length g) (fresh_data f)).
Proof.
  intros Hg. rewrite extract_joints_spec.
  - by rewrite Nat.mul_0_r, take_0, Nat.add_0_l.
  - rewrite length_fresh_data. unfold data_length. lia.
Qed.

Lemma extract_overflows (g : list joint_entry) (f : FrameIO) (sk : k4abt_skeleton_t) :
  31 < length g ->
  AzureKinect2lsl.extract_joints sk g 0 (fresh_data f) = None.
Proof.
  intros Hg. apply extract_joints_overflow.
  - intros ->. simpl in Hg. lia.
  - rewrite length_fresh_data. unfold data_length. lia.
Qed.

Section Turns.
Variable g : list joint_entry.
Variable tracker : k4abt_tracker_t.
Variable frames : nat -> FrameIO.
Variable st : loop_state.

Lemma turn_many_bodies (p : program) :
  delivered (frames (captures st)) ->
  k4abt_frame_get_num_bodies (frames (captures st)) > 1 ->
  loop_body_of p g tracker frames st = (frame_popped tracker (captures st), Stop (Exited (-1))).
Proof.
  intros (H1 & H2 & H3) Hn.
  destruct p; simpl; unfold AKlsl.loop_body, AzureKinect2lsl.loop_body;
    rewrite H1, H2, H3; simpl; by rewrite decide_True.
Qed.

Lemma turn_one_body (p : program) (skeleton : k4abt_skeleton_t) :
  length g <= 31 ->
  delivered (frames (captures st)) ->
  bodies (frames (captures st)) = [skeleton] ->
  loop_body_of p g tracker frames st
  = (frame_popped tracker (captures st) ++
     [ lsl_push_sample lsl_push_sample_f (captures st)
         (flat_map (pose skeleton) g ++ drop (7 * length g) (fresh_data (frames (captures st))));
       k4abt_frame_release (captures st) ],
     Val (Normal, next_capture st)).
Proof.
  intros Hg (H1 & H2 & H3) Hb.
  destruct p; simpl; unfold AKlsl.loop_body, AzureKinect2lsl.loop_body;
    rewrite H1, H2, H3; simpl;
    unfold k4abt_frame_get_num_bodies; rewrite Hb; simpl.
  - rewrite extract_extract_joints. unfold k4abt_frame_get_body_skeleton.
    rewrite Hb. simpl. by rewrite extract_fits.
  - unfold k4abt_frame_get_body_skeleton. rewrite Hb. simpl.
    by rewrite extract_fits.
Qed.

Lemma turn_no_body_first :
  length g <= 31 ->
  delivered (frames (captures st)) ->
  bodies (frames (captures st)) = [] ->
  AKlsl.loop_body g tracker frames st
  = (frame_popped tracker (captures st) ++
     [ lsl_push_sample lsl_push_sample_f (captures st)
         (flat_map (pose (stack_skeleton (frames (captures st)))) g ++ drop (7 * length g) (fresh_data (frames (captures st))));
       k4abt_frame_release (captures st) ],
     Val (Normal, next_capture st)).
Proof.
  intros Hg (H1 & H2 & H3) Hb.
  unfold AKlsl.loop_body. rewrite H1, H2, H3. simpl.
  unfold k4abt_frame_get_num_bodies. rewrite Hb. simpl.
  rewrite extract_extract_joints. unfold k4abt_frame_get_body_skeleton.
  rewrite Hb. simpl. by rewrite extract_fits.
Qed.

Lemma turn_no_body_second :
  delivered (frames (captures st)) ->
  bodies (frames (captures st)) = [] ->
  AzureKinect2lsl.loop_body g tracker frames st
  = (frame_popped tracker (captures st) ++
     [ lsl_push_sample lsl_push_sample_f (captures st) (fresh_data (frames (captures st)));
       k4abt_frame_release (captures st) ],
     Val (Normal, next_capture st)).
Proof.
  intros (H1 & H2 & H3) Hb.
  unfold AzureKinect2lsl.loop_body. rewrite H1, H2, H3. simpl.
  unfold k4abt_frame_get_num_bodies. by rewrite Hb.
Qed.

Lemma turn_failure_breaks (p : program) :
  failure_breaks p (frames (captures st)) ->
  loop_body_of p g tracker frames st
  = (failed_turn tracker (captures st) (frames (captures st)), Val (Break, next_capture st)).
Proof.
  unfold failed_turn.
  destruct p; simpl; unfold AKlsl.loop_body, AzureKinect2lsl.loop_body.
  - intros [H1 H2]. rewrite H1. simpl.
    rewrite decide_True by done. rewrite decide_False by done. done.
  - intros H.
    destruct (get_capture_result (frames (captures st))) eqn:E1; simpl; try done.
    destruct (queue_capture_result (frames (captures st))) eqn:E2; simpl; try done.
    destruct (pop_frame_result (frames (captures st))) eqn:E3; simpl; try done.
    destruct H as [?|[?|?]]; done.
Qed.

End Turns.

(** ** Whole runs *)

Section Runs.
Variable p : program.
Variable g : list joint_entry.
Variable cfg : k4abt_tracker_configuration_t.
Variable io : SetupIO.
Variable frames : nat -> FrameIO.
Variable fuel : nat.

(** A run that comes to a turn with several bodies ends there. *)
Lemma main_at_many_bodies (e : event) (k : nat) :
  delivered (frames k) ->
  k4abt_frame_get_num_bodies (frames k) > 1 ->
  e ∈ (main_of p g cfg io frames fuel).1 ->
  event_frame e = Some k ->
  exists before tracker,
    main_of p g cfg io frames fuel = (before ++ frame_popped tracker k, Exited (-1)) /\
    Forall (fun e => forall n, event_frame e = Some n -> n < k) before.
Proof.
  intros Hd Hn He Hk.
  destruct (main_reach p g cfg io frames fuel e k He Hk)
    as (t0 & tracker & pre & fuel' & st' & _ & Hcap & Hlt & _ & Heq).
  exists (t0 ++ pre), tracker. split; [|done].
  rewrite Heq, do_while_S. subst k.
  rewrite turn_many_bodies by done. simpl. by rewrite app_assoc.
Qed.

(** No event of a run is about a capture after one with several bodies. *)
Lemma main_many_bodies_bound (e : event) (k n : nat) :
  delivered (frames k) ->
  k4abt_frame_get_num_bodies (frames k) > 1 ->
  e ∈ (main_of p g cfg io frames fuel).1 ->
  event_frame e = Some n ->
  n <= k.
Proof.
  intros Hd Hn He Hk.
  destruct (decide (n <= k)) as [|Hgt]; [done|exfalso].
  destruct (main_reach p g cfg io frames fuel e n He Hk)
    as (t0 & tracker & pre & fuel' & st' & _ & _ & _ & Hturns & _).
  destruct (Hturns k ltac:(lia)) as (st_k & t & st1 & Hcap & Hbody).
  subst k. rewrite turn_many_bodies in Hbody by done. congruence.
Qed.

(** A run that comes to a turn whose failure the program answers with
    [break] goes on with the lines after the loop. *)
Lemma main_at_failure (e : event) (k : nat) :
  failure_breaks p (frames k) ->
  e ∈ (main_of p g cfg io frames fuel).1 ->
  event_frame e = Some k ->
  exists before tracker,
    main_of p g cfg io frames fuel
    = (before ++ failed_turn tracker k (frames k) ++ cleanup_events tracker, Exited 0) /\
    Forall (fun e => forall n, event_frame e = Some n -> n < k) before.
Proof.
  intros Hf He Hk.
  destruct (main_reach p g cfg io frames fuel e k He Hk)
    as (t0 & tracker & pre & fuel' & st' & _ & Hcap & Hlt & _ & Heq).
  exists (t0 ++ pre), tracker. split; [|done].
  rewrite Heq, do_while_S. subst k.
  rewrite turn_failure_breaks by done. simpl. by rewrite <- !app_assoc.
Qed.

End Runs.

(** ** The pose vector *)

Lemma lookup_poses (sk : k4abt_skeleton_t) (g : list joint_entry) :
  forall (j c : nat) (entry : joint_entry),
    g !! j = Some entry ->
    c < 7 ->
    flat_map (pose sk) g !! (7 * j + c) = pose sk entry !! c.
Proof.
  induction g as [|e g IH]; intros j c entry Hj Hc; [done|].
  cbn [flat_map]. destruct j as [|j]; simpl in Hj.
  - injection Hj as ->. rewrite Nat.mul_0_r. by apply lookup_app_l.
  - rewrite lookup_app_r by (simpl; lia).
    replace (7 * S j + c - length (pose sk e)) with (7 * j + c) by (simpl; lia).
    by apply IH.
Qed.

Lemma length_poses (sk : k4abt_skeleton_t) (g : list joint_entry) :
  length (flat_map (pose sk) g) = 7 * length g.
Proof. induction g as [|e g IH]; [done|]. cbn [flat_map length]. rewrite length_app, IH. simpl. lia. Qed.

(** C1, amended.  For a delivered frame with exactly one body and a table of
    at most 31 joints, a turn of either program pushes one sample; its
    array has the length of [data], begins with the seven values of each
    joint of the table in table order (position x, y, z, then orientation
    w, x, y, z, at the offsets [7 * j] to [7 * j + 6]), and these values
    are taken from the skeleton and the table alone. *)
Theorem C1_pose_vector_layout (p : program) (g : list joint_entry)
    (tracker : k4abt_tracker_t) (frames : nat -> FrameIO) (st : loop_state)
    (skeleton : k4abt_skeleton_t) :
  length g <= 31 ->
  delivered (frames (captures st)) ->
  bodies (frames (captures st)) = [skeleton] ->
  exists data,
    loop_body_of p g tracker frames st
    = (frame_popped tracker (captures st) ++
       [ lsl_push_sample lsl_push_sample_f (captures st) data;
         k4abt_frame_release (captures st) ],
       Val (Normal, next_capture st)) /\
    length data = data_length /\
    take (7 * length g) data = flat_map (pose skeleton) g /\
    (forall j entry, g !! j = Some entry ->
       data !! (7 * j + 0) = Some (xyz_x (position (joints skeleton entry.1))) /\
       data !! (7 * j + 1) = Some (xyz_y (position (joints skeleton entry.1))) /\
       data !! (7 * j + 2) = Some (xyz_z (position (joints skeleton entry.1))) /\
       data !! (7 * j + 3) = Some (wxyz_w (orientation (joints skeleton entry.1))) /\
       data !! (7 * j + 4) = Some (wxyz_x (orientation (joints skeleton entry.1))) /\
       data !! (7 * j + 5) = Some (wxyz_y (orientation (joints skeleton entry.1))) /\
       data !! (7 * j + 6) = Some (wxyz_z (orientation (joints skeleton entry.1)))).
Proof.
  intros Hg Hd Hb. eexists. split; [by apply turn_one_body|].
  pose proof (length_poses skeleton g) as Hlen.
  split; [|split].
  - rewrite length_app, Hlen, length_drop, length_fresh_data. unfold data_length. lia.
  - rewrite <- Hlen. by rewrite take_app_length.
  - intros j entry Hj.
    assert (Hlt : j < length g) by (by eapply lookup_lt_Some).
    repeat split;
      (rewrite lookup_app_l by (rewrite Hlen; lia));
      by rewrite (lookup_poses skeleton g j _ entry Hj) by lia.
Qed.

(** ** Facts about descriptions *)

Lemma set_desc_set_desc (info : lsl_streaminfo) (d d' : list xml_node) :
  set_desc (set_desc info d) d' = set_desc info d'.
Proof. done. Qed.

Lemma children_from_app (e : lsl_xml_ptr) (d1 d2 : list xml_node) :
  forall i, children_from e i (d1 ++ d2)
            = children_from e i d1 ++ children_from e (i + length d1) d2.
Proof.
  induction d1 as [|n d1 IH]; intros i; simpl.
  - by rewrite Nat.add_0_r.
  - rewrite IH. replace (S i + length d1) with (i + S (length d1)) by lia.
    by case_decide.
Qed.

Lemma children_app (e : lsl_xml_ptr) (d1 d2 : list xml_node) :
  children e (d1 ++ d2) = children e d1 ++ children_from e (length d1) d2.
Proof. unfold children. by rewrite children_from_app. Qed.

Lemma children_from_bound (e : lsl_xml_ptr) (d : list xml_node) :
  forall i k, k ∈ children_from e i d -> i <= k < i + length d.
Proof.
  induction d as [|n d IH]; intros i k Hk; simpl in *.
  - by apply elem_of_nil in Hk.
  - case_decide.
    + apply elem_of_cons in Hk as [->|Hk]; [lia|]. apply IH in Hk. lia.
    + apply IH in Hk. lia.
Qed.

Lemma children_from_none (e : lsl_xml_ptr) (d : list xml_node) :
  Forall (fun n => xml_parent n <> Some e) d ->
  forall i, children_from e i d = [].
Proof.
  induction 1 as [|n d Hn _ IH]; intros i; simpl; [done|].
  by rewrite decide_False.
Qed.

Lemma parents_first_app (d ext : list xml_node) :
  parents_first d ->
  Forall (fun n => forall q, xml_parent n = Some q -> q < length d + length ext) ext ->
  parents_first (d ++ ext).
Proof.
  unfold parents_first. intros Hd Hext. rewrite length_app. apply Forall_app. split; [|done].
  eapply Forall_impl; [done|]. intros n Hn q Hq. apply Hn in Hq. lia.
Qed.

Lemma children_beyond (d : list xml_node) (e : lsl_xml_ptr) :
  parents_first d -> length d <= e -> children e d = [].
Proof.
  intros Hd He. apply children_from_none.
  eapply Forall_impl; [done|]. intros n Hn Heq. apply Hn in Heq. lia.
Qed.

Lemma value_if_named_app (name : string) (d ext : list xml_node) (k : lsl_xml_ptr) :
  k < length d -> value_if_named name (d ++ ext) k = value_if_named name d k.
Proof. intros Hk. unfold value_if_named. by rewrite lookup_app_l. Qed.

(** A text that a child holds stays when the description grows. *)
Lemma child_value_app (e : lsl_xml_ptr) (name v : string) (d ext : list xml_node) :
  child_value e name d = Some v -> child_value e name (d ++ ext) = Some v.
Proof.
  unfold child_value. rewrite children_app, omap_app.
  assert (Hsame : omap (value_if_named name (d ++ ext)) (children e d)
                  = omap (value_if_named name d) (children e d)).
  { apply list_omap_ext, Forall_Forall2_diag, Forall_forall. intros k Hk.
    apply children_from_bound in Hk. apply value_if_named_app. lia. }
  rewrite Hsame, head_app. by intros ->.
Qed.

(** *** The channels of the first program *)

Lemma channel_nodes_app (chns : lsl_xml_ptr) (l1 l2 : list string) :
  forall base,
    channel_nodes chns base (l1 ++ l2)
    = channel_nodes chns base l1 ++ channel_nodes chns (base + 3 * length l1) l2.
Proof.
  induction l1 as [|l l1 IH]; intros base; simpl.
  - by rewrite Nat.mul_0_r, Nat.add_0_r.
  - rewrite IH. do 3 f_equal. f_equal. f_equal. lia.
Qed.

Lemma length_channel_nodes (chns : lsl_xml_ptr) (labels : list string) :
  forall base, length (channel_nodes chns base labels) = 3 * length labels.
Proof.
  induction labels as [|l labels IH]; intros base; simpl; [lia|]. rewrite IH. lia.
Qed.

Lemma channel_nodes_parents (chns : lsl_xml_ptr) (labels : list string) :
  forall base,
    Forall (fun n => forall q, xml_parent n = Some q ->
                      q = chns \/ base <= q < base + 3 * length labels)
      (channel_nodes chns base labels).
Proof.
  induction labels as [|l labels IH]; intros base; simpl; [constructor|].
  constructor; [intros q [= <-]; by left|].
  constructor; [intros q [= <-]; right; lia|].
  constructor; [intros q [= <-]; right; lia|].
  eapply Forall_impl; [apply IH|]. simpl. intros n Hn q Hq. apply Hn in Hq. lia.
Qed.

Lemma append_channel_eq (chns : lsl_xml_ptr) (jointName : string)
    (info : lsl_streaminfo) (suffix : string) :
  AKlsl.append_channel chns jointName info suffix
  = set_desc info
      (desc info ++ channel_nodes chns (length (desc info)) [jointName +:+ suffix]).
Proof.
  unfold AKlsl.append_channel, lsl_append_child, lsl_append_child_value. simpl.
  by rewrite <- !app_assoc.
Qed.

Lemma append_suffixes_eq (chns : lsl_xml_ptr) (jointName : string) (sfx : list string) :
  forall info,
    fold_left (AKlsl.append_channel chns jointName) sfx info
    = set_desc info
        (desc info ++
         channel_nodes chns (length (desc info)) (map (fun s => jointName +:+ s) sfx)).
Proof.
  induction sfx as [|s sfx IH]; intros info.
  - simpl. rewrite app_nil_r. by destruct info.
  - cbn [fold_left map]. rewrite IH, append_channel_eq, set_desc_set_desc.
    cbn [desc set_desc]. rewrite length_app, <- app_assoc. cbn [length channel_nodes].
    do 2 f_equal.
Qed.

Lemma append_channels_eq (g : list joint_entry) (chns : lsl_xml_ptr) :
  forall info,
    AKlsl.append_channels g chns info
    = set_desc info
        (desc info ++ channel_nodes chns (length (desc info)) (labels_of_table g)).
Proof.
  unfold AKlsl.append_channels.
  induction g as [|it g IH]; intros info.
  - simpl. rewrite app_nil_r. by destruct info.
  - cbn [fold_left]. rewrite IH, append_suffixes_eq, set_desc_set_desc.
    cbn [desc set_desc labels_of_table flat_map].
    rewrite channel_nodes_app, length_app, length_channel_nodes, <- app_assoc.
    fold (labels_of_table g). done.
Qed.

(** Reading the channels of the first program back: the element "channels"
    gets one child for each label, in order, and the child holds the label
    as the text of its child "name". *)
Lemma read_channel_nodes (chns : lsl_xml_ptr) (labels : list string) :
  forall d,
    chns < length d ->
    parents_first d ->
    exists ids,
      children chns (d ++ channel_nodes chns (length d) labels) = children chns d ++ ids /\
      Forall2 (fun c label =>
                 child_value c "name" (d ++ channel_nodes chns (length d) labels)
                 = Some label)
        ids labels.
Proof.
  induction labels as [|l labels IH]; intros d Hchns Hd.
  - exists []. simpl. rewrite !app_nil_r. by split.
  - set (three := channel_nodes chns (length d) [l]).
    assert (Hwhole : d ++ channel_nodes chns (length d) (l :: labels)
                     = (d ++ three) ++ channel_nodes chns (length (d ++ three)) labels).
    { rewrite length_app, <- app_assoc. done. }
    destruct (IH (d ++ three)) as (ids & Hids & Hlabels).
    { rewrite length_app. lia. }
    { apply parents_first_app; [done|]. subst three. simpl.
      repeat constructor; intros q [= <-]; lia. }
    assert (Hthree : children chns (d ++ three) = children chns d ++ [length d]).
    { rewrite children_app. f_equal. subst three. simpl.
      rewrite decide_True by done.
      rewrite !decide_False by (intros [= ?]; lia). done. }
    exists (length d :: ids). rewrite Hwhole. split.
    + rewrite Hids, Hthree, <- app_assoc. done.
    + constructor; [|done].
      apply child_value_app. unfold child_value.
      rewrite children_app, (children_beyond d (length d)) by done.
      subst three. simpl.
      rewrite decide_False by (intros [= ?]; lia).
      rewrite !decide_True by done. simpl.
      unfold value_if_named.
      rewrite !lookup_app_r by lia.
      replace (S (length d) - length d) with 1 by lia.
      replace (S (S (length d)) - length d) with 2 by lia.
      done.
Qed.

Lemma AKlsl_describe_stream (g : list joint_entry) (rate : Z) :
  AKlsl.describe g (stream rate)
  = (3,
     set_desc (stream rate)
       (desc (fold_left (fun info f => f info)
                [ lsl_append_child_value 0 "manufacturer" "University of Groningen";
                  lsl_append_child_value 0 "model" "Azure Kinect";
                  fun info => (lsl_append_child 0 "channels" info).2 ]
                (stream rate))
        ++ channel_nodes 3 4 (labels_of_table g))).
Proof. unfold AKlsl.describe. simpl. by rewrite append_channels_eq. Qed.

(** *** The channels of the second program *)

Lemma append_joint_eq (chns : lsl_xml_ptr) (info : lsl_streaminfo) (it : joint_entry) :
  AzureKinect2lsl.append_joint chns info it
  = set_desc info
      (desc info ++ label_nodes chns (map (fun s => it.2 +:+ s) AKlsl.suffixes)).
Proof.
  unfold AzureKinect2lsl.append_joint, lsl_append_child. simpl.
  by rewrite <- !app_assoc.
Qed.

Lemma append_joints_eq (g : list joint_entry) (chns : lsl_xml_ptr) :
  forall info,
    fold_left (AzureKinect2lsl.append_joint chns) g info
    = set_desc info (desc info ++ label_nodes chns (labels_of_table g)).
Proof.
  induction g as [|it g IH]; intros info.
  - simpl. rewrite app_nil_r. by destruct info.
  - cbn [fold_left]. rewrite IH, append_joint_eq, set_desc_set_desc.
    cbn [desc set_desc labels_of_table flat_map].
    unfold label_nodes at 3. rewrite map_app, <- app_assoc. done.
Qed.

Lemma read_label_nodes (chns : lsl_xml_ptr) (labels : list string) :
  forall d,
    exists ids,
      children_from chns (length d) (label_nodes chns labels) = ids /\
      Forall2 (fun c label => xml_name <$> (d ++ label_nodes chns labels) !! c = Some label)
        ids labels.
Proof.
  induction labels as [|l labels IH]; intros d.
  - exists []. by split.
  - destruct (IH (d ++ label_nodes chns [l])) as (ids & Hids & Hlabels).
    exists (length d :: ids). simpl in *. rewrite decide_True by done.
    rewrite length_app in Hids. simpl in Hids.
    replace (length d + 1) with (S (length d)) in Hids by lia.
    split; [by rewrite Hids|].
    constructor.
    + by rewrite list_lookup_middle.
    + by rewrite <- app_assoc in Hlabels.
Qed.

Lemma AzureKinect2lsl_describe_stream (g : list joint_entry) (rate : Z) :
  AzureKinect2lsl.describe g (stream rate)
  = (3,
     set_desc (stream rate)
       (desc (fold_left (fun info f => f info)
                [ lsl_append_child_value 0 "manufacturer" "University of Groningen";
                  lsl_append_child_value 0 "model" "Azure Kinect";
                  fun info => (lsl_append_child 0 "channels" info).2;
                  lsl_append_child_value 0 "unit" "mm" ]
                (stream rate))
        ++ label_nodes 3 (labels_of_table g))).
Proof. unfold AzureKinect2lsl.describe. simpl. by rewrite append_joints_eq. Qed.

(** *** The channels of both programs *)

(** What the description of either program says about its channels: one
    entry for each label of the table, in order. *)
Lemma describe_channels (p : program) (g : list joint_entry) (rate : Z) :
  Forall2 (fun c label => channel_label p (desc (describe_of p g (stream rate)).2) c = Some label)
    (channel_entries (desc (describe_of p g (stream rate)).2))
    (labels_of_table g).
Proof.
  destruct p; cbn [describe_of channel_label].
  - rewrite AKlsl_describe_stream. cbn [snd desc set_desc fold_left stream
      lsl_create_streaminfo lsl_append_child_value lsl_append_child app length].
    match goal with
    | |- context [ ?a :: ?b :: ?c :: ?d :: channel_nodes 3 4 ?l ] =>
        change (a :: b :: c :: d :: channel_nodes 3 4 l)
          with ([a; b; c; d] ++ channel_nodes 3 4 l);
        set (d0 := [a; b; c; d])
    end.
    destruct (read_channel_nodes 3 (labels_of_table g) d0) as (ids & Hids & Hlabels).
    { simpl. lia. }
    { subst d0. unfold parents_first.
      repeat (constructor;
              [intros q Hq; simpl in Hq; try discriminate; injection Hq as <-; simpl; lia|]).
      constructor. }
    change (length d0) with 4 in *.
    assert (Hroot : find_child 0 "channels" (d0 ++ channel_nodes 3 4 (labels_of_table g))
                    = Some 3).
    { unfold find_child. rewrite children_app.
      rewrite (children_from_none 0 (channel_nodes 3 4 _)).
      - done.
      - eapply Forall_impl; [apply channel_nodes_parents|].
        simpl. intros n Hn [= Hq]. apply Hn in Hq. lia. }
    unfold channel_entries. rewrite Hroot, Hids. done.
  - rewrite AzureKinect2lsl_describe_stream. cbn [snd desc set_desc fold_left stream
      lsl_create_streaminfo lsl_append_child_value lsl_append_child app length].
    match goal with
    | |- context [ ?a :: ?b :: ?c :: ?d :: ?e :: label_nodes 3 ?l ] =>
        change (a :: b :: c :: d :: e :: label_nodes 3 l)
          with ([a; b; c; d; e] ++ label_nodes 3 l);
        set (d0 := [a; b; c; d; e])
    end.
    destruct (read_label_nodes 3 (labels_of_table g) d0) as (ids & Hids & Hlabels).
    change (length d0) with 5 in *.
    assert (Hnone : children_from 0 5 (label_nodes 3 (labels_of_table g)) = []).
    { apply children_from_none. unfold label_nodes. apply Forall_map.
      apply Forall_forall. by intros l _. }
    assert (Hroot : find_child 0 "channels" (d0 ++ label_nodes 3 (labels_of_table g))
                    = Some 3).
    { unfold find_child. rewrite children_app. change (length d0) with 5.
      by rewrite Hnone. }
    unfold channel_entries. rewrite Hroot, children_app. change (length d0) with 5.
    rewrite Hids. done.
Qed.

Lemma length_labels_of_table (g : list joint_entry) :
  length (labels_of_table g) = 7 * length g.
Proof.
  unfold labels_of_table. induction g as [|it g IH]; [done|].
  cbn [flat_map length]. rewrite length_app, IH, length_map. simpl. lia.
Qed.

(** ** The stream that a run declares *)

#[local] Opaque AKlsl.describe AzureKinect2lsl.describe.

Lemma prelude_outlet (p : program) (g : list joint_entry)
    (cfg : k4abt_tracker_configuration_t) (io : SetupIO) (fuel : nat)
    (info : lsl_streaminfo) :
  lsl_create_outlet info ∈ (prelude_of p g cfg io fuel).1 ->
  exists rate, (rate = 4 \/ rate = 10)%Z /\ info = (describe_of p g (stream rate)).2.
Proof.
  pose proof (wait_for_recorder_events io fuel 0) as Hw.
  destruct p; cbn [prelude_of describe_of]; prelude_cases io;
    rewrite ?wait_for_recorder_same;
    repeat match goal with
           | |- context [ AKlsl.describe ?g ?i ] =>
               let E := fresh "Hdesc" in destruct (AKlsl.describe g i) eqn:E
           | |- context [ AzureKinect2lsl.describe ?g ?i ] =>
               let E := fresh "Hdesc" in destruct (AzureKinect2lsl.describe g i) eqn:E
           end;
    destruct (AKlsl.wait_for_recorder io fuel 0) as [t [[]|o]]; simpl in *;
    intros Hin; members Hin; rewrite ?app_nil_r in Hin;
    try (by (eapply Forall_forall in Hw; [|exact Hin]; destruct Hw as [r Hr]; discriminate));
    injection Hin as ->;
    first [ exists 4%Z; split; [by left|]; unfold stream; by rewrite Hdesc
          | exists 10%Z; split; [by right|]; unfold stream; by rewrite Hdesc ].
Qed.

Lemma loop_events_frame (p : program) (g : list joint_entry) (tracker : k4abt_tracker_t)
    (frames : nat -> FrameIO) (fuel : nat) (e : event) :
  e ∈ (capture_loop_of p g tracker frames fuel).1 -> exists n, event_frame e = Some n.
Proof.
  rewrite capture_loop_eq. intros He.
  pose proof (do_while_frames _ _ (body_events p g tracker frames)
                (body_state p g tracker frames) (cond_state p) fuel
                {| frame_count := 0; captures := 0 |}) as Hf.
  eapply Forall_forall in Hf as (n & Hn & _); [|done]. by exists n.
Qed.

(** The events of a run that are not about a capture are those of the
    prelude and those after the loop. *)
Lemma main_other_events (p : program) (g : list joint_entry)
    (cfg : k4abt_tracker_configuration_t) (io : SetupIO) (frames : nat -> FrameIO)
    (fuel : nat) (e : event) :
  e ∈ (main_of p g cfg io frames fuel).1 ->
  event_frame e = None ->
  e ∈ (prelude_of p g cfg io fuel).1 \/
  exists tracker, (prelude_of p g cfg io fuel).2 = Val tracker /\ e ∈ cleanup_events tracker.
Proof.
  rewrite main_eq. intros He Hnone.
  destruct (prelude_of p g cfg io fuel) as [t0 [tracker|o]]; simpl; [|by left].
  pose proof (loop_events_frame p g tracker frames fuel e) as Hloop.
  destruct (capture_loop_of p g tracker frames fuel) as [t1 [st|o]]; simpl in *.
  - rewrite !elem_of_app in He. destruct He as [He|[He|He]].
    + by left.
    + destruct (Hloop He) as [n Hn]. congruence.
    + right. by exists tracker.
  - rewrite elem_of_app in He. destruct He as [He|He]; [by left|].
    destruct (Hloop He) as [n Hn]. congruence.
Qed.

Lemma main_outlet (p : program) (g : list joint_entry)
    (cfg : k4abt_tracker_configuration_t) (io : SetupIO) (frames : nat -> FrameIO)
    (fuel : nat) (info : lsl_streaminfo) :
  lsl_create_outlet info ∈ (main_of p g cfg io frames fuel).1 ->
  exists rate, (rate = 4 \/ rate = 10)%Z /\ info = (describe_of p g (stream rate)).2.
Proof.
  intros Hin.
  destruct (main_other_events p g cfg io frames fuel _ Hin eq_refl)
    as [Hpre|(tracker & _ & Hc)].
  - by eapply prelude_outlet.
  - unfold cleanup_events in Hc. simpl in Hc. members Hc.
Qed.

#[local] Transparent AKlsl.describe AzureKinect2lsl.describe.

Lemma describe_fields (p : program) (g : list joint_entry) (rate : Z) :
  (describe_of p g (stream rate)).2
  = set_desc (stream rate) (desc (describe_of p g (stream rate)).2).
Proof.
  destruct p; cbn [describe_of].
  - by rewrite AKlsl_describe_stream.
  - by rewrite AzureKinect2lsl_describe_stream.
Qed.

(** ** The samples of a run *)

Lemma do_while_Forall {S : Type} (P : event -> Prop)
    (body : S -> proc (ctl * S)) (cond : S -> bool * S) :
  (forall st, Forall P (body st).1) ->
  forall fuel st, Forall P (do_while body cond fuel st).1.
Proof.
  intros Hbody. induction fuel as [|fuel IH]; intros st; [constructor|].
  cbn [do_while]. apply bind_trace_Forall; [done|].
  intros [c st1] _. destruct c; [|constructor].
  destruct (cond st1) as [b st2]. destruct b; [apply IH|constructor].
Qed.

Lemma extract_joints_length (sk : k4abt_skeleton_t) (it : list joint_entry)
    (j : nat) (data data' : list float) :
  AzureKinect2lsl.extract_joints sk it j data = Some data' ->
  length data' = length data.
Proof.
  destruct (decide (7 * (j + length it) <= length data)) as [Hin|Hout].
  - rewrite extract_joints_spec by done. intros [= <-].
    rewrite !length_app, length_take, length_drop, length_poses. lia.
  - destruct it as [|e it]; [by intros [= <-]|].
    rewrite extract_joints_overflow; [done|done|lia].
Qed.

Lemma extract_bodies_length (g : list joint_entry) (f : FrameIO) (todo : nat) :
  forall (i : nat) (data data' : list float),
    AzureKinect2lsl.extract_bodies g f i todo data = Some data' ->
    length data' = length data.
Proof.
  induction todo as [|todo IH]; intros i data data'; simpl; [by intros [= <-]|].
  destruct (AzureKinect2lsl.extract_joints _ g 0 data) as [d|] eqn:E; simpl; [|done].
  intros H. apply IH in H. apply extract_joints_length in E. congruence.
Qed.

Lemma body_pushes (p : program) (g : list joint_entry) (tracker : k4abt_tracker_t)
    (frames : nat -> FrameIO) (st : loop_state) :
  Forall float_sample (loop_body_of p g tracker frames st).1.
Proof.
  destruct p; cbn [loop_body_of];
    unfold AKlsl.loop_body, AzureKinect2lsl.loop_body; repeat case_decide; simpl.
  all: repeat match goal with
         | |- context [ AKlsl.extract ?f ?it ?j ?d ] =>
             let E := fresh "E" in
             destruct (AKlsl.extract f it j d) eqn:E;
             [rewrite extract_extract_joints in E; apply extract_joints_length in E|]
         | |- context [ AzureKinect2lsl.extract_bodies ?g ?f ?i ?n ?d ] =>
             let E := fresh "E" in
             destruct (AzureKinect2lsl.extract_bodies g f i n d) eqn:E;
             [apply extract_bodies_length in E|]
         end; simpl.
  all: repeat (constructor; [intros op n data; try discriminate|]); try constructor.
  all: match goal with
       | H : lsl_push_sample _ _ _ = _ |- _ => injection H as <- <- <-
       end.
  all: first [done | by rewrite E, length_fresh_data].
Qed.

Lemma main_pushes (p : program) (g : list joint_entry)
    (cfg : k4abt_tracker_configuration_t) (io : SetupIO) (frames : nat -> FrameIO)
    (fuel : nat) (op : lsl_push_op) (n : nat) (data : list float) :
  lsl_push_sample op n data ∈ (main_of p g cfg io frames fuel).1 ->
  op = lsl_push_sample_f /\ length data = data_length.
Proof.
  intros Hin.
  destruct (main_reach p g cfg io frames fuel _ n Hin eq_refl)
    as (t0 & tracker & _ & _ & _ & Hpre & _ & _ & _ & _).
  rewrite main_eq, Hpre in Hin.
  pose proof (prelude_events p g cfg io fuel) as Hev. rewrite Hpre in Hev. simpl in Hev.
  assert (Hloop : lsl_push_sample op n data ∈ (capture_loop_of p g tracker frames fuel).1).
  { destruct (capture_loop_of p g tracker frames fuel) as [t1 [st|o]]; simpl in *;
      rewrite ?elem_of_app in Hin.
    - destruct Hin as [Hin|[Hin|Hin]]; [|done|].
      + eapply Forall_forall in Hev; [|done]. done.
      + unfold cleanup_events in Hin. simpl in Hin. members Hin.
    - destruct Hin as [Hin|Hin]; [|done].
      eapply Forall_forall in Hev; [|done]. done. }
  rewrite capture_loop_eq in Hloop.
  pose proof (do_while_Forall float_sample _ (loop_cond_of p)
                (body_pushes p g tracker frames) fuel
                {| frame_count := 0; captures := 0 |}) as Hf.
  eapply Forall_forall in Hf; [|done]. exact (Hf _ _ _ eq_refl).
Qed.

(** ** The declared stream and the pushed samples *)

(** C3.  The stream is declared with 32 * 7 channels and the array [data]
    has 7 * 31 elements: every sample handed to the outlet is shorter than
    the stream declares, and for a table of more than 31 joints the stores
    of the extraction leave the array. *)
Theorem C3_array_shorter_than_stream (p : program) (g : list joint_entry)
    (cfg : k4abt_tracker_configuration_t) (io : SetupIO) (frames : nat -> FrameIO)
    (fuel : nat) (info : lsl_streaminfo) :
  lsl_create_outlet info ∈ (main_of p g cfg io frames fuel).1 ->
  channel_count info = (32 * 7)%Z /\
  data_length = 7 * 31 /\
  (forall op n data,
     lsl_push_sample op n data ∈ (main_of p g cfg io frames fuel).1 ->
     (Z.of_nat (length data) < channel_count info)%Z) /\
  (31 < length g ->
   forall f sk,
     AKlsl.extract f g 0 (fresh_data f) = None /\
     AzureKinect2lsl.extract_joints sk g 0 (fresh_data f) = None).
Proof.
  intros Hin. apply main_outlet in Hin as (rate & _ & ->).
  assert (Hcount : channel_count (describe_of p g (stream rate)).2 = (32 * 7)%Z)
    by (by rewrite describe_fields).
  split; [done|]. split; [done|]. split.
  - intros op n data Hpush. apply main_pushes in Hpush as [_ Hlen].
    rewrite Hcount, Hlen. unfold data_length. lia.
  - intros Hg f sk. split.
    + rewrite extract_extract_joints. by apply extract_overflows.
    + by apply extract_overflows.
Qed.


(** ** Frames without a body, frames with several bodies, failures *)

(** C5.  A delivered frame without a body: the second program pushes the
    array [data] as it found it, and the first program, for a table that
    fits the array, pushes the values it reads from the skeleton it never
    filled.  Either way one sample is pushed, the frame is released and the
    loop goes on. *)
Theorem C5_sample_pushed_without_body (g : list joint_entry) (tracker : k4abt_tracker_t)
    (frames : nat -> FrameIO) (st : loop_state) :
  delivered (frames (captures st)) ->
  bodies (frames (captures st)) = [] ->
  AzureKinect2lsl.loop_body g tracker frames st
  = (frame_popped tracker (captures st) ++
     [ lsl_push_sample lsl_push_sample_f (captures st) (fresh_data (frames (captures st)));
       k4abt_frame_release (captures st) ],
     Val (Normal, next_capture st)) /\
  (length g <= 31 ->
   AKlsl.loop_body g tracker frames st
   = (frame_popped tracker (captures st) ++
      [ lsl_push_sample lsl_push_sample_f (captures st)
          (flat_map (pose (stack_skeleton (frames (captures st)))) g ++
           drop (7 * length g) (fresh_data (frames (captures st))));
        k4abt_frame_release (captures st) ],
      Val (Normal, next_capture st))).
Proof.
  intros Hd Hb. split.
  - by apply turn_no_body_second.
  - intros Hg. by apply turn_no_body_first.
Qed.

(** C6.  When the tracking result of frame [k] has more than one body and
    a run pops it, the capture of the turn has been released, but the
    frame is never released: the process ends before. *)
Theorem C6_frame_of_many_bodies_not_released (p : program) (g : list joint_entry)
    (cfg : k4abt_tracker_configuration_t) (io : SetupIO) (frames : nat -> FrameIO)
    (fuel k : nat) (tracker : k4abt_tracker_t) (r : k4a_wait_result_t) :
  delivered (frames k) ->
  k4abt_frame_get_num_bodies (frames k) > 1 ->
  k4abt_tracker_pop_result tracker k r ∈ (main_of p g cfg io frames fuel).1 ->
  r = K4A_WAIT_RESULT_SUCCEEDED /\
  k4a_capture_release k ∈ (main_of p g cfg io frames fuel).1 /\
  (k4abt_frame_release k ∉ (main_of p g cfg io frames fuel).1) /\
  (main_of p g cfg io frames fuel).2 = Exited (-1).
Proof.
  intros Hd Hn Hin.
  destruct (main_at_many_bodies p g cfg io frames fuel _ k Hd Hn Hin eq_refl)
    as (before & tracker' & Heq & Hlt).
  rewrite Heq in Hin |- *. simpl in *.
  assert (Hearlier : forall e, e ∈ before -> event_frame e <> Some k).
  { intros e He Hk. eapply Forall_forall in Hlt; [|done]. specialize (Hlt k Hk). lia. }
  split; [|split; [|split]].
  - apply elem_of_app in Hin as [Hin|Hin]; [by apply Hearlier in Hin|].
    unfold frame_popped in Hin. members Hin. by injection Hin.
  - apply elem_of_app. right. unfold frame_popped. do 2 right. left.
  - intros Hrel. apply elem_of_app in Hrel as [Hrel|Hrel]; [by apply Hearlier in Hrel|].
    unfold frame_popped in Hrel. members Hrel.
  - done.
Qed.

(** C7, amended.  When a run comes to a turn [k] in which a call fails and
    the program answers the failure with [break] (in the second program
    any of the three calls, in the first the call that queues the capture),
    the run has no event about a later capture: after the calls of the turn
    up to the failing one, the capture released if it was queued, come the
    shutdown and the destruction of the tracker, the stop and the close of
    the device, and the process ends with status 0. *)
Theorem C7_failure_ends_session_with_status_0 (p : program) (g : list joint_entry)
    (cfg : k4abt_tracker_configuration_t) (io : SetupIO) (frames : nat -> FrameIO)
    (fuel k : nat) (r : k4a_wait_result_t) :
  failure_breaks p (frames k) ->
  k4a_device_get_capture k r ∈ (main_of p g cfg io frames fuel).1 ->
  exists before tracker,
    main_of p g cfg io frames fuel
    = (before ++ failed_turn tracker k (frames k) ++
       [ k4abt_tracker_shutdown tracker; k4abt_tracker_destroy tracker;
         k4a_device_stop_cameras; k4a_device_close ],
       Exited 0) /\
    Forall (fun e => forall n, event_frame e = Some n -> n < k) before.
Proof.
  intros Hf Hin.
  exact (main_at_failure p g cfg io frames fuel _ k Hf Hin eq_refl).
Qed.

(** ** The number of turns *)

Section Counting.
Variable g : list joint_entry.
Variable tracker : k4abt_tracker_t.
Variable frames : nat -> FrameIO.

Lemma AKlsl_body_next (st : loop_state) (c : ctl) (st' : loop_state) :
  (AKlsl.loop_body g tracker frames st).2 = Val (c, st') -> st' = next_capture st.
Proof. turn_cases; intros [= <- <-] || intros [=]; done. Qed.

Lemma body_fuel (p : program) (st : loop_state) :
  (loop_body_of p g tracker frames st).2 <> Stop OutOfFuel.
Proof. destruct p; cbn [loop_body_of]; turn_cases; done. Qed.

Lemma AKlsl_loop_cond_counted (st : loop_state) :
  counted st ->
  AKlsl.loop_cond (next_capture st)
  = (bool_decide (S (captures st) < 100),
     {| frame_count := Z.of_nat (S (captures st)); captures := S (captures st) |}).
Proof.
  intros [Hfc Hlt]. unfold AKlsl.loop_cond, next_capture. simpl. rewrite Hfc.
  f_equal.
  - case_bool_decide; [apply Z.ltb_lt|apply Z.ltb_ge]; lia.
  - f_equal. lia.
Qed.

Lemma AKlsl_loop_bound (fuel : nat) :
  forall st,
    counted st ->
    Forall (fun e => forall n, event_frame e = Some n -> n < 100)
      (do_while (AKlsl.loop_body g tracker frames) AKlsl.loop_cond fuel st).1.
Proof.
  induction fuel as [|fuel IH]; intros st Hst; [constructor|].
  rewrite do_while_S. apply bind_trace_Forall.
  - eapply Forall_impl; [apply AKlsl_body_events|].
    intros e He n Hn. destruct Hst as [_ Hlt]. congruence.
  - intros [c st1] Hb. apply AKlsl_body_next in Hb as ->.
    destruct c; [|constructor].
    rewrite AKlsl_loop_cond_counted by done.
    case_bool_decide; [|constructor].
    apply IH. split; [done|]. simpl. lia.
Qed.

Lemma AKlsl_loop_ends (fuel : nat) :
  forall st,
    counted st ->
    100 <= fuel + captures st ->
    (do_while (AKlsl.loop_body g tracker frames) AKlsl.loop_cond fuel st).2
    <> Stop OutOfFuel.
Proof.
  induction fuel as [|fuel IH]; intros st Hst Hfuel.
  { destruct Hst as [_ Hlt]. simpl in Hfuel. lia. }
  rewrite do_while_S.
  pose proof (body_fuel AKlsl_cpp st) as Hbf. cbn [loop_body_of] in Hbf.
  pose proof (AKlsl_body_next st) as Hnext.
  destruct (AKlsl.loop_body g tracker frames st) as [t [[c st1]|o]].
  2:{ rewrite bind_Stop. simpl in *. intros [= ->]. by apply Hbf. }
  pose proof (Hnext c st1 eq_refl) as ->. rewrite bind_Val.
  destruct c; [|done].
  rewrite AKlsl_loop_cond_counted by done.
  case_bool_decide; [|done]. cbn [snd].
  apply IH; [split; [done|]|]; simpl; lia.
Qed.

(** A turn in which nothing fails. *)
Lemma turn_without_failure (p : program) (st : loop_state) :
  length g <= 31 ->
  no_failure frames ->
  exists t,
    loop_body_of p g tracker frames st
    = (k4a_device_get_capture (captures st) K4A_WAIT_RESULT_SUCCEEDED :: t,
       Val (Normal, next_capture st)).
Proof.
  intros Hg Hframes. destruct (Hframes (captures st)) as [Hd Hn].
  unfold k4abt_frame_get_num_bodies in Hn.
  destruct (bodies (frames (captures st))) as [|sk [|sk' bs]] eqn:Hb.
  - destruct p; cbn [loop_body_of].
    + rewrite turn_no_body_first by done. by eexists.
    + rewrite turn_no_body_second by done. by eexists.
  - rewrite (turn_one_body g tracker frames st p sk) by done. by eexists.
  - simpl in Hn. lia.
Qed.

Lemma AKlsl_loop_full (fuel : nat) :
  length g <= 31 ->
  no_failure frames ->
  forall st,
    counted st ->
    100 <= fuel + captures st ->
    exists t st',
      do_while (AKlsl.loop_body g tracker frames) AKlsl.loop_cond fuel st = (t, Val st') /\
      forall m, captures st <= m < 100 ->
                k4a_device_get_capture m K4A_WAIT_RESULT_SUCCEEDED ∈ t.
Proof.
  intros Hg Hnf. induction fuel as [|fuel IH]; intros st Hst Hfuel.
  { destruct Hst as [_ Hlt]. simpl in Hfuel. lia. }
  rewrite do_while_S.
  destruct (turn_without_failure AKlsl_cpp st Hg Hnf) as [t Ht]. cbn [loop_body_of] in Ht.
  rewrite Ht, bind_Val. cbn [fst snd].
  rewrite AKlsl_loop_cond_counted by done.
  case_bool_decide as Hlt.
  - destruct (IH {| frame_count := Z.of_nat (S (captures st)); captures := S (captures st) |})
      as (t' & st' & Heq & Hall).
    { split; [done|]. simpl. lia. }
    { simpl. lia. }
    rewrite Heq. eexists _, st'. split; [done|].
    intros m Hm. simpl. destruct (decide (m = captures st)) as [->|Hne].
    + left.
    + right. apply elem_of_app. right. apply Hall. simpl. lia.
  - eexists _, _. split; [done|].
    intros m Hm. destruct Hst as [_ Hst]. assert (m = captures st) as -> by lia.
    simpl. left.
Qed.

(** In the second program nothing counts the turns. *)
Lemma AzureKinect2lsl_loop_cond_0 (st : loop_state) :
  frame_count st = 0%Z ->
  AzureKinect2lsl.loop_cond (next_capture st) = (true, next_capture st).
Proof. intros Hfc. unfold AzureKinect2lsl.loop_cond. simpl. by rewrite Hfc. Qed.

Lemma AzureKinect2lsl_loop_runs (fuel : nat) :
  length g <= 31 ->
  no_failure frames ->
  forall st,
    frame_count st = 0%Z ->
    exists t,
      do_while (AzureKinect2lsl.loop_body g tracker frames) AzureKinect2lsl.loop_cond fuel st
      = (t, Stop OutOfFuel) /\
      forall m, captures st <= m < captures st + fuel ->
                k4a_device_get_capture m K4A_WAIT_RESULT_SUCCEEDED ∈ t.
Proof.
  intros Hg Hnf. induction fuel as [|fuel IH]; intros st Hfc.
  { exists []. split; [done|]. intros m Hm. lia. }
  rewrite do_while_S.
  destruct (turn_without_failure AzureKinect2lsl_cpp st Hg Hnf) as [t Ht].
  cbn [loop_body_of] in Ht. rewrite Ht, bind_Val. cbn [fst snd].
  rewrite AzureKinect2lsl_loop_cond_0 by done.
  destruct (IH (next_capture st) Hfc) as (t' & Heq & Hall).
  rewrite Heq. eexists. split; [done|].
  intros m Hm. simpl. destruct (decide (m = captures st)) as [->|Hne].
  - left.
  - right. apply elem_of_app. right. apply Hall. simpl. lia.
Qed.

End Counting.

(** ** The choice of the tracker *)

#[local] Opaque AKlsl.describe AzureKinect2lsl.describe.

Lemma body_tracker (p : program) (g : list joint_entry) (tracker : k4abt_tracker_t)
    (frames : nat -> FrameIO) (st : loop_state) :
  Forall (fun e => forall tr n r, e = k4abt_tracker_enqueue_capture tr n r -> tr = tracker)
    (loop_body_of p g tracker frames st).1.
Proof.
  destruct p; cbn [loop_body_of]; turn_cases;
    repeat (constructor; [intros tr n r; try discriminate; by intros [= <- _ _]|]);
    constructor.
Qed.

Lemma body_first_event (p : program) (g : list joint_entry) (tracker : k4abt_tracker_t)
    (frames : nat -> FrameIO) (st : loop_state) :
  exists t,
    (loop_body_of p g tracker frames st).1
    = k4a_device_get_capture (captures st) (get_capture_result (frames (captures st))) :: t.
Proof. destruct p; cbn [loop_body_of]; turn_cases; by eexists. Qed.

Lemma body_status (p : program) (g : list joint_entry) (tracker : k4abt_tracker_t)
    (frames : nat -> FrameIO) (st : loop_state) :
  (loop_body_of p g tracker frames st).2 <> Stop (Exited 1).
Proof. destruct p; cbn [loop_body_of]; turn_cases; done. Qed.

Lemma do_while_status {S : Type} (body : S -> proc (ctl * S)) (cond : S -> bool * S) :
  (forall st, (body st).2 <> Stop (Exited 1)) ->
  forall fuel st, (do_while body cond fuel st).2 <> Stop (Exited 1).
Proof.
  intros Hbody. induction fuel as [|fuel IH]; intros st; [done|].
  cbn [do_while]. specialize (Hbody st).
  destruct (body st) as [t [[c st1]|o]].
  - rewrite bind_Val. destruct c; [|done].
    destruct (cond st1) as [b st2]. destruct b; [apply IH|done].
  - rewrite bind_Stop. simpl in *. intros [= ->]. by apply Hbody.
Qed.

(** C8.  In the second program, when the first tracker cannot be made, the
    answer to the second attempt is not looked at: whatever it is, the
    stream is made with the rate 4, the program waits for a recorder and
    enters the capture loop, where it uses the outer [tracker], which is
    still NULL; the process does not end with status 1. *)
Theorem C8_second_attempt_unchecked (g : list joint_entry)
    (cfg : k4abt_tracker_configuration_t) (io : SetupIO) (frames : nat -> FrameIO)
    (fuel : nat) :
  device_open_result io = K4A_RESULT_SUCCEEDED ->
  start_cameras_result io = K4A_RESULT_SUCCEEDED ->
  get_calibration_result io = K4A_RESULT_SUCCEEDED ->
  tracker_create_result io 0
    (set_processing_mode cfg K4ABT_TRACKER_PROCESSING_MODE_GPU_CUDA)
  <> K4A_RESULT_SUCCEEDED ->
  consumers io 0 = true ->
  (exists info rest,
     (AzureKinect2lsl.main g cfg io frames (S fuel)).1
     = [ k4a_device_open K4A_RESULT_SUCCEEDED;
         k4a_device_start_cameras K4A_RESULT_SUCCEEDED;
         k4a_device_get_calibration K4A_RESULT_SUCCEEDED;
         k4abt_tracker_create
           (set_processing_mode cfg K4ABT_TRACKER_PROCESSING_MODE_GPU_CUDA)
           (tracker_create_result io 0
              (set_processing_mode cfg K4ABT_TRACKER_PROCESSING_MODE_GPU_CUDA));
         k4abt_tracker_create cfg (tracker_create_result io 1 cfg);
         lsl_create_outlet info;
         lsl_wait_for_consumers true;
         k4a_device_get_capture 0 (get_capture_result (frames 0)) ] ++ rest /\
     nominal_srate info = 4%Z) /\
  (forall tr n r,
     k4abt_tracker_enqueue_capture tr n r ∈ (AzureKinect2lsl.main g cfg io frames (S fuel)).1 ->
     tr = None) /\
  (AzureKinect2lsl.main g cfg io frames (S fuel)).2 <> Exited 1.
Proof.
  intros H1 H2 H3 H4 H5.
  pose proof (main_eq AzureKinect2lsl_cpp g cfg io frames (S fuel)) as Hmain.
  cbn [main_of prelude_of] in Hmain.
  assert (Hpre : AzureKinect2lsl.prelude g cfg io (S fuel)
                 = ([ k4a_device_open K4A_RESULT_SUCCEEDED;
                      k4a_device_start_cameras K4A_RESULT_SUCCEEDED;
                      k4a_device_get_calibration K4A_RESULT_SUCCEEDED;
                      k4abt_tracker_create
                        (set_processing_mode cfg K4ABT_TRACKER_PROCESSING_MODE_GPU_CUDA)
                        (tracker_create_result io 0
                           (set_processing_mode cfg K4ABT_TRACKER_PROCESSING_MODE_GPU_CUDA));
                      k4abt_tracker_create cfg (tracker_create_result io 1 cfg);
                      lsl_create_outlet (AzureKinect2lsl.describe g (stream 4)).2;
                      lsl_wait_for_consumers true ], Val None)).
  { unfold AzureKinect2lsl.prelude, AzureKinect2lsl.open_device,
      AzureKinect2lsl.create_tracker, tracker_create, VERIFY.
    rewrite H1, H2, H3. simpl. repeat (case_decide; try done). simpl.
    change (lsl_create_streaminfo _ _ _ 4 _ _) with (stream 4).
    destruct (AzureKinect2lsl.describe g (stream 4)) as [chns info]. simpl.
    by rewrite H5. }
  rewrite Hpre, capture_loop_eq in Hmain. cbn [loop_body_of loop_cond_of] in Hmain.
  pose proof (do_while_Forall _ _ AzureKinect2lsl.loop_cond
                (body_tracker AzureKinect2lsl_cpp g None frames) (S fuel)
                {| frame_count := 0; captures := 0 |}) as Htr.
  pose proof (do_while_status _ AzureKinect2lsl.loop_cond
                (body_status AzureKinect2lsl_cpp g None frames) (S fuel)
                {| frame_count := 0; captures := 0 |}) as Hstatus.
  cbn [loop_body_of] in Htr, Hstatus.
  assert (Hfirst : exists t,
             (do_while (AzureKinect2lsl.loop_body g None frames) AzureKinect2lsl.loop_cond
                (S fuel) {| frame_count := 0; captures := 0 |}).1
             = k4a_device_get_capture 0 (get_capture_result (frames 0)) :: t).
  { rewrite do_while_S.
    destruct (body_first_event AzureKinect2lsl_cpp g None frames
                {| frame_count := 0; captures := 0 |}) as [t Ht].
    cbn [loop_body_of captures] in Ht.
    destruct (AzureKinect2lsl.loop_body g None frames _) as [t' [[c st1]|o]];
      simpl in Ht; subst t'.
    - rewrite bind_Val. by eexists.
    - by eexists. }
  destruct Hfirst as [t Ht].
  destruct (do_while _ _ (S fuel) _) as [t1 r] eqn:Hloop. simpl in Ht, Htr, Hstatus. subst t1.
  split; [|split].
  - exists (AzureKinect2lsl.describe g (stream 4)).2.
    pose proof (describe_fields AzureKinect2lsl_cpp g 4) as Hf. cbn [describe_of] in Hf.
    rewrite Hmain. destruct r as [st|o]; simpl.
    + eexists. split; [done|]. by rewrite Hf.
    + eexists. split; [done|]. by rewrite Hf.
  - intros tr n r' Hin. rewrite Hmain in Hin.
    assert (Hloop' : k4abt_tracker_enqueue_capture tr n r'
                     ∈ k4a_device_get_capture 0 (get_capture_result (frames 0)) :: t).
    { destruct r as [st|o]; simpl in Hin; members Hin.
      - apply elem_of_app in Hin as [Hin|Hin]; [by right|].
        unfold cleanup_events in Hin. simpl in Hin. members Hin.
      - by right. }
    eapply Forall_forall in Htr; [|done]. by eapply Htr.
  - rewrite Hmain. destruct r as [st|o]; simpl; [done|].
    intros [= ->]. by apply Hstatus.
Qed.

(** The first program does what the second misses: it asks for the CPU
    tracker, ends with status 1 when that fails too, and otherwise goes on
    with the rate 4, which is lower than the rate 10 of the CUDA tracker. *)
Lemma AKlsl_falls_back_to_cpu (g : list joint_entry)
    (cfg : k4abt_tracker_configuration_t) (io : SetupIO) (frames : nat -> FrameIO)
    (fuel : nat) :
  let cuda := set_processing_mode cfg K4ABT_TRACKER_PROCESSING_MODE_GPU_CUDA in
  let cpu := set_processing_mode cuda K4ABT_TRACKER_PROCESSING_MODE_CPU in
  device_open_result io = K4A_RESULT_SUCCEEDED ->
  start_cameras_result io = K4A_RESULT_SUCCEEDED ->
  get_calibration_result io = K4A_RESULT_SUCCEEDED ->
  tracker_create_result io 0 cuda <> K4A_RESULT_SUCCEEDED ->
  (tracker_create_result io 1 cpu <> K4A_RESULT_SUCCEEDED ->
   AKlsl.main g cfg io frames fuel
   = ([ k4a_device_open K4A_RESULT_SUCCEEDED;
        k4a_device_start_cameras K4A_RESULT_SUCCEEDED;
        k4a_device_get_calibration K4A_RESULT_SUCCEEDED;
        k4abt_tracker_create cuda (tracker_create_result io 0 cuda);
        k4abt_tracker_create cpu (tracker_create_result io 1 cpu) ],
      Exited 1)) /\
  (tracker_create_result io 1 cpu = K4A_RESULT_SUCCEEDED ->
   consumers io 0 = true ->
   exists info rest,
     (AKlsl.main g cfg io frames (S fuel)).1
     = [ k4a_device_open K4A_RESULT_SUCCEEDED;
         k4a_device_start_cameras K4A_RESULT_SUCCEEDED;
         k4a_device_get_calibration K4A_RESULT_SUCCEEDED;
         k4abt_tracker_create cuda (tracker_create_result io 0 cuda);
         k4abt_tracker_create cpu K4A_RESULT_SUCCEEDED;
         lsl_create_outlet info;
         lsl_wait_for_consumers true;
         k4a_device_get_capture 0 (get_capture_result (frames 0)) ] ++ rest /\
     nominal_srate info = 4%Z /\
     (nominal_srate info < nominal_srate (stream 10))%Z).
Proof.
  intros cuda cpu H1 H2 H3 H4. split.
  - intros H5. unfold AKlsl.main, AKlsl.prelude, AKlsl.open_device,
      AKlsl.create_tracker, VERIFY.
    rewrite H1, H2, H3. simpl. fold cuda. rewrite decide_True by done. simpl.
    fold cpu. by rewrite decide_True by done.
  - intros H5 H6.
    pose proof (main_eq AKlsl_cpp g cfg io frames (S fuel)) as Hmain.
    cbn [main_of prelude_of] in Hmain.
    assert (Hpre : AKlsl.prelude g cfg io (S fuel)
                   = ([ k4a_device_open K4A_RESULT_SUCCEEDED;
                        k4a_device_start_cameras K4A_RESULT_SUCCEEDED;
                        k4a_device_get_calibration K4A_RESULT_SUCCEEDED;
                        k4abt_tracker_create cuda (tracker_create_result io 0 cuda);
                        k4abt_tracker_create cpu K4A_RESULT_SUCCEEDED;
                        lsl_create_outlet (AKlsl.describe g (stream 4)).2;
                        lsl_wait_for_consumers true ], Val (Some 1))).
    { unfold AKlsl.prelude, AKlsl.open_device, AKlsl.create_tracker, VERIFY.
      rewrite H1, H2, H3. simpl. fold cuda. rewrite decide_True by done. simpl.
      fold cpu. rewrite H5. simpl.
      change (lsl_create_streaminfo _ _ _ 4 _ _) with (stream 4).
      destruct (AKlsl.describe g (stream 4)) as [chns info]. simpl.
      by rewrite H6. }
    rewrite Hpre, capture_loop_eq in Hmain. cbn [loop_body_of loop_cond_of] in Hmain.
    assert (Hfirst : exists t,
               (do_while (AKlsl.loop_body g (Some 1) frames) AKlsl.loop_cond
                  (S fuel) {| frame_count := 0; captures := 0 |}).1
               = k4a_device_get_capture 0 (get_capture_result (frames 0)) :: t).
    { rewrite do_while_S.
      destruct (body_first_event AKlsl_cpp g (Some 1) frames
                  {| frame_count := 0; captures := 0 |}) as [t Ht].
      cbn [loop_body_of captures] in Ht.
      destruct (AKlsl.loop_body g (Some 1) frames _) as [t' [[c st1]|o]];
        simpl in Ht; subst t'.
      - rewrite bind_Val. by eexists.
      - by eexists. }
    destruct Hfirst as [t Ht].
    destruct (do_while _ _ (S fuel) _) as [t1 r] eqn:Hloop. simpl in Ht. subst t1.
    exists (AKlsl.describe g (stream 4)).2.
    pose proof (describe_fields AKlsl_cpp g 4) as Hf. cbn [describe_of] in Hf.
    rewrite Hmain. destruct r as [st|o]; simpl.
    + eexists. split; [done|]. by rewrite Hf.
    + eexists. split; [done|]. by rewrite Hf.
Qed.

#[local] Transparent AKlsl.describe AzureKinect2lsl.describe.

(** ** The claims on sample inputs *)

(** C1 as stated fails: with the 32 joints of the SDK and one body, the
    stores for the last joint leave the array and neither program pushes
    a pose vector; with two bodies nothing is extracted at all. *)
Lemma C1_counterexample :
  AKlsl.loop_body Sample.sdk_joints None Sample.one_body (Sample.turn 0)
  = (frame_popped None 0, Stop UndefinedBehaviour) /\
  AzureKinect2lsl.loop_body Sample.sdk_joints None Sample.one_body (Sample.turn 0)
  = (frame_popped None 0, Stop UndefinedBehaviour) /\
  k4abt_frame_get_num_bodies (Sample.session 2) = 2 /\
  AKlsl.loop_body Sample.two_joints None Sample.session (Sample.turn 2)
  = (frame_popped None 2, Stop (Exited (-1))) /\
  AzureKinect2lsl.loop_body Sample.two_joints None Sample.session (Sample.turn 2)
  = (frame_popped None 2, Stop (Exited (-1))).
Proof. repeat split; vm_compute; reflexivity. Qed.

(** C1 on a frame with one body and the table of two joints: the sample
    begins with the values of joint 0 and of joint 3. *)
Lemma C1_witness :
  exists data,
    loop_body_of AKlsl_cpp Sample.two_joints None Sample.one_body (Sample.turn 0)
    = (frame_popped None 0 ++
       [ lsl_push_sample lsl_push_sample_f 0 data; k4abt_frame_release 0 ],
       Val (Normal, next_capture (Sample.turn 0))) /\
    take 14 data = [1; 2; 3; 4; 5; 6; 7; 31; 32; 33; 34; 35; 36; 37]%Z.
Proof.
  destruct (C1_pose_vector_layout AKlsl_cpp Sample.two_joints None Sample.one_body
              (Sample.turn 0) (Sample.skeleton 0))
    as (data & Hturn & _ & Htake & _).
  - simpl. lia.
  - repeat split; reflexivity.
  - reflexivity.
  - exists data. split; [exact Hturn | exact Htake].
Defined.

(** C3 on the sample session with the 32 joints of the SDK: the stream has
    224 channels, the sample pushed for the frame without a body has 217
    values, and the joints of a skeleton do not fit the array. *)
Lemma C3_witness :
  let info := (AzureKinect2lsl.describe Sample.sdk_joints (stream 10)).2 in
  let run := AzureKinect2lsl.main Sample.sdk_joints Sample.config Sample.good_setup
               (fun _ => Sample.good_frame []) 3 in
  let data := fresh_data (Sample.good_frame []) in
  lsl_create_outlet info ∈ run.1 /\
  lsl_push_sample lsl_push_sample_f 0 data ∈ run.1 /\
  channel_count info = 224%Z /\
  length data = 217 /\
  AKlsl.extract (Sample.one_body 0) Sample.sdk_joints 0 (fresh_data (Sample.one_body 0))
  = None.
Proof.
  intros info run data.
  assert (Hout : lsl_create_outlet info ∈ run.1) by in_run.
  assert (Hpush : lsl_push_sample lsl_push_sample_f 0 data ∈ run.1) by in_run.
  destruct (C3_array_shorter_than_stream AzureKinect2lsl_cpp Sample.sdk_joints
              Sample.config Sample.good_setup (fun _ => Sample.good_frame []) 3 info Hout)
    as (Hcount & _ & _ & Hover).
  split; [exact Hout|]. split; [exact Hpush|]. split; [exact Hcount|].
  split; [reflexivity|].
  assert (Hlen : 31 < length Sample.sdk_joints) by (simpl; lia).
  exact (proj1 (Hover Hlen (Sample.one_body 0) (Sample.skeleton 0))).
Defined.

(** C5 on frame 1 of the sample session, which has no body. *)
Lemma C5_witness :
  delivered (Sample.session 1) /\
  bodies (Sample.session 1) = [] /\
  pushed (AzureKinect2lsl.loop_body Sample.two_joints (Some 0) Sample.session
            (Sample.turn 1)).1
  = [(1, fresh_data (Sample.session 1))] /\
  map fst (pushed (AKlsl.loop_body Sample.two_joints (Some 0) Sample.session
                     (Sample.turn 1)).1)
  = [1].
Proof.
  assert (Hd : delivered (Sample.session 1)) by (repeat split; reflexivity).
  assert (Hb : bodies (Sample.session 1) = []) by reflexivity.
  destruct (C5_sample_pushed_without_body Sample.two_joints (Some 0) Sample.session
              (Sample.turn 1) Hd Hb) as [Hsecond Hfirst].
  split; [exact Hd|]. split; [exact Hb|]. split.
  - rewrite Hsecond. reflexivity.
  - rewrite Hfirst by (simpl; lia). reflexivity.
Defined.

(** C6 on the sample session: the frame with two bodies is popped and
    never released. *)
Lemma C6_witness :
  let run := main_of AKlsl_cpp Sample.two_joints Sample.config Sample.good_setup
               Sample.session 5 in
  k4abt_tracker_pop_result (Some 0) 2 K4A_WAIT_RESULT_SUCCEEDED ∈ run.1 /\
  k4a_capture_release 2 ∈ run.1 /\
  (k4abt_frame_release 2 ∉ run.1) /\
  run.2 = Exited (-1).
Proof.
  assert (Hin : k4abt_tracker_pop_result (Some 0) 2 K4A_WAIT_RESULT_SUCCEEDED
                ∈ (main_of AKlsl_cpp Sample.two_joints Sample.config Sample.good_setup
                     Sample.session 5).1) by in_run.
  split; [exact Hin|].
  apply (C6_frame_of_many_bodies_not_released AKlsl_cpp Sample.two_joints Sample.config
           Sample.good_setup Sample.session 5 2 (Some 0) K4A_WAIT_RESULT_SUCCEEDED).
  - repeat split; reflexivity.
  - vm_compute. lia.
  - exact Hin.
Defined.

(** C7 as stated fails: when the wait for capture 1 fails, the second
    program ends the session with status 0, and the first program goes on
    to ask for the captures 2 to 99, and then ends with status 0 too. *)
Lemma C7_counterexample :
  get_capture_result (Sample.capture_fails 1) = K4A_WAIT_RESULT_FAILED /\
  (AzureKinect2lsl.main Sample.two_joints Sample.config Sample.good_setup
     Sample.capture_fails 100).2 = Exited 0 /\
  captures_asked
    (AzureKinect2lsl.main Sample.two_joints Sample.config Sample.good_setup
       Sample.capture_fails 100).1 = [0; 1] /\
  (AKlsl.main Sample.two_joints Sample.config Sample.good_setup
     Sample.capture_fails 100).2 = Exited 0 /\
  captures_asked
    (AKlsl.main Sample.two_joints Sample.config Sample.good_setup
       Sample.capture_fails 100).1 = seq 0 100.
Proof. repeat split; vm_compute; reflexivity. Qed.

(** C7 on a session in which the tracker does not take capture 1. *)
Lemma C7_witness :
  let run := main_of AKlsl_cpp Sample.two_joints Sample.config Sample.good_setup
               Sample.queue_fails 100 in
  failure_breaks AKlsl_cpp (Sample.queue_fails 1) /\
  exists before tracker,
    run = (before ++ failed_turn tracker 1 (Sample.queue_fails 1) ++
           [ k4abt_tracker_shutdown tracker; k4abt_tracker_destroy tracker;
             k4a_device_stop_cameras; k4a_device_close ],
           Exited 0) /\
    Forall (fun e => forall n, event_frame e = Some n -> n < 1) before.
Proof.
  assert (Hf : failure_breaks AKlsl_cpp (Sample.queue_fails 1))
    by (split; [reflexivity | discriminate]).
  split; [exact Hf|].
  apply (C7_failure_ends_session_with_status_0 AKlsl_cpp Sample.two_joints Sample.config
           Sample.good_setup Sample.queue_fails 100 1 K4A_WAIT_RESULT_SUCCEEDED Hf).
  in_run.
Defined.

(** C8 on a setup in which no tracker can be made. *)
Lemma C8_witness :
  let io := Sample.setup K4A_RESULT_FAILED K4A_RESULT_FAILED 0 in
  let run := AzureKinect2lsl.main Sample.two_joints Sample.config io Sample.one_body 3 in
  tracker_create_result io 1 Sample.config = K4A_RESULT_FAILED /\
  (exists info rest,
     run.1
     = [ k4a_device_open K4A_RESULT_SUCCEEDED;
         k4a_device_start_cameras K4A_RESULT_SUCCEEDED;
         k4a_device_get_calibration K4A_RESULT_SUCCEEDED;
         k4abt_tracker_create
           (set_processing_mode Sample.config K4ABT_TRACKER_PROCESSING_MODE_GPU_CUDA)
           K4A_RESULT_FAILED;
         k4abt_tracker_create Sample.config K4A_RESULT_FAILED;
         lsl_create_outlet info;
         lsl_wait_for_consumers true;
         k4a_device_get_capture 0 K4A_WAIT_RESULT_SUCCEEDED ] ++ rest /\
     nominal_srate info = 4%Z) /\
  (forall tr n r, k4abt_tracker_enqueue_capture tr n r ∈ run.1 -> tr = None) /\
  run.2 <> Exited 1.
Proof.
  split; [reflexivity|].
  apply (C8_second_attempt_unchecked Sample.two_joints Sample.config
           (Sample.setup K4A_RESULT_FAILED K4A_RESULT_FAILED 0) Sample.one_body 2);
    try reflexivity.
  discriminate.
Defined.

(** C9 as stated fails: when nothing fails, the second program asks for
    more than 100 captures, here for as many as it is given turns, and its
    loop has not ended then. *)
Lemma C9_counterexample :
  captures_asked
    (AzureKinect2lsl.main Sample.two_joints Sample.config Sample.good_setup
       Sample.one_body 150).1 = seq 0 150 /\
  (AzureKinect2lsl.main Sample.two_joints Sample.config Sample.good_setup
     Sample.one_body 150).2 = OutOfFuel.
Proof. split; vm_compute; reflexivity. Qed.


(** A run of the first program in which all of this shows: one stream,
    declared as doubles at the rate of the CUDA tracker, and a sample for
    the frame with one body and for the frame with none, before the frame
    with two bodies ends the process. *)
Example sample_session :
  map (fun info => (channel_count info, nominal_srate info, channel_format info))
    (outlets (AKlsl.main Sample.two_joints Sample.config Sample.good_setup
                Sample.session 100).1)
  = [(224%Z, 10%Z, cft_double64)] /\
  map (fun s => (s.1, take 14 s.2, length s.2))
    (pushed (AKlsl.main Sample.two_joints Sample.config Sample.good_setup
               Sample.session 100).1)
  = [ (0, [101; 102; 103; 104; 105; 106; 107; 131; 132; 133; 134; 135; 136; 137]%Z, 217);
      (1, [-999; -998; -997; -996; -995; -994; -993;
           -969; -968; -967; -966; -965; -964; -963]%Z, 217) ] /\
  (AKlsl.main Sample.two_joints Sample.config Sample.good_setup Sample.session 100).2
  = Exited (-1).
Proof. repeat split; vm_compute; reflexivity. Qed.

(** * Further properties of the two programs *)

#[local] Opaque AKlsl.describe AzureKinect2lsl.describe.

(** ** The prelude in closed form *)

Lemma prelude_device_fails (p : program) (g : list joint_entry)
    (cfg : k4abt_tracker_configuration_t) (io : SetupIO) (fuel : nat) :
  ~ device_ok io ->
  prelude_of p g cfg io fuel = (device_calls io, Stop (Exited 1)).
Proof.
  unfold device_ok, device_calls. intros Hno.
  destruct p; cbn [prelude_of];
    unfold AKlsl.prelude, AzureKinect2lsl.prelude,
      AKlsl.open_device, AzureKinect2lsl.open_device, VERIFY;
    destruct (device_open_result io); simpl; try done;
    destruct (start_cameras_result io); simpl; try done;
    destruct (get_calibration_result io); simpl; try done;
    by destruct Hno.
Qed.

Lemma prelude_first_tracker (p : program) (g : list joint_entry)
    (cfg : k4abt_tracker_configuration_t) (io : SetupIO) (fuel : nat) :
  device_ok io ->
  first_result cfg io = K4A_RESULT_SUCCEEDED ->
  prelude_of p g cfg io fuel
  = after_outlet io fuel
      (device_calls io ++ create_calls p cfg io ++
       [lsl_create_outlet (describe_of p g (stream 10)).2])
      (Some 0).
Proof.
  unfold device_ok, device_calls, create_calls, first_result, cuda_config, after_outlet.
  intros (H1 & H2 & H3) H4.
  destruct p; cbn [prelude_of describe_of];
    unfold AKlsl.prelude, AzureKinect2lsl.prelude,
      AKlsl.open_device, AzureKinect2lsl.open_device,
      AKlsl.create_tracker, AzureKinect2lsl.create_tracker, tracker_create, VERIFY;
    rewrite H1, H2, H3; simpl; rewrite H4; simpl;
    change (lsl_create_streaminfo _ _ _ 10 _ _) with (stream 10);
    rewrite ?wait_for_recorder_same.
  - destruct (AKlsl.describe g (stream 10)) as [chns info]. simpl.
    by destruct (AKlsl.wait_for_recorder io fuel 0) as [t [[]|o]]; simpl; rewrite ?app_nil_r.
  - destruct (AzureKinect2lsl.describe g (stream 10)) as [chns info]. simpl.
    by destruct (AKlsl.wait_for_recorder io fuel 0) as [t [[]|o]]; simpl; rewrite ?app_nil_r.
Qed.

Lemma prelude_no_tracker (g : list joint_entry)
    (cfg : k4abt_tracker_configuration_t) (io : SetupIO) (fuel : nat) :
  device_ok io ->
  first_result cfg io <> K4A_RESULT_SUCCEEDED ->
  second_result AKlsl_cpp cfg io <> K4A_RESULT_SUCCEEDED ->
  AKlsl.prelude g cfg io fuel
  = (device_calls io ++ create_calls AKlsl_cpp cfg io, Stop (Exited 1)).
Proof.
  unfold device_ok, device_calls, create_calls, first_result, second_result,
    second_config, cuda_config.
  intros (H1 & H2 & H3) H4 H5.
  unfold AKlsl.prelude, AKlsl.open_device, AKlsl.create_tracker, tracker_create, VERIFY.
  rewrite H1, H2, H3. simpl.
  rewrite (decide_True (P := _ <> _)) by done. simpl.
  rewrite (decide_True (P := _ <> _)) by done. simpl.
  by rewrite (decide_False (P := _ = _)) by done.
Qed.

Lemma prelude_second_tracker (p : program) (g : list joint_entry)
    (cfg : k4abt_tracker_configuration_t) (io : SetupIO) (fuel : nat) :
  device_ok io ->
  first_result cfg io <> K4A_RESULT_SUCCEEDED ->
  (p = AKlsl_cpp -> second_result p cfg io = K4A_RESULT_SUCCEEDED) ->
  prelude_of p g cfg io fuel
  = after_outlet io fuel
      (device_calls io ++ create_calls p cfg io ++
       [lsl_create_outlet (describe_of p g (stream 4)).2])
      (match p with AKlsl_cpp => Some 1 | AzureKinect2lsl_cpp => None end).
Proof.
  unfold device_ok, device_calls, create_calls, first_result, second_result,
    second_config, cuda_config, after_outlet.
  intros (H1 & H2 & H3) H4 H5.
  destruct p; cbn [prelude_of describe_of];
    unfold AKlsl.prelude, AzureKinect2lsl.prelude,
      AKlsl.open_device, AzureKinect2lsl.open_device,
      AKlsl.create_tracker, AzureKinect2lsl.create_tracker, tracker_create, VERIFY;
    rewrite H1, H2, H3; simpl;
    rewrite (decide_True (P := _ <> _)) by done; simpl;
    rewrite ?(decide_False (P := tracker_create_result io 0 _ = _)) by done; simpl;
    rewrite ?wait_for_recorder_same.
  - rewrite (H5 eq_refl). simpl.
    change (lsl_create_streaminfo _ _ _ 4 _ _) with (stream 4).
    destruct (AKlsl.describe g (stream 4)) as [chns info]. simpl.
    by destruct (AKlsl.wait_for_recorder io fuel 0) as [t [[]|o]]; simpl; rewrite ?app_nil_r.
  - change (lsl_create_streaminfo _ _ _ 4 _ _) with (stream 4).
    destruct (AzureKinect2lsl.describe g (stream 4)) as [chns info]. simpl.
    by destruct (AKlsl.wait_for_recorder io fuel 0) as [t [[]|o]]; simpl; rewrite ?app_nil_r.
Qed.

(** ** The parts of a run *)

Lemma bind_trace {A B : Type} (m : proc A) (f : A -> proc B) :
  (bind m f).1 = m.1 ++ match m.2 with Val a => (f a).1 | Stop _ => [] end.
Proof.
  destruct m as [t [a|o]]; simpl; [|by rewrite app_nil_r]. by destruct (f a).
Qed.

(** The events of a run: those of the prelude, then those of the loop, then
    the lines after the loop if the loop is left. *)
Lemma main_trace (p : program) (g : list joint_entry)
    (cfg : k4abt_tracker_configuration_t) (io : SetupIO) (frames : nat -> FrameIO)
    (fuel : nat) :
  (main_of p g cfg io frames fuel).1
  = (prelude_of p g cfg io fuel).1 ++
    match (prelude_of p g cfg io fuel).2 with
    | Val tracker =>
        (capture_loop_of p g tracker frames fuel).1 ++
        match (capture_loop_of p g tracker frames fuel).2 with
        | Val _ => cleanup_events tracker
        | Stop _ => []
        end
    | Stop _ => []
    end.
Proof.
  rewrite main_eq.
  destruct (prelude_of p g cfg io fuel) as [t0 [tracker|o]]; simpl; [|by rewrite app_nil_r].
  destruct (capture_loop_of p g tracker frames fuel) as [t1 [st|o]]; simpl; [done|].
  by rewrite app_nil_r.
Qed.

Lemma main_outcome (p : program) (g : list joint_entry)
    (cfg : k4abt_tracker_configuration_t) (io : SetupIO) (frames : nat -> FrameIO)
    (fuel : nat) :
  (main_of p g cfg io frames fuel).2
  = match (prelude_of p g cfg io fuel).2 with
    | Val tracker =>
        match (capture_loop_of p g tracker frames fuel).2 with
        | Val _ => Exited 0
        | Stop o => o
        end
    | Stop o => o
    end.
Proof.
  rewrite main_eq.
  destruct (prelude_of p g cfg io fuel) as [t0 [tracker|o]]; simpl; [|done].
  by destruct (capture_loop_of p g tracker frames fuel) as [t1 [st|o]].
Qed.

(** A reading of the events that finds nothing in events that are not
    about a capture finds in a run what it finds in the loop. *)
Lemma omap_none {B : Type} (f : event -> option B) (t : list event) :
  Forall (fun e => f e = None) t -> omap f t = [].
Proof. induction 1 as [|e t He _ IH]; simpl; [done|]. by rewrite He. Qed.

Lemma main_omap {B : Type} (f : event -> option B) (p : program) (g : list joint_entry)
    (cfg : k4abt_tracker_configuration_t) (io : SetupIO) (frames : nat -> FrameIO)
    (fuel : nat) :
  (forall e, event_frame e = None -> f e = None) ->
  omap f (main_of p g cfg io frames fuel).1
  = match (prelude_of p g cfg io fuel).2 with
    | Val tracker => omap f (capture_loop_of p g tracker frames fuel).1
    | Stop _ => []
    end.
Proof.
  intros Hf. rewrite main_trace, omap_app.
  rewrite (omap_none f (prelude_of p g cfg io fuel).1).
  2:{ eapply Forall_impl; [apply prelude_events|]. intros e He. by apply Hf. }
  destruct (prelude_of p g cfg io fuel).2 as [tracker|o]; [|done].
  rewrite omap_app. simpl.
  rewrite (omap_none f (match (capture_loop_of p g tracker frames fuel).2 with
                        | Val _ => cleanup_events tracker | Stop _ => [] end)).
  - by rewrite app_nil_r.
  - destruct (capture_loop_of p g tracker frames fuel).2; [|constructor].
    eapply Forall_impl; [apply cleanup_events_frame|]. intros e He. by apply Hf.
Qed.

(** Two readings that agree on every turn agree on the loop. *)
Lemma do_while_omap {S B : Type} (f1 f2 : event -> option B)
    (body : S -> proc (ctl * S)) (cond : S -> bool * S) :
  (forall st, omap f1 (body st).1 = omap f2 (body st).1) ->
  forall fuel st,
    omap f1 (do_while body cond fuel st).1 = omap f2 (do_while body cond fuel st).1.
Proof.
  intros Hbody. induction fuel as [|fuel IH]; intros st; [done|].
  cbn [do_while]. rewrite !bind_trace, !omap_app, Hbody. f_equal.
  destruct (body st).2 as [[c st1]|o]; [|done].
  destruct c; [|done]. destruct (cond st1) as [b st2]. destruct b; [apply IH|done].
Qed.

(** ** The four ways through the prelude *)

Lemma device_ok_dec (io : SetupIO) : device_ok io \/ ~ device_ok io.
Proof.
  unfold device_ok.
  destruct (decide (device_open_result io = K4A_RESULT_SUCCEEDED));
    destruct (decide (start_cameras_result io = K4A_RESULT_SUCCEEDED));
    destruct (decide (get_calibration_result io = K4A_RESULT_SUCCEEDED));
    tauto.
Qed.

Lemma prelude_forms (p : program) (g : list joint_entry)
    (cfg : k4abt_tracker_configuration_t) (io : SetupIO) (fuel : nat) :
  (~ device_ok io /\
   prelude_of p g cfg io fuel = (device_calls io, Stop (Exited 1))) \/
  (device_ok io /\ first_result cfg io = K4A_RESULT_SUCCEEDED /\
   prelude_of p g cfg io fuel
   = after_outlet io fuel
       (device_calls io ++ create_calls p cfg io ++
        [lsl_create_outlet (describe_of p g (stream 10)).2])
       (Some 0)) \/
  (device_ok io /\ first_result cfg io <> K4A_RESULT_SUCCEEDED /\
   p = AKlsl_cpp /\ second_result p cfg io <> K4A_RESULT_SUCCEEDED /\
   prelude_of p g cfg io fuel
   = (device_calls io ++ create_calls p cfg io, Stop (Exited 1))) \/
  (device_ok io /\ first_result cfg io <> K4A_RESULT_SUCCEEDED /\
   (p = AKlsl_cpp -> second_result p cfg io = K4A_RESULT_SUCCEEDED) /\
   prelude_of p g cfg io fuel
   = after_outlet io fuel
       (device_calls io ++ create_calls p cfg io ++
        [lsl_create_outlet (describe_of p g (stream 4)).2])
       (match p with AKlsl_cpp => Some 1 | AzureKinect2lsl_cpp => None end)).
Proof.
  destruct (device_ok_dec io) as [Hd|Hd].
  2:{ left. split; [done|]. by apply prelude_device_fails. }
  right. destruct (decide (first_result cfg io = K4A_RESULT_SUCCEEDED)) as [H1|H1].
  { left. split; [done|]. split; [done|]. by apply prelude_first_tracker. }
  right.
  destruct p.
  - destruct (decide (second_result AKlsl_cpp cfg io = K4A_RESULT_SUCCEEDED)) as [H2|H2].
    + right. repeat (split; [done|]). by apply prelude_second_tracker.
    + left. repeat (split; [done|]). by apply prelude_no_tracker.
  - right. repeat (split; [done|]). by apply prelude_second_tracker.
Qed.

Lemma wait_for_recorder_outcome (io : SetupIO) (fuel : nat) :
  forall k o, (AKlsl.wait_for_recorder io fuel k).2 = Stop o -> o = OutOfFuel.
Proof.
  induction fuel as [|fuel IH]; intros k o; simpl; [by intros [= <-]|].
  destruct (consumers io k); simpl; [done|].
  specialize (IH (S k) o). by destruct (AKlsl.wait_for_recorder io fuel (S k)) as [t r].
Qed.

(** The polls when a recorder is first there at poll [k + n]. *)
Lemma wait_for_recorder_polls (io : SetupIO) (n : nat) :
  forall fuel k,
    (forall j, k <= j < k + n -> consumers io j = false) ->
    consumers io (k + n) = true ->
    n < fuel ->
    AKlsl.wait_for_recorder io fuel k
    = (map lsl_wait_for_consumers (replicate n false ++ [true]), Val tt).
Proof.
  induction n as [|n IH]; intros fuel k Hno Hyes Hfuel.
  - destruct fuel as [|fuel]; [lia|]. simpl.
    replace (k + 0) with k in Hyes by lia. by rewrite Hyes.
  - destruct fuel as [|fuel]; [lia|]. simpl.
    rewrite (Hno k) by lia. simpl.
    rewrite (IH fuel (S k)); [done| |by replace (S k + n) with (k + S n) by lia|lia].
    intros j Hj. apply Hno. lia.
Qed.

(** The polls when no recorder comes. *)
Lemma wait_for_recorder_never (io : SetupIO) (fuel : nat) :
  forall k,
    (forall j, consumers io j = false) ->
    AKlsl.wait_for_recorder io fuel k
    = (map lsl_wait_for_consumers (replicate fuel false), Stop OutOfFuel).
Proof.
  induction fuel as [|fuel IH]; intros k Hno; [done|].
  simpl. rewrite Hno. simpl. by rewrite IH.
Qed.

Lemma device_calls_setup (io : SetupIO) : Forall is_setup (device_calls io).
Proof. unfold device_calls. repeat case_decide; repeat constructor. Qed.

Lemma create_calls_setup (p : program) (cfg : k4abt_tracker_configuration_t) (io : SetupIO) :
  Forall is_setup (create_calls p cfg io).
Proof. unfold create_calls. case_decide; repeat constructor. Qed.

Lemma wait_for_recorder_setup (io : SetupIO) (fuel k : nat) :
  Forall is_setup (AKlsl.wait_for_recorder io fuel k).1.
Proof.
  eapply Forall_impl; [apply wait_for_recorder_events|]. by intros e [r ->].
Qed.

Lemma prelude_setup (p : program) (g : list joint_entry)
    (cfg : k4abt_tracker_configuration_t) (io : SetupIO) (fuel : nat) :
  Forall is_setup (prelude_of p g cfg io fuel).1.
Proof.
  pose proof (device_calls_setup io). pose proof (create_calls_setup p cfg io).
  pose proof (wait_for_recorder_setup io fuel 0).
  destruct (prelude_forms p g cfg io fuel)
    as [(_ & ->)|[(_ & _ & ->)|[(_ & _ & _ & _ & ->)|(_ & _ & _ & ->)]]];
    unfold after_outlet; cbn [fst]; rewrite ?Forall_app; repeat split; try done;
    by repeat constructor.
Qed.

(** The prelude ends the process with status 1 or not at all. *)
Lemma prelude_outcome (p : program) (g : list joint_entry)
    (cfg : k4abt_tracker_configuration_t) (io : SetupIO) (fuel : nat) (o : outcome) :
  (prelude_of p g cfg io fuel).2 = Stop o -> o = Exited 1 \/ o = OutOfFuel.
Proof.
  pose proof (wait_for_recorder_outcome io fuel 0) as Hw.
  destruct (prelude_forms p g cfg io fuel)
    as [(_ & ->)|[(_ & _ & ->)|[(_ & _ & _ & _ & ->)|(_ & _ & _ & ->)]]];
    unfold after_outlet; cbn [snd].
  - intros [= <-]. by left.
  - destruct (AKlsl.wait_for_recorder io fuel 0).2; [done|]. intros [= <-]. right. by apply Hw.
  - intros [= <-]. by left.
  - destruct (AKlsl.wait_for_recorder io fuel 0).2; [done|]. intros [= <-]. right. by apply Hw.
Qed.

Lemma cleanup_events_eq (tracker : k4abt_tracker_t) :
  cleanup_events tracker
  = [ k4abt_tracker_shutdown tracker; k4abt_tracker_destroy tracker;
      k4a_device_stop_cameras; k4a_device_close ].
Proof. done. Qed.

(** A reading that finds nothing in the events about a capture and in
    those after the loop finds in a run what it finds in the prelude. *)
Lemma main_omap_prelude {B : Type} (f : event -> option B) (p : program)
    (g : list joint_entry) (cfg : k4abt_tracker_configuration_t) (io : SetupIO)
    (frames : nat -> FrameIO) (fuel : nat) :
  (forall e, ~ is_setup e -> f e = None) ->
  omap f (main_of p g cfg io frames fuel).1 = omap f (prelude_of p g cfg io fuel).1.
Proof.
  intros Hf. rewrite main_trace, omap_app.
  rewrite <- (app_nil_r (omap f (prelude_of p g cfg io fuel).1)) at 2. f_equal.
  destruct (prelude_of p g cfg io fuel).2 as [tracker|o]; [|done].
  apply omap_none. apply Forall_app. split.
  - apply Forall_forall. intros e He. apply Hf.
    apply loop_events_frame in He as [n Hn]. destruct e; simpl in *; try discriminate; tauto.
  - destruct (capture_loop_of p g tracker frames fuel).2; [|constructor].
    rewrite cleanup_events_eq. repeat constructor; apply Hf; simpl; tauto.
Qed.

(** ** Runs that end in the prelude *)

(** X1.  When the device cannot be opened, or its cameras cannot be
    started, or its calibration cannot be read, either program ends with
    status 1 right after the call that failed: the run consists of the
    calls to the device up to that one, no tracker and no stream is made,
    and the device is neither stopped nor closed. *)
Theorem device_failure_ends_run (p : program) (g : list joint_entry)
    (cfg : k4abt_tracker_configuration_t) (io : SetupIO) (frames : nat -> FrameIO)
    (fuel : nat) :
  ~ device_ok io ->
  main_of p g cfg io frames fuel = (device_calls io, Exited 1) /\
  Forall (fun e => ~ is_cleanup e) (device_calls io).
Proof.
  intros Hd. split.
  - by rewrite main_eq, prelude_device_fails.
  - unfold device_calls. repeat case_decide; repeat constructor; simpl; tauto.
Qed.

Lemma setup_calls_outlets (p : program) (cfg : k4abt_tracker_configuration_t) (io : SetupIO) :
  outlets (device_calls io) = [] /\ outlets (create_calls p cfg io) = [].
Proof. unfold device_calls, create_calls. by repeat case_decide. Qed.

Lemma wait_for_recorder_outlets (io : SetupIO) (fuel k : nat) :
  outlets (AKlsl.wait_for_recorder io fuel k).1 = [].
Proof.
  apply omap_none. eapply Forall_impl; [apply wait_for_recorder_events|].
  by intros e [r ->].
Qed.

Lemma outlet_in_outlets (info : lsl_streaminfo) (t : list event) :
  lsl_create_outlet info ∈ t -> info ∈ outlets t.
Proof. intros Hin. apply list_elem_of_omap. by exists (lsl_create_outlet info). Qed.

Lemma prelude_outlets (p : program) (g : list joint_entry)
    (cfg : k4abt_tracker_configuration_t) (io : SetupIO) (fuel : nat) :
  outlets (prelude_of p g cfg io fuel).1 = [] \/
  outlets (prelude_of p g cfg io fuel).1 = [(describe_of p g (stream (rate_of cfg io))).2].
Proof.
  destruct (setup_calls_outlets p cfg io) as [Hd Hc].
  pose proof (wait_for_recorder_outlets io fuel 0) as Hw. unfold rate_of.
  destruct (prelude_forms p g cfg io fuel)
    as [(_ & ->)|[(_ & H1 & ->)|[(_ & _ & _ & _ & ->)|(_ & H1 & _ & ->)]]];
    unfold after_outlet, outlets in *; cbn [fst]; rewrite ?omap_app, ?Hd, ?Hc, ?Hw.
  - by left.
  - right. by rewrite decide_True.
  - by left.
  - right. by rewrite decide_False.
Qed.

(** X2.  A run makes at most one stream.  The stream has the name
    "Azure-Kinect", the type "MoCap" and the source id "325wqer4354", and
    its rate is 10 when the first attempt to make a tracker, the one with
    CUDA, has succeeded, and 4 when it has failed. *)
Theorem one_stream_with_rate_of_tracker (p : program) (g : list joint_entry)
    (cfg : k4abt_tracker_configuration_t) (io : SetupIO) (frames : nat -> FrameIO)
    (fuel : nat) (info : lsl_streaminfo) :
  lsl_create_outlet info ∈ (main_of p g cfg io frames fuel).1 ->
  outlets (main_of p g cfg io frames fuel).1 = [info] /\
  name info = "Azure-Kinect" /\
  type info = "MoCap" /\
  source_id info = "325wqer4354" /\
  nominal_srate info
  = (if decide (first_result cfg io = K4A_RESULT_SUCCEEDED) then 10 else 4)%Z.
Proof.
  intros Hin.
  pose proof (outlet_in_outlets _ _ Hin) as Hout.
  unfold outlets in *. rewrite main_omap_prelude in Hout |- *.
  2,3: intros e He; destruct e; simpl in *; tauto.
  destruct (prelude_outlets p g cfg io fuel) as [Hp|Hp]; unfold outlets in Hp;
    rewrite Hp in Hout |- *.
  { by apply elem_of_nil in Hout. }
  apply list_elem_of_singleton in Hout as ->. split; [done|].
  rewrite describe_fields. unfold rate_of. by case_decide.
Qed.

(** X3.  The first program hands to the tracker library, in the loop and
    after it, the tracker it has made: the one of the first attempt when
    that succeeded, the one of the second attempt when the first failed and
    the second succeeded; it never uses a tracker that was not made. *)
Theorem AKlsl_uses_the_tracker_made (g : list joint_entry)
    (cfg : k4abt_tracker_configuration_t) (io : SetupIO) (frames : nat -> FrameIO)
    (fuel : nat) (e : event) (tracker : k4abt_tracker_t) :
  e ∈ (AKlsl.main g cfg io frames fuel).1 ->
  event_tracker e = Some tracker ->
  (first_result cfg io = K4A_RESULT_SUCCEEDED /\ tracker = Some 0) \/
  (first_result cfg io <> K4A_RESULT_SUCCEEDED /\
   second_result AKlsl_cpp cfg io = K4A_RESULT_SUCCEEDED /\ tracker = Some 1).
Proof.
  change (AKlsl.main g cfg io frames fuel) with (main_of AKlsl_cpp g cfg io frames fuel).
  rewrite main_trace. intros He Htr.
  apply elem_of_app in He as [He|He].
  { pose proof (prelude_setup AKlsl_cpp g cfg io fuel) as Hs.
    eapply Forall_forall in Hs; [|done]. by destruct e. }
  assert (exists tr, (prelude_of AKlsl_cpp g cfg io fuel).2 = Val tr /\ tracker = tr)
    as (tr & Hpre & ->).
  { destruct (prelude_of AKlsl_cpp g cfg io fuel).2 as [tr|o];
      [|by apply elem_of_nil in He].
    exists tr. split; [done|]. apply elem_of_app in He as [He|He].
    - rewrite capture_loop_eq in He.
      pose proof (do_while_Forall
                    (fun e => forall t, event_tracker e = Some t -> t = tr)
                    (loop_body_of AKlsl_cpp g tr frames) (loop_cond_of AKlsl_cpp)) as Hf.
      eapply Forall_forall in Hf; [by apply Hf|..|done].
      intros st. cbn [loop_body_of]. turn_cases;
        repeat (constructor; [intros t; simpl; congruence|]); constructor.
    - destruct (capture_loop_of AKlsl_cpp g tr frames fuel).2; [|by apply elem_of_nil in He].
      rewrite cleanup_events_eq in He. members He; subst e; simpl in Htr; congruence. }
  destruct (prelude_forms AKlsl_cpp g cfg io fuel)
    as [(_ & Heq)|[(_ & H1 & Heq)|[(_ & _ & _ & _ & Heq)|(_ & H1 & H2 & Heq)]]];
    rewrite Heq in Hpre; unfold after_outlet in Hpre; cbn [snd] in Hpre; try done.
  - left. split; [done|]. destruct (AKlsl.wait_for_recorder io fuel 0).2; congruence.
  - right. split; [done|]. split; [by apply H2|].
    destruct (AKlsl.wait_for_recorder io fuel 0).2; congruence.
Qed.

Lemma polls_map (l : list bool) : polls (map lsl_wait_for_consumers l) = l.
Proof. induction l as [|b l IH]; [done|]. simpl. by rewrite IH. Qed.

Lemma setup_calls_polls (p : program) (cfg : k4abt_tracker_configuration_t) (io : SetupIO) :
  polls (device_calls io) = [] /\ polls (create_calls p cfg io) = [].
Proof. unfold device_calls, create_calls. by repeat case_decide. Qed.

(** X4.  The programs ask for no capture before a recorder listens to the
    stream: when no recorder ever comes, a run consists of calls of the
    prelude alone, it does not end with status 0, and once the stream is
    made the program polls for as long as it runs. *)
Theorem no_capture_without_recorder (p : program) (g : list joint_entry)
    (cfg : k4abt_tracker_configuration_t) (io : SetupIO) (frames : nat -> FrameIO)
    (fuel : nat) :
  (forall k, consumers io k = false) ->
  Forall is_setup (main_of p g cfg io frames fuel).1 /\
  ((main_of p g cfg io frames fuel).2 = Exited 1 \/
   (main_of p g cfg io frames fuel).2 = OutOfFuel) /\
  (forall info,
     lsl_create_outlet info ∈ (main_of p g cfg io frames fuel).1 ->
     polls (main_of p g cfg io frames fuel).1 = replicate fuel false /\
     (main_of p g cfg io frames fuel).2 = OutOfFuel).
Proof.
  intros Hno. pose proof (prelude_setup p g cfg io fuel) as Hs.
  destruct (setup_calls_outlets p cfg io) as [Hd Hc].
  destruct (setup_calls_polls p cfg io) as [Hd' Hc'].
  rewrite main_eq.
  destruct (prelude_forms p g cfg io fuel)
    as [(_ & Heq)|[(_ & _ & Heq)|[(_ & _ & _ & _ & Heq)|(_ & _ & _ & Heq)]]];
    rewrite Heq in Hs |- *; unfold after_outlet in *;
    rewrite ?(wait_for_recorder_never io fuel 0 Hno) in *; cbn [fst snd] in *.
  - split; [done|]. split; [by left|]. intros info Hin.
    apply outlet_in_outlets in Hin. rewrite Hd in Hin. by apply elem_of_nil in Hin.
  - split; [done|]. split; [by right|]. intros info _. split; [|done].
    unfold polls in *. rewrite !omap_app, Hd', Hc'. simpl. apply polls_map.
  - split; [done|]. split; [by left|]. intros info Hin.
    apply outlet_in_outlets in Hin. unfold outlets in *. rewrite omap_app, Hd, Hc in Hin. by apply elem_of_nil in Hin.
  - split; [done|]. split; [by right|]. intros info _. split; [|done].
    unfold polls in *. rewrite !omap_app, Hd', Hc'. simpl. apply polls_map.
Qed.

(** X5.  A run that makes a stream does so after the calls to the device
    and the attempts to make a tracker; it then polls until a recorder is
    there, and the first thing it does then is to ask for capture 0. *)
Theorem first_capture_after_recorder (p : program) (g : list joint_entry)
    (cfg : k4abt_tracker_configuration_t) (io : SetupIO) (frames : nat -> FrameIO)
    (fuel k : nat) (info : lsl_streaminfo) :
  (forall j, j < k -> consumers io j = false) ->
  consumers io k = true ->
  k < fuel ->
  lsl_create_outlet info ∈ (main_of p g cfg io frames fuel).1 ->
  exists rest,
    (main_of p g cfg io frames fuel).1
    = device_calls io ++ create_calls p cfg io ++
      lsl_create_outlet info ::
      map lsl_wait_for_consumers (replicate k false ++ [true]) ++
      k4a_device_get_capture 0 (get_capture_result (frames 0)) :: rest.
Proof.
  intros Hno Hyes Hfuel Hin.
  assert (Hw : AKlsl.wait_for_recorder io fuel 0
               = (map lsl_wait_for_consumers (replicate k false ++ [true]), Val tt)).
  { apply wait_for_recorder_polls; [|done|done]. intros j Hj. apply Hno. lia. }
  pose proof (outlet_in_outlets _ _ Hin) as Hout.
  unfold outlets in Hout. rewrite main_omap_prelude in Hout.
  2: intros e He; destruct e; simpl in *; tauto.
  fold (outlets (prelude_of p g cfg io fuel).1) in Hout.
  assert (exists tracker,
            prelude_of p g cfg io fuel
            = (device_calls io ++ create_calls p cfg io ++
               lsl_create_outlet info ::
               map lsl_wait_for_consumers (replicate k false ++ [true]),
               Val tracker)) as [tracker Hpre].
  { destruct (setup_calls_outlets p cfg io) as [Hd Hc].
    destruct (prelude_forms p g cfg io fuel)
      as [(_ & Heq)|[(_ & _ & Heq)|[(_ & _ & _ & _ & Heq)|(_ & _ & _ & Heq)]]];
      rewrite Heq in Hout |- *; unfold after_outlet in *; rewrite ?Hw in *;
      cbn [fst snd] in *; unfold outlets in *;
      rewrite ?omap_app, ?Hd, ?Hc in Hout; simpl in Hout;
      try (by apply elem_of_nil in Hout).
    all: rewrite (omap_none _ (map _ _)) in Hout
           by (apply Forall_forall; intros e (b & -> & _)%list_elem_of_fmap; done).
    all: apply list_elem_of_singleton in Hout as ->.
    all: eexists; rewrite <- ?app_assoc; simpl; reflexivity. }
  destruct fuel as [|fuel]; [lia|].
  rewrite main_trace, Hpre. cbn [fst snd]. rewrite capture_loop_eq, do_while_S, bind_trace.
  destruct (body_first_event p g tracker frames {| frame_count := 0; captures := 0 |})
    as [t Ht].
  rewrite Ht. cbn [captures]. eexists.
  rewrite <- ?app_assoc. simpl. rewrite <- ?app_assoc. simpl. reflexivity.
Qed.

(** ** Turns in closed form *)

Lemma body_calls (p : program) (g : list joint_entry) (tracker : k4abt_tracker_t)
    (frames : nat -> FrameIO) (st : loop_state) :
  (loop_body_of p g tracker frames st).1
  = turn_calls p g tracker (captures st) (frames (captures st)).
Proof.
  unfold turn_calls, failed_turn, sample_calls, sample_of.
  destruct p; cbn [loop_body_of];
    unfold AKlsl.loop_body, AzureKinect2lsl.loop_body;
    destruct (get_capture_result (frames (captures st)));
    destruct (queue_capture_result (frames (captures st)));
    destruct (pop_frame_result (frames (captures st))); simpl; try done.
  all: case_decide; simpl; [done|].
  - by destruct (AKlsl.extract _ _ _ _).
  - by destruct (AzureKinect2lsl.extract_bodies _ _ _ _ _).
Qed.

(** A turn ends the process only after it has got a frame from the tracker:
    with [return -1] when the frame has several bodies, by a store outside
    the array otherwise. *)
Lemma body_stop (p : program) (g : list joint_entry) (tracker : k4abt_tracker_t)
    (frames : nat -> FrameIO) (st : loop_state) (o : outcome) :
  (loop_body_of p g tracker frames st).2 = Stop o ->
  delivered (frames (captures st)) /\
  (loop_body_of p g tracker frames st).1 = frame_popped tracker (captures st) /\
  ((o = Exited (-1) /\ k4abt_frame_get_num_bodies (frames (captures st)) > 1) \/
   (o = UndefinedBehaviour /\ k4abt_frame_get_num_bodies (frames (captures st)) <= 1 /\
    sample_of p g (frames (captures st)) = None)).
Proof.
  unfold delivered, frame_popped, sample_of.
  destruct p; cbn [loop_body_of];
    unfold AKlsl.loop_body, AzureKinect2lsl.loop_body;
    destruct (get_capture_result (frames (captures st)));
    destruct (queue_capture_result (frames (captures st)));
    destruct (pop_frame_result (frames (captures st))); simpl; try done.
  all: case_decide; simpl.
  all: try (intros [= <-]; repeat (split; [done|]); left; by split).
  - destruct (AKlsl.extract _ _ _ _) eqn:E; simpl; [done|].
    intros [= <-]. repeat (split; [done|]). right. split; [done|]. split; [lia|done].
  - destruct (AzureKinect2lsl.extract_bodies _ _ _ _ _) eqn:E; simpl; [done|].
    intros [= <-]. repeat (split; [done|]). right. split; [done|]. split; [lia|done].
Qed.

Lemma bind_outcome {A B : Type} (m : proc A) (f : A -> proc B) :
  (bind m f).2 = match m.2 with Val a => (f a).2 | Stop o => Stop o end.
Proof. destruct m as [t [a|o]]; simpl; [|done]. by destruct (f a). Qed.

(** A loop that ends the process does so in a turn, after turns that went
    well, unless it runs out of fuel. *)
Lemma do_while_stop {S : Type} (body : S -> proc (ctl * S)) (cond : S -> bool * S)
    (o : outcome) :
  forall fuel st,
    (do_while body cond fuel st).2 = Stop o ->
    o = OutOfFuel \/
    exists pre st',
      (do_while body cond fuel st).1 = pre ++ (body st').1 /\ (body st').2 = Stop o.
Proof.
  induction fuel as [|fuel IH]; intros st; [intros [= <-]; by left|].
  cbn [do_while]. rewrite bind_outcome, bind_trace.
  destruct (body st).2 as [[c st1]|o'] eqn:Hb.
  - destruct c; [|done]. destruct (cond st1) as [b st2]. destruct b; [|done].
    intros [Ho|(pre & st' & Heq & Hst)]%IH; [by left|right].
    exists ((body st).1 ++ pre), st'. by rewrite Heq, app_assoc.
  - intros [= ->]. right. exists [], st. by rewrite app_nil_r.
Qed.

Lemma sample_of_fits (p : program) (g : list joint_entry) (f : FrameIO) :
  length g <= 31 -> is_Some (sample_of p g f).
Proof.
  intros Hg. destruct p; cbn [sample_of].
  - rewrite extract_extract_joints, extract_joints_spec; [done|].
    rewrite length_fresh_data. unfold data_length. lia.
  - assert (forall todo i data, length data = data_length ->
              is_Some (AzureKinect2lsl.extract_bodies g f i todo data)) as Hall.
    { induction todo as [|todo IH]; intros i data Hlen; simpl; [done|].
      destruct (AzureKinect2lsl.extract_joints _ g 0 data) as [d|] eqn:E.
      - simpl. apply IH. apply extract_joints_length in E. congruence.
      - rewrite extract_joints_spec in E; [done|].
        rewrite Hlen. unfold data_length. lia. }
    apply Hall, length_fresh_data.
Qed.

(** ** How a run ends *)

(** A loop that ends the process does so in a turn that holds a frame. *)
Lemma capture_loop_stop (p : program) (g : list joint_entry) (tracker : k4abt_tracker_t)
    (frames : nat -> FrameIO) (fuel : nat) (o : outcome) :
  (capture_loop_of p g tracker frames fuel).2 = Stop o ->
  o = OutOfFuel \/
  exists pre k,
    (capture_loop_of p g tracker frames fuel).1 = pre ++ frame_popped tracker k /\
    delivered (frames k) /\
    ((o = Exited (-1) /\ k4abt_frame_get_num_bodies (frames k) > 1) \/
     (o = UndefinedBehaviour /\ k4abt_frame_get_num_bodies (frames k) <= 1 /\
      sample_of p g (frames k) = None)).
Proof.
  rewrite capture_loop_eq.
  intros [Ho|(pre & st & Heq & Hst)]%do_while_stop; [by left|right].
  apply body_stop in Hst as (Hd & Ht & Ho).
  exists pre, (captures st). by rewrite Heq, Ht.
Qed.

Lemma before_cleanup (p : program) (g : list joint_entry)
    (cfg : k4abt_tracker_configuration_t) (io : SetupIO) (frames : nat -> FrameIO)
    (fuel : nat) (tracker : k4abt_tracker_t) :
  Forall (fun e => ~ is_cleanup e)
    ((prelude_of p g cfg io fuel).1 ++ (capture_loop_of p g tracker frames fuel).1).
Proof.
  apply Forall_app. split.
  - eapply Forall_impl; [apply prelude_setup|]. intros e He. destruct e; simpl in *; tauto.
  - apply Forall_forall. intros e [n Hn]%loop_events_frame. destruct e; simpl in *; try discriminate; tauto.
Qed.

(** X6.  The lines after the loop run exactly in the runs that end with
    status 0: such a run ends with the shutdown and the destruction of the
    tracker, the stop of the cameras and the close of the device, in this
    order and once; a run that ends otherwise, by [exit(1)], by
    [return -1], or not at all, shuts nothing down and does not close the
    device. *)
Theorem device_closed_exactly_at_status_0 (p : program) (g : list joint_entry)
    (cfg : k4abt_tracker_configuration_t) (io : SetupIO) (frames : nat -> FrameIO)
    (fuel : nat) :
  ((main_of p g cfg io frames fuel).2 = Exited 0 ->
   exists t tracker,
     (main_of p g cfg io frames fuel).1
     = t ++ [ k4abt_tracker_shutdown tracker; k4abt_tracker_destroy tracker;
              k4a_device_stop_cameras; k4a_device_close ] /\
     Forall (fun e => ~ is_cleanup e) t) /\
  ((main_of p g cfg io frames fuel).2 <> Exited 0 ->
   Forall (fun e => ~ is_cleanup e) (main_of p g cfg io frames fuel).1).
Proof.
  rewrite main_trace, main_outcome.
  pose proof (prelude_outcome p g cfg io fuel) as Hpo.
  pose proof (prelude_setup p g cfg io fuel) as Hps.
  destruct (prelude_of p g cfg io fuel).2 as [tracker|o] eqn:Hpre.
  - pose proof (before_cleanup p g cfg io frames fuel tracker) as Hb.
    pose proof (capture_loop_stop p g tracker frames fuel) as Hls.
    destruct (capture_loop_of p g tracker frames fuel).2 as [st|o] eqn:Hloop.
    + split; [|done]. intros _. eexists _, tracker. by rewrite app_assoc.
    + rewrite app_nil_r. split; [|done]. intros ->.
      destruct (Hls _ eq_refl) as [|(_ & _ & _ & _ & [[? _]|[? _]])]; done.
  - rewrite app_nil_r. split.
    + intros ->. by destruct (Hpo _ eq_refl).
    + intros _. eapply Forall_impl; [apply Hps|]. intros e He. destruct e; simpl in *; tauto.
Qed.

(** X7.  The statuses with which a run ends are 0, 1 and -1.  Status 1 is
    given before a stream is made, in a run of calls of the prelude
    alone.  Status -1 is given right after the tracker has delivered a
    frame with more than one body. *)
Theorem exit_status_tells_where (p : program) (g : list joint_entry)
    (cfg : k4abt_tracker_configuration_t) (io : SetupIO) (frames : nat -> FrameIO)
    (fuel : nat) (status : Z) :
  (main_of p g cfg io frames fuel).2 = Exited status ->
  status = 0%Z \/
  (status = 1%Z /\
   Forall is_setup (main_of p g cfg io frames fuel).1 /\
   outlets (main_of p g cfg io frames fuel).1 = []) \/
  (status = (-1)%Z /\
   exists before tracker k,
     (main_of p g cfg io frames fuel).1 = before ++ frame_popped tracker k /\
     delivered (frames k) /\
     k4abt_frame_get_num_bodies (frames k) > 1).
Proof.
  rewrite main_trace, main_outcome.
  pose proof (prelude_setup p g cfg io fuel) as Hps.
  destruct (setup_calls_outlets p cfg io) as [Hd Hc].
  pose proof (wait_for_recorder_outcome io fuel 0) as Hw.
  destruct (prelude_of p g cfg io fuel).2 as [tracker|o] eqn:Hpre.
  - pose proof (capture_loop_stop p g tracker frames fuel) as Hls.
    destruct (capture_loop_of p g tracker frames fuel).2 as [st|o] eqn:Hloop.
    { intros [= <-]. by left. }
    intros ->. right. right.
    destruct (Hls _ eq_refl) as [|(pre & k & Heq & Hdel & [[[= <-] Hn]|[? _]])]; try done.
    split; [done|]. exists ((prelude_of p g cfg io fuel).1 ++ pre), tracker, k.
    by rewrite app_nil_r, Heq, app_assoc.
  - intros ->. right. left. rewrite app_nil_r.
    destruct (prelude_forms p g cfg io fuel)
      as [(_ & Heq)|[(_ & _ & Heq)|[(_ & _ & _ & _ & Heq)|(_ & _ & _ & Heq)]]];
      rewrite Heq in Hpre, Hps |- *; unfold after_outlet in *; cbn [fst snd] in *.
    + injection Hpre as <-. by rewrite Hd.
    + destruct (AKlsl.wait_for_recorder io fuel 0).2; [done|].
      injection Hpre as ->. by specialize (Hw _ eq_refl).
    + injection Hpre as <-. unfold outlets in *. by rewrite omap_app, Hd, Hc.
    + destruct (AKlsl.wait_for_recorder io fuel 0).2; [done|].
      injection Hpre as ->. by specialize (Hw _ eq_refl).
Qed.

Lemma sample_of_None (p : program) (g : list joint_entry) (f : FrameIO) :
  sample_of p g f = None -> 31 < length g.
Proof.
  intros Hnone. destruct (decide (length g <= 31)) as [Hg|Hg]; [|lia].
  destruct (sample_of_fits p g f Hg) as [d Hd]. congruence.
Qed.

(** X8.  The stores of the extraction leave the array only for a table of
    more than 31 joints: a run with a store outside the array has such a
    table, and the store happens right after the tracker has delivered a
    frame with at most one body; with a table of at most 31 joints no run
    has one. *)
Theorem stores_stay_in_array_for_short_table (p : program) (g : list joint_entry)
    (cfg : k4abt_tracker_configuration_t) (io : SetupIO) (frames : nat -> FrameIO)
    (fuel : nat) :
  (main_of p g cfg io frames fuel).2 = UndefinedBehaviour ->
  31 < length g /\
  exists before tracker k,
    (main_of p g cfg io frames fuel).1 = before ++ frame_popped tracker k /\
    delivered (frames k) /\
    k4abt_frame_get_num_bodies (frames k) <= 1 /\
    sample_of p g (frames k) = None.
Proof.
  rewrite main_trace, main_outcome.
  pose proof (prelude_outcome p g cfg io fuel) as Hpo.
  destruct (prelude_of p g cfg io fuel).2 as [tracker|o] eqn:Hpre.
  - pose proof (capture_loop_stop p g tracker frames fuel) as Hls.
    destruct (capture_loop_of p g tracker frames fuel).2 as [st|o] eqn:Hloop; [done|].
    intros ->.
    destruct (Hls _ eq_refl) as [|(pre & k & Heq & Hdel & [[? _]|(_ & Hn & Hs)])]; try done.
    split; [by eapply sample_of_None|].
    exists ((prelude_of p g cfg io fuel).1 ++ pre), tracker, k.
    by rewrite app_nil_r, Heq, app_assoc.
  - intros ->. by destruct (Hpo _ eq_refl).
Qed.

(** ** Captures and frames, obtained and released *)

Lemma turn_captures (p : program) (g : list joint_entry) (tracker : k4abt_tracker_t)
    (n : nat) (f : FrameIO) :
  queued_captures (turn_calls p g tracker n f) = obtained_captures (turn_calls p g tracker n f) /\
  released_captures (turn_calls p g tracker n f)
  = obtained_captures (turn_calls p g tracker n f).
Proof.
  unfold turn_calls, failed_turn, sample_calls.
  destruct (get_capture_result f), (queue_capture_result f), (pop_frame_result f);
    simpl; try done.
  all: case_decide; [done|]; by destruct (sample_of p g f).
Qed.

(** X9.  Every capture a run obtains from the device is handed to the
    tracker and released, once and in the turn in which it was obtained,
    whether the tracker takes it or not; nothing else is queued or
    released.  This holds for the runs that end in the loop as well. *)
Theorem captures_released (p : program) (g : list joint_entry)
    (cfg : k4abt_tracker_configuration_t) (io : SetupIO) (frames : nat -> FrameIO)
    (fuel : nat) :
  queued_captures (main_of p g cfg io frames fuel).1
  = obtained_captures (main_of p g cfg io frames fuel).1 /\
  released_captures (main_of p g cfg io frames fuel).1
  = obtained_captures (main_of p g cfg io frames fuel).1.
Proof.
  unfold queued_captures, released_captures, obtained_captures.
  rewrite !main_omap by (by intros []).
  destruct (prelude_of p g cfg io fuel).2 as [tracker|o]; [|done].
  rewrite capture_loop_eq.
  split; apply do_while_omap; intros st; rewrite body_calls;
    by destruct (turn_captures p g tracker (captures st) (frames (captures st))).
Qed.

Lemma turn_frames (p : program) (g : list joint_entry) (tracker : k4abt_tracker_t)
    (frames : nat -> FrameIO) (st : loop_state) :
  released_frames (loop_body_of p g tracker frames st).1
  = map fst (pushed (loop_body_of p g tracker frames st).1) /\
  ((exists c st', (loop_body_of p g tracker frames st).2 = Val (c, st') /\
      popped_frames (loop_body_of p g tracker frames st).1
      = released_frames (loop_body_of p g tracker frames st).1) \/
   (exists o, (loop_body_of p g tracker frames st).2 = Stop o /\ holds_frame o /\
      popped_frames (loop_body_of p g tracker frames st).1 = [captures st] /\
      released_frames (loop_body_of p g tracker frames st).1 = [])).
Proof.
  unfold holds_frame.
  destruct p; cbn [loop_body_of];
    unfold AKlsl.loop_body, AzureKinect2lsl.loop_body;
    destruct (get_capture_result (frames (captures st)));
    destruct (queue_capture_result (frames (captures st)));
    destruct (pop_frame_result (frames (captures st))); simpl;
    try (split; [done|left; by eexists _, _]).
  all: case_decide; simpl; [split; [done|right; eexists; tauto]|].
  - destruct (AKlsl.extract _ _ _ _); simpl;
      (split; [done|]); [left; by eexists _, _|right; eexists; tauto].
  - destruct (AzureKinect2lsl.extract_bodies _ _ _ _ _); simpl;
      (split; [done|]); [left; by eexists _, _|right; eexists; tauto].
Qed.

Lemma do_while_frames_released (p : program) (g : list joint_entry)
    (tracker : k4abt_tracker_t) (frames : nat -> FrameIO) (fuel : nat) :
  forall st,
    let L := do_while (loop_body_of p g tracker frames) (loop_cond_of p) fuel st in
    ((forall o, L.2 = Stop o -> ~ holds_frame o) /\
     popped_frames L.1 = released_frames L.1) \/
    (exists o k, L.2 = Stop o /\ holds_frame o /\
       popped_frames L.1 = released_frames L.1 ++ [k]).
Proof.
  induction fuel as [|fuel IH]; intros st; cbn zeta.
  { left. split; [|done]. simpl. unfold holds_frame. intros o [= <-] [|]; done. }
  cbn [do_while]. rewrite bind_outcome, bind_trace.
  unfold popped_frames, released_frames in *. rewrite !omap_app.
  destruct (turn_frames p g tracker frames st)
    as [_ [(c & st1 & Hval & Heq)|(o & Hstop & Ho & Hpop & Hrel)]];
    unfold popped_frames, released_frames in *.
  - rewrite Hval, Heq. destruct c.
    + destruct (loop_cond_of p st1) as [b st2]. destruct b.
      * destruct (IH st2) as [[Hno Hsame]|(o & k & Hstop & Ho & Hk)].
        -- left. split; [done|]. by rewrite Hsame.
        -- right. exists o, k. split; [done|]. split; [done|].
           by rewrite Hk, app_assoc.
      * left. by split.
    + left. by split.
  - rewrite Hstop, Hpop, Hrel. right. exists o, (captures st). by rewrite !app_nil_r.
Qed.

(** X10.  Every frame that is released is the frame of a sample just
    pushed, and every frame a run obtains from the tracker is released,
    but for the last one of a run that ends while it holds a frame: by
    [return -1], or by a store outside the array. *)
Theorem frames_released_but_the_last (p : program) (g : list joint_entry)
    (cfg : k4abt_tracker_configuration_t) (io : SetupIO) (frames : nat -> FrameIO)
    (fuel : nat) :
  released_frames (main_of p g cfg io frames fuel).1
  = map fst (pushed (main_of p g cfg io frames fuel).1) /\
  ((~ holds_frame (main_of p g cfg io frames fuel).2 /\
    popped_frames (main_of p g cfg io frames fuel).1
    = released_frames (main_of p g cfg io frames fuel).1) \/
   (holds_frame (main_of p g cfg io frames fuel).2 /\
    exists k,
      popped_frames (main_of p g cfg io frames fuel).1
      = released_frames (main_of p g cfg io frames fuel).1 ++ [k])).
Proof.
  split.
  - change (map fst ?l) with (fst <$> l). unfold released_frames, pushed.
    rewrite list_fmap_omap, !main_omap by (by intros []).
    destruct (prelude_of p g cfg io fuel).2 as [tracker|o]; [|done].
    rewrite capture_loop_eq. apply do_while_omap. intros st.
    destruct (turn_frames p g tracker frames st) as [Heq _].
    unfold released_frames, pushed in Heq. rewrite Heq.
    change (map fst ?l) with (fst <$> l). by rewrite list_fmap_omap.
  - unfold popped_frames, released_frames. rewrite !main_omap by (by intros []).
    rewrite main_outcome.
    pose proof (prelude_outcome p g cfg io fuel) as Hpo.
    destruct (prelude_of p g cfg io fuel).2 as [tracker|o].
    + rewrite capture_loop_eq.
      pose proof (do_while_frames_released p g tracker frames fuel
                    {| frame_count := 0; captures := 0 |}) as Hl.
      cbn zeta in Hl. unfold popped_frames, released_frames in Hl.
      destruct Hl as [[Hno Hsame]|(o & k & Hstop & Ho & Hk)].
      * left. split; [|done].
        destruct (do_while _ _ _ _).2 as [st|o]; [|by apply Hno].
        unfold holds_frame. by intros [|].
      * right. rewrite Hstop. split; [done|]. by exists k.
    + left. split; [|done].
      unfold holds_frame. destruct (Hpo _ eq_refl) as [->| ->]; by intros [|].
Qed.

(** ** The order of the captures and of the samples *)

Lemma turn_asks (p : program) (g : list joint_entry) (tracker : k4abt_tracker_t)
    (n : nat) (f : FrameIO) :
  captures_asked (turn_calls p g tracker n f) = [n] /\
  (map fst (pushed (turn_calls p g tracker n f)) = [] \/
   map fst (pushed (turn_calls p g tracker n f)) = [n]).
Proof.
  unfold turn_calls, failed_turn, sample_calls.
  destruct (get_capture_result f), (queue_capture_result f), (pop_frame_result f);
    simpl; try (split; [done|by left]).
  all: case_decide; [split; [done|by left]|].
  all: destruct (sample_of p g f); simpl; (split; [done|]); [by right|by left].
Qed.

Lemma do_while_in_order (p : program) (g : list joint_entry)
    (tracker : k4abt_tracker_t) (frames : nat -> FrameIO) (fuel : nat) :
  forall st,
    exists m,
      captures_asked (do_while (loop_body_of p g tracker frames) (loop_cond_of p) fuel st).1
      = seq (captures st) m /\
      map fst (pushed (do_while (loop_body_of p g tracker frames) (loop_cond_of p) fuel st).1)
      `sublist_of` seq (captures st) m.
Proof.
  induction fuel as [|fuel IH]; intros st.
  { by exists 0. }
  cbn [do_while]. rewrite bind_trace. unfold captures_asked, pushed in *.
  rewrite !omap_app, map_app, body_calls.
  destruct (turn_asks p g tracker (captures st) (frames (captures st))) as [Hask Hpush].
  unfold captures_asked, pushed in Hask, Hpush. rewrite Hask.
  assert (Hone : map fst
                   (omap (fun e => match e with
                                   | lsl_push_sample _ n data => Some (n, data)
                                   | _ => None
                                   end)
                      (turn_calls p g tracker (captures st) (frames (captures st))))
                 `sublist_of` [captures st]).
  { destruct Hpush as [-> | ->]; [apply sublist_nil_l|done]. }
  pose proof (body_state p g tracker frames st) as Hst.
  destruct (loop_body_of p g tracker frames st).2 as [[c st1]|o].
  2:{ exists 1. rewrite !app_nil_r. by split. }
  specialize (Hst c st1 eq_refl).
  destruct c.
  2:{ exists 1. rewrite !app_nil_r. by split. }
  pose proof (cond_state p st1) as Hc.
  destruct (loop_cond_of p st1) as [b st2]. simpl in Hc.
  destruct b.
  2:{ exists 1. rewrite !app_nil_r. by split. }
  destruct (IH st2) as (m & Hm1 & Hm2).
  rewrite Hc, Hst in Hm1, Hm2.
  exists (S m). rewrite Hm1. split; [done|].
  change (seq (captures st) (S m)) with ([captures st] ++ seq (S (captures st)) m).
  by apply sublist_app.
Qed.

(** X11.  A run asks for the captures 0, 1, 2, ... in this order and
    without a gap, each once; the samples it pushes are samples of some of
    these captures, in the same order and at most one for a capture. *)
Theorem captures_and_samples_in_order (p : program) (g : list joint_entry)
    (cfg : k4abt_tracker_configuration_t) (io : SetupIO) (frames : nat -> FrameIO)
    (fuel : nat) :
  captures_asked (main_of p g cfg io frames fuel).1
  = seq 0 (length (captures_asked (main_of p g cfg io frames fuel).1)) /\
  map fst (pushed (main_of p g cfg io frames fuel).1)
  `sublist_of` captures_asked (main_of p g cfg io frames fuel).1.
Proof.
  unfold captures_asked, pushed. rewrite !main_omap by (by intros []).
  destruct (prelude_of p g cfg io fuel).2 as [tracker|o].
  2:{ split; [done|]. apply sublist_nil_l. }
  rewrite capture_loop_eq.
  destruct (do_while_in_order p g tracker frames fuel {| frame_count := 0; captures := 0 |})
    as (m & Hm1 & Hm2).
  unfold captures_asked, pushed in Hm1, Hm2. cbn [captures] in Hm1, Hm2.
  rewrite Hm1, length_seq. by split.
Qed.

(** ** What a sample holds *)

Lemma turn_sample (p : program) (g : list joint_entry) (tracker : k4abt_tracker_t)
    (n : nat) (f : FrameIO) :
  Forall (fun e => forall op m data,
            e = lsl_push_sample op m data ->
            m = n /\ sample_of p g f = Some data /\ delivered f /\
            k4abt_frame_get_num_bodies f <= 1)
    (turn_calls p g tracker n f).
Proof.
  apply Forall_forall. intros e He op m data ->. revert He.
  unfold turn_calls, failed_turn, sample_calls, delivered.
  destruct (get_capture_result f), (queue_capture_result f), (pop_frame_result f);
    simpl; try (intros He; by members He).
  case_decide; [intros He; by members He|].
  destruct (sample_of p g f) as [d|]; simpl; intros He; members He.
  injection He as -> -> ->. repeat split; try done; lia.
Qed.

(** Every sample of a run is the sample of its frame. *)
Lemma main_samples (p : program) (g : list joint_entry)
    (cfg : k4abt_tracker_configuration_t) (io : SetupIO) (frames : nat -> FrameIO)
    (fuel : nat) :
  Forall (fun e => forall op n data,
            e = lsl_push_sample op n data ->
            sample_of p g (frames n) = Some data /\ delivered (frames n) /\
            k4abt_frame_get_num_bodies (frames n) <= 1)
    (main_of p g cfg io frames fuel).1.
Proof.
  rewrite main_trace. apply Forall_app. split.
  { eapply Forall_impl; [apply prelude_setup|]. by intros e He op n data ->. }
  destruct (prelude_of p g cfg io fuel).2 as [tracker|o]; [|constructor].
  apply Forall_app. split.
  - rewrite capture_loop_eq. apply do_while_Forall. intros st. rewrite body_calls.
    eapply Forall_impl; [apply turn_sample|].
    intros e He op m data Heq. by destruct (He _ _ _ Heq) as (-> & ?).
  - destruct (capture_loop_of p g tracker frames fuel).2; [|constructor].
    rewrite cleanup_events_eq. by repeat (constructor; [intros op n data|]).
Qed.

(** X12.  A sample is pushed only for a frame that the tracker has
    delivered, all three calls of the turn having succeeded, and that has
    at most one body. *)
Theorem sample_only_for_a_delivered_frame (p : program) (g : list joint_entry)
    (cfg : k4abt_tracker_configuration_t) (io : SetupIO) (frames : nat -> FrameIO)
    (fuel : nat) (op : lsl_push_op) (n : nat) (data : list float) :
  lsl_push_sample op n data ∈ (main_of p g cfg io frames fuel).1 ->
  delivered (frames n) /\
  k4abt_frame_get_num_bodies (frames n) <= 1.
Proof.
  intros Hin. pose proof (main_samples p g cfg io frames fuel) as Hall.
  eapply Forall_forall in Hall; [|exact Hin]. by destruct (Hall op n data eq_refl) as (_ & ?).
Qed.

Lemma extract_joints_tail (sk : k4abt_skeleton_t) (g : list joint_entry)
    (data data' : list float) (i : nat) :
  AzureKinect2lsl.extract_joints sk g 0 data = Some data' ->
  7 * length g <= i ->
  data' !! i = data !! i.
Proof.
  intros He Hi.
  destruct (decide (7 * (0 + length g) <= length data)) as [Hfit|Hout].
  - rewrite extract_joints_spec in He by done. injection He as <-.
    rewrite lookup_app_r by (rewrite length_poses; lia).
    rewrite lookup_drop, length_poses. f_equal. simpl. lia.
  - destruct g as [|e g]; [by injection He as <-|].
    rewrite extract_joints_overflow in He; [done|done|lia].
Qed.

Lemma sample_of_tail (p : program) (g : list joint_entry) (f : FrameIO)
    (data : list float) (i : nat) :
  sample_of p g f = Some data ->
  7 * length g <= i ->
  data !! i = fresh_data f !! i.
Proof.
  destruct p; cbn [sample_of].
  - rewrite extract_extract_joints. apply extract_joints_tail.
  - assert (forall todo b d,
              AzureKinect2lsl.extract_bodies g f b todo d = Some data ->
              7 * length g <= i -> data !! i = d !! i) as Hall; [|apply Hall].
    induction todo as [|todo IH]; intros b d; simpl.
    { by intros [= <-]. }
    destruct (AzureKinect2lsl.extract_joints _ g 0 d) as [d'|] eqn:E; simpl; [|done].
    intros Hs Hi. rewrite (IH _ _ Hs Hi). by eapply extract_joints_tail.
Qed.

(** X13.  The array is not cleared before the joints are stored: in every
    sample pushed, the elements from [7 * length g] on hold what the
    memory of the local [data] held when the turn began.  For a table of
    fewer than 31 joints these are values the program never wrote. *)
Theorem tail_of_sample_not_written (p : program) (g : list joint_entry)
    (cfg : k4abt_tracker_configuration_t) (io : SetupIO) (frames : nat -> FrameIO)
    (fuel : nat) (op : lsl_push_op) (n : nat) (data : list float) (i : nat) :
  lsl_push_sample op n data ∈ (main_of p g cfg io frames fuel).1 ->
  7 * length g <= i ->
  i < data_length ->
  data !! i = Some (stack_data (frames n) i).
Proof.
  intros Hin Hi Hlt. pose proof (main_samples p g cfg io frames fuel) as Hall.
  eapply Forall_forall in Hall; [|exact Hin].
  destruct (Hall op n data eq_refl) as (Hs & _).
  rewrite (sample_of_tail p g (frames n) data i Hs Hi).
  unfold fresh_data. change (map ?f ?l) with (f <$> l).
  by rewrite list_lookup_fmap, lookup_seq_lt.
Qed.

(** ** Runs in which nothing fails *)

Section Sessions.
Variable g : list joint_entry.
Variable tracker : k4abt_tracker_t.
Variable frames : nat -> FrameIO.

Lemma turn_pushes_one (p : program) (st : loop_state) :
  length g <= 31 ->
  no_failure frames ->
  map fst (pushed (loop_body_of p g tracker frames st).1) = [captures st].
Proof.
  intros Hg Hframes. destruct (Hframes (captures st)) as [(H1 & H2 & H3) Hn].
  rewrite body_calls. unfold turn_calls, failed_turn, sample_calls.
  rewrite H1, H2, H3. simpl. rewrite decide_False by lia.
  by destruct (sample_of_fits p g (frames (captures st)) Hg) as [d ->].
Qed.

Lemma AKlsl_loop_pushes (fuel : nat) :
  length g <= 31 ->
  no_failure frames ->
  forall st,
    counted st ->
    100 <= fuel + captures st ->
    map fst (pushed (do_while (AKlsl.loop_body g tracker frames) AKlsl.loop_cond fuel st).1)
    = seq (captures st) (100 - captures st).
Proof.
  intros Hg Hnf. induction fuel as [|fuel IH]; intros st Hst Hfuel.
  { destruct Hst as [_ Hlt]. simpl in Hfuel. lia. }
  rewrite do_while_S, bind_trace. unfold pushed in *. rewrite omap_app, map_app.
  pose proof (turn_pushes_one AKlsl_cpp st Hg Hnf) as Hone.
  unfold pushed in Hone. cbn [loop_body_of] in Hone. rewrite Hone.
  destruct (turn_without_failure g tracker frames AKlsl_cpp st Hg Hnf) as [t Ht].
  cbn [loop_body_of] in Ht. rewrite Ht. cbn [snd].
  rewrite AKlsl_loop_cond_counted by done.
  destruct Hst as [Hfc Hlt].
  replace (100 - captures st) with (S (100 - S (captures st))) by lia.
  cbn [seq app]. f_equal.
  case_bool_decide as Hnext.
  - rewrite IH; [done|split; [done|simpl; lia]|simpl; lia].
  - replace (100 - S (captures st)) with 0 by lia. done.
Qed.

Lemma AzureKinect2lsl_loop_pushes (fuel : nat) :
  length g <= 31 ->
  no_failure frames ->
  forall st,
    frame_count st = 0%Z ->
    map fst (pushed (do_while (AzureKinect2lsl.loop_body g tracker frames)
                       AzureKinect2lsl.loop_cond fuel st).1)
    = seq (captures st) fuel.
Proof.
  intros Hg Hnf. induction fuel as [|fuel IH]; intros st Hfc; [done|].
  rewrite do_while_S, bind_trace. unfold pushed in *. rewrite omap_app, map_app.
  pose proof (turn_pushes_one AzureKinect2lsl_cpp st Hg Hnf) as Hone.
  unfold pushed in Hone. cbn [loop_body_of] in Hone. rewrite Hone.
  destruct (turn_without_failure g tracker frames AzureKinect2lsl_cpp st Hg Hnf) as [t Ht].
  cbn [loop_body_of] in Ht. rewrite Ht. cbn [snd].
  rewrite AzureKinect2lsl_loop_cond_0 by done.
  cbn [seq app]. f_equal. by rewrite IH.
Qed.

End Sessions.

(** X14.  When the prelude has ended well, the table has at most 31 joints,
    so that the stores stay in the array, and nothing fails in the loop,
    the first program pushes one sample for each of the frames 0 to 99, in
    this order, and no other; the second program pushes one sample for the
    frame of every turn it is given. *)
Theorem one_sample_for_each_frame (p : program) (g : list joint_entry)
    (cfg : k4abt_tracker_configuration_t) (io : SetupIO) (frames : nat -> FrameIO)
    (fuel : nat) (tracker : k4abt_tracker_t) :
  (prelude_of p g cfg io fuel).2 = Val tracker ->
  length g <= 31 ->
  no_failure frames ->
  100 <= fuel ->
  map fst (pushed (main_of p g cfg io frames fuel).1)
  = seq 0 (match p with AKlsl_cpp => 100 | AzureKinect2lsl_cpp => fuel end).
Proof.
  intros Hpre Hg Hnf Hfuel. unfold pushed. rewrite main_omap, Hpre by (by intros []).
  destruct p; cbn [capture_loop_of].
  - apply (AKlsl_loop_pushes g tracker frames fuel Hg Hnf
             {| frame_count := 0; captures := 0 |}).
    + split; [done|]. simpl. lia.
    + simpl. lia.
  - by apply (AzureKinect2lsl_loop_pushes g tracker frames fuel Hg Hnf
                {| frame_count := 0; captures := 0 |}).
Qed.

(** ** What the first program does after a failed wait *)

Section Skips.
Variable g : list joint_entry.
Variable tracker : k4abt_tracker_t.
Variable frames : nat -> FrameIO.

Lemma AKlsl_skipped_turn (st : loop_state) :
  skipped (frames (captures st)) ->
  AKlsl.loop_body g tracker frames st
  = (failed_turn tracker (captures st) (frames (captures st)), Val (Normal, next_capture st)).
Proof.
  unfold skipped, failed_turn, AKlsl.loop_body.
  intros [H1|[H2 H3]].
  - by rewrite !decide_False.
  - rewrite H2. case_decide; [|done]. simpl. by rewrite decide_False.
Qed.

Lemma AKlsl_loop_goes_on (k : nat) (r : k4a_wait_result_t) (fuel : nat) :
  skipped (frames k) ->
  k < 99 ->
  forall st,
    counted st ->
    100 <= fuel + captures st ->
    captures st <= k ->
    k4a_device_get_capture k r
    ∈ (do_while (AKlsl.loop_body g tracker frames) AKlsl.loop_cond fuel st).1 ->
    k4a_device_get_capture (S k) (get_capture_result (frames (S k)))
    ∈ (do_while (AKlsl.loop_body g tracker frames) AKlsl.loop_cond fuel st).1.
Proof.
  intros Hskip Hk. induction fuel as [|fuel IH]; intros st Hst Hfuel Hle.
  { intros Hin. by apply elem_of_nil in Hin. }
  rewrite do_while_S, bind_trace.
  destruct (decide (captures st = k)) as [Heq|Hne].
  - intros _. subst k. rewrite AKlsl_skipped_turn by done. cbn [fst snd].
    rewrite AKlsl_loop_cond_counted by done.
    rewrite bool_decide_eq_true_2 by lia.
    destruct fuel as [|fuel]; [lia|]. rewrite do_while_S, bind_trace.
    destruct (body_first_event AKlsl_cpp g tracker frames
                {| frame_count := Z.of_nat (S (captures st)); captures := S (captures st) |})
      as [t Ht].
    cbn [loop_body_of] in Ht. rewrite Ht. cbn [captures].
    apply elem_of_app. right. apply elem_of_app. left. left.
  - intros [Hin|Hin]%elem_of_app.
    { pose proof (AKlsl_body_events g tracker frames st) as Hev.
      eapply Forall_forall in Hev; [|done]. simpl in Hev. congruence. }
    apply elem_of_app. right.
    pose proof (AKlsl_body_next g tracker frames st) as Hnext.
    destruct (AKlsl.loop_body g tracker frames st).2 as [[c st1]|o];
      [|by apply elem_of_nil in Hin].
    rewrite (Hnext c st1 eq_refl) in Hin |- *.
    destruct c; [|by apply elem_of_nil in Hin].
    rewrite AKlsl_loop_cond_counted in Hin |- * by done.
    case_bool_decide; [|by apply elem_of_nil in Hin].
    revert Hin. apply IH; [split; [done|simpl; lia]|simpl; lia|simpl; lia].
Qed.

End Skips.

(** The events of a run that are about a capture are those of its loop. *)
Lemma main_loop_event (p : program) (g : list joint_entry)
    (cfg : k4abt_tracker_configuration_t) (io : SetupIO) (frames : nat -> FrameIO)
    (fuel : nat) (e : event) (n : nat) :
  event_frame e = Some n ->
  e ∈ (main_of p g cfg io frames fuel).1 <->
  exists tracker,
    (prelude_of p g cfg io fuel).2 = Val tracker /\
    e ∈ (capture_loop_of p g tracker frames fuel).1.
Proof.
  intros Hn. rewrite main_trace. split.
  - intros [Hin|Hin]%elem_of_app.
    { pose proof (prelude_events p g cfg io fuel) as Hev.
      eapply Forall_forall in Hev; [|done]. congruence. }
    destruct (prelude_of p g cfg io fuel).2 as [tracker|o]; [|by apply elem_of_nil in Hin].
    exists tracker. split; [done|].
    apply elem_of_app in Hin as [Hin|Hin]; [done|].
    destruct (capture_loop_of p g tracker frames fuel).2; [|by apply elem_of_nil in Hin].
    pose proof (cleanup_events_frame tracker) as Hev.
    eapply Forall_forall in Hev; [|done]. congruence.
  - intros (tracker & -> & Hin). apply elem_of_app. right. apply elem_of_app. by left.
Qed.

(** X15.  In the first program a wait for a capture that fails or times
    out, and a result of the tracker that cannot be popped, do not end the
    loop: the turn pushes no sample, and unless it was the last of the 100
    turns the program asks for the next capture. *)
Theorem AKlsl_goes_on_after_failed_wait (g : list joint_entry)
    (cfg : k4abt_tracker_configuration_t) (io : SetupIO) (frames : nat -> FrameIO)
    (fuel k : nat) (r : k4a_wait_result_t) :
  skipped (frames k) ->
  k < 99 ->
  100 <= fuel ->
  k4a_device_get_capture k r ∈ (AKlsl.main g cfg io frames fuel).1 ->
  k4a_device_get_capture (S k) (get_capture_result (frames (S k)))
  ∈ (AKlsl.main g cfg io frames fuel).1 /\
  (forall op data, lsl_push_sample op k data ∉ (AKlsl.main g cfg io frames fuel).1).
Proof.
  change (AKlsl.main g cfg io frames fuel) with (main_of AKlsl_cpp g cfg io frames fuel).
  intros Hskip Hk Hfuel Hin. split.
  - apply (main_loop_event _ _ _ _ _ _ (k4a_device_get_capture k r) k eq_refl) in Hin
      as (tracker & Hpre & Hin).
    apply (main_loop_event _ _ _ _ _ _ (k4a_device_get_capture (S k) _) (S k) eq_refl).
    exists tracker. split; [done|].
    cbn [capture_loop_of] in *. unfold AKlsl.capture_loop in *.
    eapply AKlsl_loop_goes_on; try done.
    + split; [done|]. simpl. lia.
    + simpl. lia.
    + simpl. lia.
  - intros op data Hpush.
    pose proof (main_samples AKlsl_cpp g cfg io frames fuel) as Hall.
    eapply Forall_forall in Hall; [|exact Hpush].
    destruct (Hall op k data eq_refl) as (_ & (H1 & H2 & H3) & _).
    destruct Hskip as [?|[_ ?]]; done.
Qed.

(** ** Runs that end with status 0 *)

Lemma body_break (p : program) (g : list joint_entry) (tracker : k4abt_tracker_t)
    (frames : nat -> FrameIO) (st st1 : loop_state) :
  (loop_body_of p g tracker frames st).2 = Val (Break, st1) ->
  failure_breaks p (frames (captures st)).
Proof.
  destruct p; cbn [loop_body_of failure_breaks];
    unfold AKlsl.loop_body, AzureKinect2lsl.loop_body;
    destruct (get_capture_result (frames (captures st)));
    destruct (queue_capture_result (frames (captures st)));
    destruct (pop_frame_result (frames (captures st))); simpl;
    try done; try tauto; try (intros _; split; done).
  all: repeat case_decide; simpl; try done.
  all: first [ by destruct (AKlsl.extract _ _ _ _)
             | by destruct (AzureKinect2lsl.extract_bodies _ _ _ _ _)
             | intros _; first [by left | by right; left | by right; right | by split] ].
Qed.

Lemma AzureKinect2lsl_body_next (g : list joint_entry) (tracker : k4abt_tracker_t)
    (frames : nat -> FrameIO) (st : loop_state) (c : ctl) (st' : loop_state) :
  (AzureKinect2lsl.loop_body g tracker frames st).2 = Val (c, st') -> st' = next_capture st.
Proof. turn_cases; intros [= <- <-] || intros [=]; done. Qed.

Section Ends.
Variable g : list joint_entry.
Variable tracker : k4abt_tracker_t.
Variable frames : nat -> FrameIO.

Lemma AKlsl_loop_leaves (fuel : nat) :
  forall st st',
    counted st ->
    (do_while (AKlsl.loop_body g tracker frames) AKlsl.loop_cond fuel st).2 = Val st' ->
    (exists k r,
       k4a_device_get_capture k r
       ∈ (do_while (AKlsl.loop_body g tracker frames) AKlsl.loop_cond fuel st).1 /\
       failure_breaks AKlsl_cpp (frames k)) \/
    (exists r,
       k4a_device_get_capture 99 r
       ∈ (do_while (AKlsl.loop_body g tracker frames) AKlsl.loop_cond fuel st).1).
Proof.
  induction fuel as [|fuel IH]; intros st st' Hst; [done|].
  rewrite do_while_S, bind_outcome, bind_trace.
  destruct (body_first_event AKlsl_cpp g tracker frames st) as [t Ht].
  pose proof (body_break AKlsl_cpp g tracker frames st) as Hbreak.
  pose proof (AKlsl_body_next g tracker frames st) as Hnext.
  cbn [loop_body_of] in Ht, Hbreak. rewrite Ht.
  destruct (AKlsl.loop_body g tracker frames st).2 as [[c st1]|o]; [|done].
  rewrite (Hnext c st1 eq_refl).
  destruct c.
  2:{ intros _. left. eexists _, _. split; [|by eapply Hbreak].
      apply elem_of_app. left. left. }
  rewrite AKlsl_loop_cond_counted by done.
  case_bool_decide as Hlt.
  - intros [(k & r & Hin & Hf)|(r & Hin)]%IH; [| |split; [done|simpl; lia]].
    + left. exists k, r. split; [|done]. apply elem_of_app. by right.
    + right. exists r. apply elem_of_app. by right.
  - intros _. right. destruct Hst as [_ Hst].
    assert (captures st = 99) as -> by lia.
    eexists. apply elem_of_app. left. left.
Qed.

Lemma AzureKinect2lsl_loop_leaves (fuel : nat) :
  forall st st',
    frame_count st = 0%Z ->
    (do_while (AzureKinect2lsl.loop_body g tracker frames) AzureKinect2lsl.loop_cond fuel st).2
    = Val st' ->
    exists k r,
      k4a_device_get_capture k r
      ∈ (do_while (AzureKinect2lsl.loop_body g tracker frames)
           AzureKinect2lsl.loop_cond fuel st).1 /\
      failure_breaks AzureKinect2lsl_cpp (frames k).
Proof.
  induction fuel as [|fuel IH]; intros st st' Hst; [done|].
  rewrite do_while_S, bind_outcome, bind_trace.
  destruct (body_first_event AzureKinect2lsl_cpp g tracker frames st) as [t Ht].
  pose proof (body_break AzureKinect2lsl_cpp g tracker frames st) as Hbreak.
  pose proof (AzureKinect2lsl_body_next g tracker frames st) as Hnext.
  cbn [loop_body_of] in Ht, Hbreak. rewrite Ht.
  destruct (AzureKinect2lsl.loop_body g tracker frames st).2 as [[c st1]|o]; [|done].
  rewrite (Hnext c st1 eq_refl).
  destruct c.
  2:{ intros _. eexists _, _. split; [|by eapply Hbreak].
      apply elem_of_app. left. left. }
  rewrite AzureKinect2lsl_loop_cond_0 by done.
  intros (k & r & Hin & Hf)%IH; [|done].
  exists k, r. split; [|done]. apply elem_of_app. by right.
Qed.

End Ends.

(** X16.  A run ends with status 0 only after a turn that the program
    answers with [break], or, in the first program, after the turn of
    capture 99.  The second program, which does not count its turns, never
    ends with status 0 unless a call has failed. *)
Theorem status_0_after_break_or_last_turn (p : program) (g : list joint_entry)
    (cfg : k4abt_tracker_configuration_t) (io : SetupIO) (frames : nat -> FrameIO)
    (fuel : nat) :
  (main_of p g cfg io frames fuel).2 = Exited 0 ->
  (exists k r,
     k4a_device_get_capture k r ∈ (main_of p g cfg io frames fuel).1 /\
     failure_breaks p (frames k)) \/
  (p = AKlsl_cpp /\
   exists r, k4a_device_get_capture 99 r ∈ (main_of p g cfg io frames fuel).1).
Proof.
  rewrite main_outcome.
  pose proof (prelude_outcome p g cfg io fuel) as Hpo.
  destruct (prelude_of p g cfg io fuel).2 as [tracker|o] eqn:Hpre.
  2:{ intros ->. by destruct (Hpo _ eq_refl). }
  pose proof (capture_loop_stop p g tracker frames fuel) as Hls.
  destruct (capture_loop_of p g tracker frames fuel).2 as [st'|o] eqn:Hloop.
  2:{ intros ->. destruct (Hls _ eq_refl) as [|(_ & _ & _ & _ & [[? _]|[? _]])]; done. }
  intros _.
  assert (Hback : forall k r,
            k4a_device_get_capture k r ∈ (capture_loop_of p g tracker frames fuel).1 ->
            k4a_device_get_capture k r ∈ (main_of p g cfg io frames fuel).1).
  { intros k r Hin. apply (main_loop_event _ _ _ _ _ _ (k4a_device_get_capture k r) k eq_refl).
    by exists tracker. }
  destruct p; cbn [capture_loop_of] in *;
    unfold AKlsl.capture_loop, AzureKinect2lsl.capture_loop in *.
  - apply AKlsl_loop_leaves in Hloop as [(k & r & Hin & Hf)|(r & Hin)];
      [| |split; [done|simpl; lia]].
    + left. exists k, r. split; [by apply Hback|done].
    + right. split; [done|]. exists r. by apply Hback.
  - apply AzureKinect2lsl_loop_leaves in Hloop as (k & r & Hin & Hf); [|done].
    left. exists k, r. split; [by apply Hback|done].
Qed.

(** ** The other fields of the description *)

Lemma read_channel_units (chns : lsl_xml_ptr) (labels : list string) :
  forall d,
    chns < length d ->
    parents_first d ->
    exists ids,
      children chns (d ++ channel_nodes chns (length d) labels) = children chns d ++ ids /\
      Forall (fun c => child_value c "unit" (d ++ channel_nodes chns (length d) labels)
                       = Some "mm")
        ids.
Proof.
  induction labels as [|l labels IH]; intros d Hchns Hd.
  - exists []. simpl. rewrite !app_nil_r. by split.
  - set (three := channel_nodes chns (length d) [l]).
    assert (Hwhole : d ++ channel_nodes chns (length d) (l :: labels)
                     = (d ++ three) ++ channel_nodes chns (length (d ++ three)) labels).
    { rewrite length_app, <- app_assoc. done. }
    destruct (IH (d ++ three)) as (ids & Hids & Hunits).
    { rewrite length_app. lia. }
    { apply parents_first_app; [done|]. subst three. simpl.
      repeat constructor; intros q [= <-]; lia. }
    assert (Hthree : children chns (d ++ three) = children chns d ++ [length d]).
    { rewrite children_app. f_equal. subst three. simpl.
      rewrite decide_True by done.
      rewrite !decide_False by (intros [= ?]; lia). done. }
    exists (length d :: ids). rewrite Hwhole. split.
    + rewrite Hids, Hthree, <- app_assoc. done.
    + constructor; [|done].
      apply child_value_app. unfold child_value.
      rewrite children_app, (children_beyond d (length d)) by done.
      subst three. simpl.
      rewrite decide_False by (intros [= ?]; lia).
      rewrite !decide_True by done. simpl.
      unfold value_if_named.
      rewrite !lookup_app_r by lia.
      replace (S (length d) - length d) with 1 by lia.
      replace (S (S (length d)) - length d) with 2 by lia.
      done.
Qed.

Lemma describe_fields_read (p : program) (g : list joint_entry) (rate : Z) :
  child_value 0 "manufacturer" (desc (describe_of p g (stream rate)).2)
  = Some "University of Groningen" /\
  child_value 0 "model" (desc (describe_of p g (stream rate)).2) = Some "Azure Kinect" /\
  match p with
  | AKlsl_cpp =>
      Forall (fun c => child_value c "unit" (desc (describe_of p g (stream rate)).2)
                       = Some "mm")
        (channel_entries (desc (describe_of p g (stream rate)).2))
  | AzureKinect2lsl_cpp =>
      child_value 0 "unit" (desc (describe_of p g (stream rate)).2) = Some "mm"
  end.
Proof.
  destruct p; cbn [describe_of].
  - rewrite AKlsl_describe_stream. cbn [snd desc set_desc fold_left stream
      lsl_create_streaminfo lsl_append_child_value lsl_append_child app length].
    match goal with
    | |- context [ ?a :: ?b :: ?c :: ?d :: channel_nodes 3 4 ?l ] =>
        change (a :: b :: c :: d :: channel_nodes 3 4 l)
          with ([a; b; c; d] ++ channel_nodes 3 4 l);
        set (d0 := [a; b; c; d])
    end.
    split; [by apply child_value_app|]. split; [by apply child_value_app|].
    destruct (read_channel_units 3 (labels_of_table g) d0) as (ids & Hids & Hunits).
    { simpl. lia. }
    { subst d0. unfold parents_first.
      repeat (constructor;
              [intros q Hq; simpl in Hq; try discriminate; injection Hq as <-; simpl; lia|]).
      constructor. }
    change (length d0) with 4 in *.
    assert (Hroot : find_child 0 "channels" (d0 ++ channel_nodes 3 4 (labels_of_table g))
                    = Some 3).
    { unfold find_child. rewrite children_app.
      rewrite (children_from_none 0 (channel_nodes 3 4 _)).
      - done.
      - eapply Forall_impl; [apply channel_nodes_parents|].
        simpl. intros n Hn [= Hq]. apply Hn in Hq. lia. }
    unfold channel_entries. rewrite Hroot, Hids. done.
  - rewrite AzureKinect2lsl_describe_stream. cbn [snd desc set_desc fold_left stream
      lsl_create_streaminfo lsl_append_child_value lsl_append_child app length].
    match goal with
    | |- context [ ?a :: ?b :: ?c :: ?d :: ?e :: label_nodes 3 ?l ] =>
        change (a :: b :: c :: d :: e :: label_nodes 3 l)
          with ([a; b; c; d; e] ++ label_nodes 3 l);
        set (d0 := [a; b; c; d; e])
    end.
    split; [by apply child_value_app|]. split; by apply child_value_app.
Qed.

(** X17.  The description of the stream of a run names the manufacturer,
    "University of Groningen", and the model, "Azure Kinect".  The first
    program gives every channel, the four of the orientation included, the
    unit "mm"; the second program gives the unit "mm" once, to the
    description as a whole. *)
Theorem description_names_maker_and_unit (p : program) (g : list joint_entry)
    (cfg : k4abt_tracker_configuration_t) (io : SetupIO) (frames : nat -> FrameIO)
    (fuel : nat) (info : lsl_streaminfo) :
  lsl_create_outlet info ∈ (main_of p g cfg io frames fuel).1 ->
  child_value 0 "manufacturer" (desc info) = Some "University of Groningen" /\
  child_value 0 "model" (desc info) = Some "Azure Kinect" /\
  match p with
  | AKlsl_cpp =>
      Forall (fun c => child_value c "unit" (desc info) = Some "mm")
        (channel_entries (desc info))
  | AzureKinect2lsl_cpp => child_value 0 "unit" (desc info) = Some "mm"
  end.
Proof.
  intros Hin. apply main_outlet in Hin as (rate & _ & ->).
  pose proof (describe_fields_read p g rate) as H. by destruct p.
Qed.

(** ** The events of one turn *)

Lemma events_of_frame_all (n : nat) (t : list event) :
  Forall (fun e => event_frame e = Some n) t -> events_of_frame n t = t.
Proof.
  unfold events_of_frame. induction 1 as [|e t He _ IH]; [done|].
  rewrite filter_cons_True by done. by rewrite IH.
Qed.

Lemma events_of_frame_none (n : nat) (t : list event) :
  Forall (fun e => event_frame e <> Some n) t -> events_of_frame n t = [].
Proof.
  unfold events_of_frame. induction 1 as [|e t He _ IH]; [done|].
  by rewrite filter_cons_False.
Qed.

Lemma do_while_turn (p : program) (g : list joint_entry) (tracker : k4abt_tracker_t)
    (frames : nat -> FrameIO) (n : nat) (fuel : nat) :
  forall st,
    events_of_frame n
      (do_while (loop_body_of p g tracker frames) (loop_cond_of p) fuel st).1 = [] \/
    events_of_frame n
      (do_while (loop_body_of p g tracker frames) (loop_cond_of p) fuel st).1
    = turn_calls p g tracker n (frames n).
Proof.
  induction fuel as [|fuel IH]; intros st; [by left|].
  cbn [do_while]. rewrite bind_trace. unfold events_of_frame in *. rewrite filter_app.
  pose proof (body_events p g tracker frames st) as Hev.
  pose proof (body_state p g tracker frames st) as Hst.
  destruct (decide (captures st = n)) as [<-|Hne].
  - right. fold (events_of_frame (captures st) (loop_body_of p g tracker frames st).1).
    rewrite events_of_frame_all, body_calls by done.
    rewrite <- (app_nil_r (turn_calls _ _ _ _ _)) at 2. f_equal.
    destruct (loop_body_of p g tracker frames st).2 as [[c st1]|o]; [|done].
    specialize (Hst c st1 eq_refl).
    destruct c; [|done].
    pose proof (cond_state p st1) as Hc.
    destruct (loop_cond_of p st1) as [b st2]. simpl in Hc. destruct b; [|done].
    apply events_of_frame_none.
    eapply Forall_impl;
      [apply (do_while_frames _ _ (body_events p g tracker frames)
                (body_state p g tracker frames) (cond_state p))|].
    intros e (m & Hm & Hle). rewrite Hm. intros [= ->]. lia.
  - fold (events_of_frame n (loop_body_of p g tracker frames st).1).
    rewrite events_of_frame_none.
    2:{ eapply Forall_impl; [apply Hev|]. intros e He. rewrite He. by intros [= ?]. }
    cbn [app].
    destruct (loop_body_of p g tracker frames st).2 as [[c st1]|o]; [|by left].
    destruct c; [|by left].
    destruct (loop_cond_of p st1) as [b st2]. destruct b; [apply IH|by left].
Qed.

(** X18.  The events of a run that are about capture [n] are those of one
    turn: the wait for the capture; when it succeeded, the capture handed
    to the tracker and released; when the tracker took it, the result
    popped; and when the result came with at most one body, the sample
    pushed and then the frame released. *)
Theorem events_of_a_capture (p : program) (g : list joint_entry)
    (cfg : k4abt_tracker_configuration_t) (io : SetupIO) (frames : nat -> FrameIO)
    (fuel n : nat) :
  events_of_frame n (main_of p g cfg io frames fuel).1 = [] \/
  exists tracker,
    (prelude_of p g cfg io fuel).2 = Val tracker /\
    events_of_frame n (main_of p g cfg io frames fuel).1
    = turn_calls p g tracker n (frames n).
Proof.
  rewrite main_trace. unfold events_of_frame. rewrite filter_app.
  fold (events_of_frame n (prelude_of p g cfg io fuel).1).
  rewrite events_of_frame_none.
  2:{ eapply Forall_impl; [apply prelude_events|]. intros e He. by rewrite He. }
  cbn [app].
  destruct (prelude_of p g cfg io fuel).2 as [tracker|o]; [|by left].
  rewrite filter_app.
  match goal with
  | |- context [ filter _ (match ?r with Val _ => cleanup_events tracker | Stop _ => [] end) ] =>
      fold (events_of_frame n
              (match r with Val _ => cleanup_events tracker | Stop _ => [] end));
      rewrite (events_of_frame_none n
                 (match r with Val _ => cleanup_events tracker | Stop _ => [] end))
  end.
  2:{ destruct (capture_loop_of p g tracker frames fuel).2; [|constructor].
      eapply Forall_impl; [apply cleanup_events_frame|]. intros e He. by rewrite He. }
  rewrite app_nil_r, capture_loop_eq.
  destruct (do_while_turn p g tracker frames n fuel {| frame_count := 0; captures := 0 |})
    as [H|H]; [by left|right].
  by exists tracker.
Qed.

#[local] Transparent AKlsl.describe AzureKinect2lsl.describe.

(** ** The further properties on sample inputs *)

(** X1 on a device whose calibration cannot be read. *)
Lemma device_failure_ends_run_witness :
  main_of AzureKinect2lsl_cpp Sample.two_joints Sample.config Inputs.no_calibration
    Sample.one_body 3
  = ([ k4a_device_open K4A_RESULT_SUCCEEDED;
       k4a_device_start_cameras K4A_RESULT_SUCCEEDED;
       k4a_device_get_calibration K4A_RESULT_FAILED ], Exited 1).
Proof.
  apply (device_failure_ends_run AzureKinect2lsl_cpp Sample.two_joints Sample.config
           Inputs.no_calibration Sample.one_body 3).
  intros (_ & _ & H). discriminate H.
Defined.

(** X2 on the stream of the sample session. *)
Lemma one_stream_with_rate_of_tracker_witness :
  let info := (AKlsl.describe Sample.two_joints (stream 10)).2 in
  let run := main_of AKlsl_cpp Sample.two_joints Sample.config Sample.good_setup
               Sample.session 5 in
  outlets run.1 = [info] /\ nominal_srate info = 10%Z.
Proof.
  intros info run.
  assert (Hin : lsl_create_outlet info ∈ run.1) by in_run.
  destruct (one_stream_with_rate_of_tracker AKlsl_cpp Sample.two_joints Sample.config
              Sample.good_setup Sample.session 5 info Hin) as (Hone & _ & _ & _ & Hrate).
  split; [exact Hone|exact Hrate].
Defined.

(** X3 on a setup in which only the second tracker can be made. *)
Lemma AKlsl_uses_the_tracker_made_witness :
  let io := Sample.setup K4A_RESULT_FAILED K4A_RESULT_SUCCEEDED 0 in
  k4abt_tracker_shutdown (Some 1)
  ∈ (AKlsl.main Sample.two_joints Sample.config io Sample.queue_fails 5).1 /\
  second_result AKlsl_cpp Sample.config io = K4A_RESULT_SUCCEEDED.
Proof.
  intros io.
  assert (Hin : k4abt_tracker_shutdown (Some 1)
                ∈ (AKlsl.main Sample.two_joints Sample.config io Sample.queue_fails 5).1)
    by in_run.
  split; [exact Hin|].
  destruct (AKlsl_uses_the_tracker_made Sample.two_joints Sample.config io
              Sample.queue_fails 5 _ (Some 1) Hin eq_refl) as [[_ H]|(_ & H & _)].
  - discriminate H.
  - exact H.
Defined.

(** X4 on a setup to which no recorder comes. *)
Lemma no_capture_without_recorder_witness :
  let run := main_of AKlsl_cpp Sample.two_joints Sample.config Inputs.no_recorder
               Sample.one_body 6 in
  Forall is_setup run.1 /\
  polls run.1 = replicate 6 false /\
  run.2 = OutOfFuel.
Proof.
  intros run.
  destruct (no_capture_without_recorder AKlsl_cpp Sample.two_joints Sample.config
              Inputs.no_recorder Sample.one_body 6 (fun _ => eq_refl))
    as (Hsetup & _ & Hpolls).
  split; [exact Hsetup|].
  apply (Hpolls (AKlsl.describe Sample.two_joints (stream 10)).2). in_run.
Defined.

(** X5 on the sample setup, where the recorder is there at the second
    poll. *)
Lemma first_capture_after_recorder_witness :
  exists rest,
    (main_of AKlsl_cpp Sample.two_joints Sample.config Sample.good_setup
       Sample.one_body 3).1
    = [ k4a_device_open K4A_RESULT_SUCCEEDED;
        k4a_device_start_cameras K4A_RESULT_SUCCEEDED;
        k4a_device_get_calibration K4A_RESULT_SUCCEEDED;
        k4abt_tracker_create (cuda_config Sample.config) K4A_RESULT_SUCCEEDED;
        lsl_create_outlet (AKlsl.describe Sample.two_joints (stream 10)).2;
        lsl_wait_for_consumers false;
        lsl_wait_for_consumers true;
        k4a_device_get_capture 0 K4A_WAIT_RESULT_SUCCEEDED ] ++ rest.
Proof.
  assert (Hno : forall j, j < 1 -> consumers Sample.good_setup j = false).
  { intros j Hj. assert (j = 0) as -> by lia. reflexivity. }
  assert (Hin : lsl_create_outlet (AKlsl.describe Sample.two_joints (stream 10)).2
                ∈ (main_of AKlsl_cpp Sample.two_joints Sample.config Sample.good_setup
                     Sample.one_body 3).1) by in_run.
  destruct (first_capture_after_recorder AKlsl_cpp Sample.two_joints Sample.config
              Sample.good_setup Sample.one_body 3 1 _ Hno eq_refl (le_S _ _ (le_n 2)) Hin)
    as [rest Hrest].
  exists rest. exact Hrest.
Defined.

(** X7 on the sample session, whose frame 2 has two bodies. *)
Lemma exit_status_tells_where_witness :
  let run := main_of AzureKinect2lsl_cpp Sample.two_joints Sample.config
               Sample.good_setup Sample.session 5 in
  run.2 = Exited (-1) /\
  exists before tracker k,
    run.1 = before ++ frame_popped tracker k /\
    delivered (Sample.session k) /\
    k4abt_frame_get_num_bodies (Sample.session k) > 1.
Proof.
  intros run.
  assert (Hend : run.2 = Exited (-1)) by (vm_compute; reflexivity).
  split; [exact Hend|].
  destruct (exit_status_tells_where AzureKinect2lsl_cpp Sample.two_joints Sample.config
              Sample.good_setup Sample.session 5 (-1) Hend) as [H|[[H _]|[_ H]]].
  - discriminate H.
  - discriminate H.
  - exact H.
Defined.

(** X8 on the 32 joints of the SDK. *)
Lemma stores_stay_in_array_for_short_table_witness :
  let run := main_of AKlsl_cpp Sample.sdk_joints Sample.config Sample.good_setup
               Sample.one_body 3 in
  run.2 = UndefinedBehaviour /\
  31 < length Sample.sdk_joints /\
  exists before tracker k,
    run.1 = before ++ frame_popped tracker k /\
    delivered (Sample.one_body k) /\
    k4abt_frame_get_num_bodies (Sample.one_body k) <= 1 /\
    sample_of AKlsl_cpp Sample.sdk_joints (Sample.one_body k) = None.
Proof.
  intros run.
  assert (Hend : run.2 = UndefinedBehaviour) by (vm_compute; reflexivity).
  split; [exact Hend|].
  exact (stores_stay_in_array_for_short_table AKlsl_cpp Sample.sdk_joints Sample.config
           Sample.good_setup Sample.one_body 3 Hend).
Defined.

(** X12 on the sample of frame 1 of the sample session, a frame without a
    body. *)
Lemma sample_only_for_a_delivered_frame_witness :
  let run := main_of AzureKinect2lsl_cpp Sample.two_joints Sample.config
               Sample.good_setup Sample.session 5 in
  let data := fresh_data (Sample.session 1) in
  lsl_push_sample lsl_push_sample_f 1 data ∈ run.1 /\
  delivered (Sample.session 1) /\
  k4abt_frame_get_num_bodies (Sample.session 1) <= 1.
Proof.
  intros run data.
  assert (Hin : lsl_push_sample lsl_push_sample_f 1 data ∈ run.1) by in_run.
  split; [exact Hin|].
  exact (sample_only_for_a_delivered_frame AzureKinect2lsl_cpp Sample.two_joints
           Sample.config Sample.good_setup Sample.session 5 _ _ _ Hin).
Defined.

(** X13 on the sample of frame 0 of the sample session: with the table of
    two joints, element 14 is the first that is not written. *)
Lemma tail_of_sample_not_written_witness :
  let run := main_of AKlsl_cpp Sample.two_joints Sample.config Sample.good_setup
               Sample.session 5 in
  exists data,
    lsl_push_sample lsl_push_sample_f 0 data ∈ run.1 /\
    data !! 14 = Some (-15)%Z.
Proof.
  intros run.
  destruct (AKlsl.extract (Sample.session 0) Sample.two_joints 0
              (fresh_data (Sample.session 0))) as [data|] eqn:E;
    [|vm_compute in E; discriminate E].
  assert (Hin : lsl_push_sample lsl_push_sample_f 0 data ∈ run.1).
  { vm_compute in E. injection E as <-. in_run. }
  exists data. split; [exact Hin|].
  apply (tail_of_sample_not_written AKlsl_cpp Sample.two_joints Sample.config
           Sample.good_setup Sample.session 5 _ _ _ 14 Hin).
  - simpl. lia.
  - unfold data_length. lia.
Defined.

(** X14 on a session of the first program in which nothing fails. *)
Lemma one_sample_for_each_frame_witness :
  map fst (pushed (main_of AKlsl_cpp Sample.two_joints Sample.config Sample.good_setup
                     Sample.one_body 100).1)
  = seq 0 100.
Proof.
  assert (Hpre : (prelude_of AKlsl_cpp Sample.two_joints Sample.config
                    Sample.good_setup 100).2 = Val (Some 0)) by (vm_compute; reflexivity).
  assert (Hg : length Sample.two_joints <= 31) by (simpl; lia).
  assert (Hnf : no_failure Sample.one_body).
  { intros n. split; [repeat split; reflexivity|].
    unfold k4abt_frame_get_num_bodies, Sample.one_body, Sample.good_frame, Sample.frame.
    cbn [bodies length]. lia. }
  exact (one_sample_for_each_frame AKlsl_cpp Sample.two_joints Sample.config
           Sample.good_setup Sample.one_body 100 (Some 0) Hpre Hg Hnf (le_n 100)).
Defined.

(** X15 on a session in which the wait for capture 1 fails. *)
Lemma AKlsl_goes_on_after_failed_wait_witness :
  let run := AKlsl.main Sample.two_joints Sample.config Sample.good_setup
               Sample.capture_fails 100 in
  k4a_device_get_capture 1 K4A_WAIT_RESULT_FAILED ∈ run.1 /\
  k4a_device_get_capture 2 K4A_WAIT_RESULT_SUCCEEDED ∈ run.1 /\
  (forall op data, lsl_push_sample op 1 data ∉ run.1).
Proof.
  intros run.
  assert (Hin : k4a_device_get_capture 1 K4A_WAIT_RESULT_FAILED ∈ run.1) by in_run.
  assert (Hskip : skipped (Sample.capture_fails 1)) by (left; discriminate).
  assert (Hk : 1 < 99) by lia.
  split; [exact Hin|].
  exact (AKlsl_goes_on_after_failed_wait Sample.two_joints Sample.config Sample.good_setup
           Sample.capture_fails 100 1 _ Hskip Hk (le_n 100) Hin).
Defined.

(** X16 on a session of the second program in which the result of the
    tracker cannot be popped in turn 1. *)
Lemma status_0_after_break_or_last_turn_witness :
  let run := main_of AzureKinect2lsl_cpp Sample.two_joints Sample.config
               Sample.good_setup Inputs.pop_fails 5 in
  run.2 = Exited 0 /\
  ((exists k r,
      k4a_device_get_capture k r ∈ run.1 /\
      failure_breaks AzureKinect2lsl_cpp (Inputs.pop_fails k)) \/
   (AzureKinect2lsl_cpp = AKlsl_cpp /\
    exists r, k4a_device_get_capture 99 r ∈ run.1)).
Proof.
  intros run.
  assert (Hend : run.2 = Exited 0) by (vm_compute; reflexivity).
  split; [exact Hend|].
  exact (status_0_after_break_or_last_turn AzureKinect2lsl_cpp Sample.two_joints
           Sample.config Sample.good_setup Inputs.pop_fails 5 Hend).
Defined.

(** X17 on the stream that the second program makes for the table of two
    joints. *)
Lemma description_names_maker_and_unit_witness :
  let info := (AzureKinect2lsl.describe Sample.two_joints (stream 10)).2 in
  child_value 0 "manufacturer" (desc info) = Some "University of Groningen" /\
  child_value 0 "model" (desc info) = Some "Azure Kinect" /\
  child_value 0 "unit" (desc info) = Some "mm".
Proof.
  intros info.
  apply (description_names_maker_and_unit AzureKinect2lsl_cpp Sample.two_joints
           Sample.config Sample.good_setup Sample.one_body 3 info).
  in_run.
Defined.

#[local] Opaque AKlsl.describe AzureKinect2lsl.describe.

(** * The channels of the table, the frames with several bodies, the bound of the loop *)

(** ** The declared channels *)

(** The labels that the programs build from their list of suffixes are the
    labels written out. *)
Lemma labels_of_table_claimed (g : list joint_entry) :
  labels_of_table g = claimed_labels g.
Proof. reflexivity. Qed.

(** C2.  The stream that either program hands to the outlet declares
    32 * 7 channels: for the table of 32 joints that the programs are
    written for, the table of the Body Tracking SDK, this is 7 times the
    size of the table.  Its element "channels" has 7 entries for each
    joint of the table, in table order, labelled with the name of the
    joint followed by _posx, _posy, _posz, _oriw, _orix, _oriy, _oriz. *)
Theorem C2_declared_channels (p : program) (g : list joint_entry)
    (cfg : k4abt_tracker_configuration_t) (io : SetupIO) (frames : nat -> FrameIO)
    (fuel : nat) (info : lsl_streaminfo) :
  lsl_create_outlet info ∈ (main_of p g cfg io frames fuel).1 ->
  (length g = 32 -> channel_count info = (7 * Z.of_nat (length g))%Z) /\
  length (channel_entries (desc info)) = 7 * length g /\
  Forall2 (fun c label => channel_label p (desc info) c = Some label)
    (channel_entries (desc info)) (claimed_labels g).
Proof.
  intros Hin. apply main_outlet in Hin as (rate & _ & ->).
  pose proof (describe_channels p g rate) as Hlabels.
  rewrite labels_of_table_claimed in Hlabels.
  split; [|split; [|done]].
  - intros Hg. rewrite describe_fields, Hg. reflexivity.
  - apply Forall2_length in Hlabels.
    by rewrite Hlabels, <- labels_of_table_claimed, length_labels_of_table.
Qed.

(** ** Frames with several bodies *)

(** After answers with which a program goes on, the turn ends as turns
    usually do. *)
Lemma turn_goes_on (p : program) (g : list joint_entry) (tracker : k4abt_tracker_t)
    (frames : nat -> FrameIO) (st : loop_state) :
  goes_on p g (frames (captures st)) ->
  (loop_body_of p g tracker frames st).2 = Val (Normal, next_capture st).
Proof.
  unfold goes_on, delivered, skipped, sample_of.
  intros [((H1 & H2 & H3) & Hn & Hs)|[-> Hskip]].
  - destruct p; cbn [loop_body_of];
      unfold AKlsl.loop_body, AzureKinect2lsl.loop_body;
      rewrite H1, H2, H3; simpl; rewrite decide_False by lia;
      by destruct Hs as [d ->].
  - cbn [loop_body_of]. by rewrite AKlsl_skipped_turn.
Qed.

(** A loop whose turns go on up to a turn with several bodies comes to that
    turn and ends the process there. *)
Lemma do_while_to_many_bodies (p : program) (g : list joint_entry)
    (tracker : k4abt_tracker_t) (frames : nat -> FrameIO) (k : nat) :
  delivered (frames k) ->
  k4abt_frame_get_num_bodies (frames k) > 1 ->
  (p = AKlsl_cpp -> k < 100) ->
  forall fuel st,
    captures st <= k ->
    k - captures st < fuel ->
    (forall m, captures st <= m < k -> goes_on p g (frames m)) ->
    match p with
    | AKlsl_cpp => frame_count st = Z.of_nat (captures st)
    | AzureKinect2lsl_cpp => frame_count st = 0%Z
    end ->
    exists pre,
      do_while (loop_body_of p g tracker frames) (loop_cond_of p) fuel st
      = (pre ++ frame_popped tracker k, Stop (Exited (-1))).
Proof.
  intros Hd Hn Hk. induction fuel as [|fuel IH]; intros st Hle Hfuel Hgo Hfc; [lia|].
  rewrite do_while_S.
  destruct (decide (captures st = k)) as [<-|Hne].
  { rewrite turn_many_bodies by done. by exists []. }
  pose proof (turn_goes_on p g tracker frames st (Hgo (captures st) ltac:(lia))) as Hturn.
  destruct (loop_body_of p g tracker frames st) as [t r]. simpl in Hturn. subst r.
  rewrite bind_Val.
  assert (exists st2,
            loop_cond_of p (next_capture st) = (true, st2) /\
            captures st2 = S (captures st) /\
            match p with
            | AKlsl_cpp => frame_count st2 = Z.of_nat (captures st2)
            | AzureKinect2lsl_cpp => frame_count st2 = 0%Z
            end) as (st2 & -> & Hcap & Hfc2).
  { destruct p; cbn [loop_cond_of].
    - specialize (Hk eq_refl).
      rewrite AKlsl_loop_cond_counted by (split; [done|lia]).
      rewrite bool_decide_eq_true_2 by lia. by eexists.
    - rewrite AzureKinect2lsl_loop_cond_0 by done. by eexists. }
  destruct (IH st2) as [pre Hpre]; [lia|lia| |done|].
  { intros m Hm. apply Hgo. lia. }
  rewrite Hpre. exists (t ++ pre). by rewrite <- app_assoc.
Qed.

(** C4.  When the tracking result of frame [k] has more than one body, the
    turn of either program ends the process with status -1 right after the
    result was popped, without a store to the array and without a sample.
    A run whose prelude has ended well and whose turns before [k] go on
    comes to that turn, given [k] is below the 100 turns of the first
    program, and ends there; and no run pushes a sample for frame [k] or a
    later one, or has an event about a later capture. *)
Theorem C4_many_bodies_abort (p : program) (g : list joint_entry)
    (cfg : k4abt_tracker_configuration_t) (io : SetupIO) (frames : nat -> FrameIO)
    (fuel k : nat) :
  delivered (frames k) ->
  k4abt_frame_get_num_bodies (frames k) > 1 ->
  (forall tracker st,
     captures st = k ->
     loop_body_of p g tracker frames st = (frame_popped tracker k, Stop (Exited (-1)))) /\
  (forall tracker,
     (prelude_of p g cfg io fuel).2 = Val tracker ->
     (forall m, m < k -> goes_on p g (frames m)) ->
     k < fuel ->
     (p = AKlsl_cpp -> k < 100) ->
     exists before,
       main_of p g cfg io frames fuel = (before ++ frame_popped tracker k, Exited (-1))) /\
  (forall op n data,
     lsl_push_sample op n data ∈ (main_of p g cfg io frames fuel).1 -> n < k) /\
  (forall e n,
     e ∈ (main_of p g cfg io frames fuel).1 -> event_frame e = Some n -> n <= k) /\
  (forall r,
     k4a_device_get_capture k r ∈ (main_of p g cfg io frames fuel).1 ->
     exists before tracker status,
       main_of p g cfg io frames fuel = (before ++ frame_popped tracker k, Exited status) /\
       status <> 0%Z).
Proof.
  intros Hd Hn. split; [|split; [|split; [|split]]].
  - intros tracker st <-. by apply turn_many_bodies.
  - intros tracker Hpre Hgo Hfuel Hk.
    rewrite main_eq.
    destruct (prelude_of p g cfg io fuel) as [t0 r]. simpl in Hpre. subst r.
    rewrite capture_loop_eq.
    destruct (do_while_to_many_bodies p g tracker frames k Hd Hn Hk fuel
                {| frame_count := 0; captures := 0 |}) as [pre Hpre].
    + simpl. lia.
    + simpl. lia.
    + intros m Hm. apply Hgo. lia.
    + by destruct p.
    + rewrite Hpre. exists (t0 ++ pre). by rewrite <- app_assoc.
  - intros op n data Hin.
    pose proof (main_many_bodies_bound p g cfg io frames fuel _ k n Hd Hn Hin eq_refl) as Hle.
    destruct (decide (n = k)) as [->|]; [exfalso|lia].
    destruct (main_at_many_bodies p g cfg io frames fuel _ k Hd Hn Hin eq_refl)
      as (before & tracker & Heq & Hlt).
    rewrite Heq in Hin. simpl in Hin. apply elem_of_app in Hin as [Hin|Hin].
    + eapply Forall_forall in Hlt; [|done]. specialize (Hlt k eq_refl). lia.
    + unfold frame_popped in Hin. members Hin.
  - intros e n. by apply main_many_bodies_bound.
  - intros r Hin.
    destruct (main_at_many_bodies p g cfg io frames fuel _ k Hd Hn Hin eq_refl)
      as (before & tracker & Heq & _).
    exists before, tracker, (-1)%Z. by split.
Qed.

(** ** The bound of the loop *)

(** How a run of the second program ends once its prelude has ended well:
    not at all, or after a [break], or by [return -1], or by a store
    outside the array. *)
Lemma AzureKinect2lsl_main_ends (g : list joint_entry)
    (cfg : k4abt_tracker_configuration_t) (io : SetupIO) (frames : nat -> FrameIO)
    (fuel : nat) (tracker : k4abt_tracker_t) :
  (AzureKinect2lsl.prelude g cfg io fuel).2 = Val tracker ->
  (AzureKinect2lsl.main g cfg io frames fuel).2 = OutOfFuel \/
  ((AzureKinect2lsl.main g cfg io frames fuel).2 = Exited 0 /\
   exists k r,
     k4a_device_get_capture k r ∈ (AzureKinect2lsl.main g cfg io frames fuel).1 /\
     failure_breaks AzureKinect2lsl_cpp (frames k)) \/
  ((AzureKinect2lsl.main g cfg io frames fuel).2 = Exited (-1) /\
   exists k,
     k4a_device_get_capture k K4A_WAIT_RESULT_SUCCEEDED
     ∈ (AzureKinect2lsl.main g cfg io frames fuel).1 /\
     delivered (frames k) /\
     k4abt_frame_get_num_bodies (frames k) > 1) \/
  ((AzureKinect2lsl.main g cfg io frames fuel).2 = UndefinedBehaviour /\ 31 < length g).
Proof.
  change (AzureKinect2lsl.main g cfg io frames fuel)
    with (main_of AzureKinect2lsl_cpp g cfg io frames fuel).
  change (AzureKinect2lsl.prelude g cfg io fuel)
    with (prelude_of AzureKinect2lsl_cpp g cfg io fuel).
  intros Hpre.
  assert (Hback : forall k r,
            k4a_device_get_capture k r
            ∈ (capture_loop_of AzureKinect2lsl_cpp g tracker frames fuel).1 ->
            k4a_device_get_capture k r
            ∈ (main_of AzureKinect2lsl_cpp g cfg io frames fuel).1).
  { intros k r Hin.
    apply (main_loop_event _ _ _ _ _ _ (k4a_device_get_capture k r) k eq_refl).
    by exists tracker. }
  rewrite main_outcome, Hpre.
  pose proof (capture_loop_stop AzureKinect2lsl_cpp g tracker frames fuel) as Hls.
  destruct (capture_loop_of AzureKinect2lsl_cpp g tracker frames fuel).2 as [st'|o] eqn:Hloop.
  - right. left. split; [done|].
    cbn [capture_loop_of] in Hloop, Hback. unfold AzureKinect2lsl.capture_loop in Hloop, Hback.
    apply AzureKinect2lsl_loop_leaves in Hloop as (k & r & Hin & Hf); [|done].
    exists k, r. split; [by apply Hback|done].
  - destruct (Hls _ eq_refl) as [->|(pre & k & Heq & Hd & [[-> Hn]|(-> & _ & Hs)])].
    + by left.
    + right. right. left. split; [done|]. exists k. split; [|done].
      apply Hback. rewrite Heq. apply elem_of_app. right. left.
    + right. right. right. split; [done|]. by eapply sample_of_None.
Qed.

(** C9, amended.  Once the prelude has ended well: the first program asks
    for the captures 0 to 99 at most and its loop ends within 100 turns,
    whatever fails; when the table has at most 31 joints, so that the
    stores stay in the array, and nothing fails, it asks for exactly these
    100 captures, goes on with the lines after the loop and ends with
    status 0.  The second program never counts its turns: with such a
    table and nothing failing its loop does not end, however many turns it
    is given; its loop is left only by [break], after which the process
    ends with status 0, or by [return -1] (or, with a table of more than
    31 joints, by a store outside the array). *)
Theorem C9_loop_bound (p : program) (g : list joint_entry)
    (cfg : k4abt_tracker_configuration_t) (io : SetupIO) (frames : nat -> FrameIO)
    (fuel : nat) (tracker : k4abt_tracker_t) :
  (prelude_of p g cfg io fuel).2 = Val tracker ->
  100 <= fuel ->
  match p with
  | AKlsl_cpp =>
      (forall e n,
         e ∈ (AKlsl.main g cfg io frames fuel).1 -> event_frame e = Some n -> n < 100) /\
      (AKlsl.main g cfg io frames fuel).2 <> OutOfFuel /\
      (length g <= 31 ->
       no_failure frames ->
       (exists t, AKlsl.main g cfg io frames fuel = (t ++ cleanup_events tracker, Exited 0)) /\
       forall m, m < 100 ->
         k4a_device_get_capture m K4A_WAIT_RESULT_SUCCEEDED
         ∈ (AKlsl.main g cfg io frames fuel).1)
  | AzureKinect2lsl_cpp =>
      (length g <= 31 ->
       no_failure frames ->
       (AzureKinect2lsl.main g cfg io frames fuel).2 = OutOfFuel /\
       forall m, m < fuel ->
         k4a_device_get_capture m K4A_WAIT_RESULT_SUCCEEDED
         ∈ (AzureKinect2lsl.main g cfg io frames fuel).1) /\
      ((AzureKinect2lsl.main g cfg io frames fuel).2 = OutOfFuel \/
       ((AzureKinect2lsl.main g cfg io frames fuel).2 = Exited 0 /\
        exists k r,
          k4a_device_get_capture k r ∈ (AzureKinect2lsl.main g cfg io frames fuel).1 /\
          failure_breaks AzureKinect2lsl_cpp (frames k)) \/
       ((AzureKinect2lsl.main g cfg io frames fuel).2 = Exited (-1) /\
        exists k,
          k4a_device_get_capture k K4A_WAIT_RESULT_SUCCEEDED
          ∈ (AzureKinect2lsl.main g cfg io frames fuel).1 /\
          delivered (frames k) /\
          k4abt_frame_get_num_bodies (frames k) > 1) \/
       ((AzureKinect2lsl.main g cfg io frames fuel).2 = UndefinedBehaviour /\
        31 < length g))
  end.
Proof.
  intros Hpre Hfuel.
  destruct p.
  2:{ split; [|by eapply AzureKinect2lsl_main_ends].
      intros Hg Hnf.
      pose proof (main_eq AzureKinect2lsl_cpp g cfg io frames fuel) as Hmain.
      destruct (prelude_of AzureKinect2lsl_cpp g cfg io fuel) as [t0 r].
      simpl in Hpre. subst r.
      rewrite capture_loop_eq in Hmain. cbn [main_of loop_body_of loop_cond_of] in Hmain.
      destruct (AzureKinect2lsl_loop_runs g tracker frames fuel Hg Hnf
                  {| frame_count := 0; captures := 0 |} eq_refl) as (t & Heq & Hall).
      rewrite Hmain, Heq. split; [done|].
      intros m Hm. simpl. rewrite elem_of_app. right. apply Hall. simpl. lia. }
  pose proof (main_eq AKlsl_cpp g cfg io frames fuel) as Hmain.
  pose proof (prelude_events AKlsl_cpp g cfg io fuel) as Hev.
  destruct (prelude_of AKlsl_cpp g cfg io fuel) as [t0 r]. simpl in Hpre, Hev. subst r.
  rewrite capture_loop_eq in Hmain.
  cbn [main_of loop_body_of loop_cond_of] in Hmain.
  assert (Hst : counted {| frame_count := 0; captures := 0 |}) by (split; simpl; [done|lia]).
  pose proof (AKlsl_loop_bound g tracker frames fuel _ Hst) as Hbound.
  pose proof (AKlsl_loop_ends g tracker frames fuel _ Hst ltac:(simpl; lia)) as Hends.
  split; [|split].
  - intros e n He Hn. rewrite Hmain in He.
    assert (Hcases : e ∈ t0 \/ e ∈ cleanup_events tracker \/
              e ∈ (do_while (AKlsl.loop_body g tracker frames) AKlsl.loop_cond fuel
                     {| frame_count := 0; captures := 0 |}).1).
    { destruct (do_while _ _ fuel _) as [t1 [st|o]]; simpl in He;
        rewrite ?elem_of_app in He; tauto. }
    destruct Hcases as [He'|[He'|He']].
    + eapply Forall_forall in Hev; [|done]. congruence.
    + pose proof (cleanup_events_frame tracker) as Hc.
      eapply Forall_forall in Hc; [|done]. congruence.
    + eapply Forall_forall in Hbound; [|done]. by apply Hbound.
  - rewrite Hmain. destruct (do_while _ _ fuel _) as [t1 [st|o]]; simpl in *; congruence.
  - intros Hg Hnf.
    destruct (AKlsl_loop_full g tracker frames fuel Hg Hnf _ Hst ltac:(simpl; lia))
      as (t & st' & Heq & Hall).
    rewrite Hmain, Heq. split.
    + exists (t0 ++ t). by rewrite <- app_assoc.
    + intros m Hm. simpl. rewrite !elem_of_app. right. left. apply Hall. simpl. lia.
Qed.

#[local] Transparent AKlsl.describe AzureKinect2lsl.describe.

(** ** These claims on sample inputs *)

(** C2 on the streams that the two programs make for the 32 joints of the
    SDK: 224 channels, 224 entries, the first of them those of the pelvis. *)
Lemma C2_witness :
  let first := (AKlsl.describe Sample.sdk_joints (stream 10)).2 in
  let second := (AzureKinect2lsl.describe Sample.sdk_joints (stream 10)).2 in
  (channel_count first = (7 * 32)%Z /\
   length (channel_entries (desc first)) = 7 * 32 /\
   Forall2 (fun c label => channel_label AKlsl_cpp (desc first) c = Some label)
     (channel_entries (desc first)) (claimed_labels Sample.sdk_joints)) /\
  (channel_count second = (7 * 32)%Z /\
   length (channel_entries (desc second)) = 7 * 32 /\
   Forall2 (fun c label => channel_label AzureKinect2lsl_cpp (desc second) c = Some label)
     (channel_entries (desc second)) (claimed_labels Sample.sdk_joints)) /\
  take 7 (claimed_labels Sample.sdk_joints)
  = [ "PELVIS_posx"; "PELVIS_posy"; "PELVIS_posz";
      "PELVIS_oriw"; "PELVIS_orix"; "PELVIS_oriy"; "PELVIS_oriz" ].
Proof.
  intros first second.
  assert (H1 : lsl_create_outlet first
               ∈ (main_of AKlsl_cpp Sample.sdk_joints Sample.config Sample.good_setup
                    Sample.one_body 3).1) by in_run.
  assert (H2 : lsl_create_outlet second
               ∈ (main_of AzureKinect2lsl_cpp Sample.sdk_joints Sample.config
                    Sample.good_setup Sample.one_body 3).1) by in_run.
  destruct (C2_declared_channels AKlsl_cpp Sample.sdk_joints Sample.config
              Sample.good_setup Sample.one_body 3 first H1) as (Ha1 & Ha2 & Ha3).
  destruct (C2_declared_channels AzureKinect2lsl_cpp Sample.sdk_joints Sample.config
              Sample.good_setup Sample.one_body 3 second H2) as (Hb1 & Hb2 & Hb3).
  split; [|split; [|reflexivity]].
  - split; [exact (Ha1 eq_refl)|]. split; [exact Ha2|exact Ha3].
  - split; [exact (Hb1 eq_refl)|]. split; [exact Hb2|exact Hb3].
Defined.

(** C4 on the sample session, whose frame 2 has two bodies after a frame
    with one body and a frame with none: both programs come to turn 2 and
    end there with status -1. *)
Lemma C4_witness :
  let first := main_of AKlsl_cpp Sample.two_joints Sample.config
                 Sample.good_setup Sample.session 5 in
  let second := main_of AzureKinect2lsl_cpp Sample.two_joints Sample.config
                  Sample.good_setup Sample.session 5 in
  delivered (Sample.session 2) /\
  k4abt_frame_get_num_bodies (Sample.session 2) > 1 /\
  (exists before, first = (before ++ frame_popped (Some 0) 2, Exited (-1))) /\
  (exists before, second = (before ++ frame_popped (Some 0) 2, Exited (-1))) /\
  (forall op n data, lsl_push_sample op n data ∈ first.1 -> n < 2) /\
  (forall op n data, lsl_push_sample op n data ∈ second.1 -> n < 2) /\
  loop_body_of AKlsl_cpp Sample.two_joints (Some 0) Sample.session (Sample.turn 2)
  = (frame_popped (Some 0) 2, Stop (Exited (-1))).
Proof.
  intros first second.
  assert (Hd : delivered (Sample.session 2)) by (repeat split; reflexivity).
  assert (Hn : k4abt_frame_get_num_bodies (Sample.session 2) > 1) by (vm_compute; lia).
  assert (Hgo : forall p m, m < 2 -> goes_on p Sample.two_joints (Sample.session m)).
  { intros p m Hm. left.
    destruct m as [|[|m]]; [| |lia];
      (split; [repeat split; reflexivity|]); (split; [vm_compute; lia|]);
      destruct p; vm_compute; by eexists. }
  assert (Hk : 2 < 5) by lia.
  assert (Hlt : forall p, p = AKlsl_cpp -> 2 < 100) by (intros; lia).
  destruct (C4_many_bodies_abort AKlsl_cpp Sample.two_joints Sample.config
              Sample.good_setup Sample.session 5 2 Hd Hn)
    as (Hturn1 & Hreach1 & Hpush1 & _).
  destruct (C4_many_bodies_abort AzureKinect2lsl_cpp Sample.two_joints Sample.config
              Sample.good_setup Sample.session 5 2 Hd Hn)
    as (_ & Hreach2 & Hpush2 & _).
  split; [exact Hd|]. split; [exact Hn|].
  split; [exact (Hreach1 (Some 0) eq_refl (Hgo AKlsl_cpp) Hk (Hlt AKlsl_cpp))|].
  split; [exact (Hreach2 (Some 0) eq_refl (Hgo AzureKinect2lsl_cpp) Hk
                   (Hlt AzureKinect2lsl_cpp))|].
  split; [exact Hpush1|]. split; [exact Hpush2|].
  exact (Hturn1 (Some 0) (Sample.turn 2) eq_refl).
Defined.

(** C9 on a session of the first program in which nothing fails, and on a
    session of the second program in which the result of the tracker
    cannot be popped in turn 1. *)
Lemma C9_witness :
  let first := AKlsl.main Sample.two_joints Sample.config Sample.good_setup
                 Sample.one_body 100 in
  let second := AzureKinect2lsl.main Sample.two_joints Sample.config Sample.good_setup
                  Inputs.pop_fails 100 in
  length Sample.two_joints <= 31 /\
  no_failure Sample.one_body /\
  (forall e n, e ∈ first.1 -> event_frame e = Some n -> n < 100) /\
  (exists t, first = (t ++ cleanup_events (Some 0), Exited 0)) /\
  (forall m, m < 100 -> k4a_device_get_capture m K4A_WAIT_RESULT_SUCCEEDED ∈ first.1) /\
  second.2 = Exited 0 /\
  (exists k r,
     k4a_device_get_capture k r ∈ second.1 /\
     failure_breaks AzureKinect2lsl_cpp (Inputs.pop_fails k)).
Proof.
  intros first second.
  assert (Hpre : (prelude_of AKlsl_cpp Sample.two_joints Sample.config
                    Sample.good_setup 100).2 = Val (Some 0)) by (vm_compute; reflexivity).
  assert (Hpre' : (prelude_of AzureKinect2lsl_cpp Sample.two_joints Sample.config
                     Sample.good_setup 100).2 = Val (Some 0)) by (vm_compute; reflexivity).
  assert (Hg : length Sample.two_joints <= 31) by (simpl; lia).
  assert (Hnf : no_failure Sample.one_body).
  { intros n. split; [repeat split; reflexivity|].
    unfold k4abt_frame_get_num_bodies, Sample.one_body, Sample.good_frame, Sample.frame.
    cbn [bodies length]. lia. }
  assert (Hend : second.2 = Exited 0) by (vm_compute; reflexivity).
  destruct (C9_loop_bound AKlsl_cpp Sample.two_joints Sample.config Sample.good_setup
              Sample.one_body 100 (Some 0) Hpre (le_n 100)) as (Hbound & _ & Hfull).
  destruct (Hfull Hg Hnf) as [Hdone Hall].
  destruct (C9_loop_bound AzureKinect2lsl_cpp Sample.two_joints Sample.config
              Sample.good_setup Inputs.pop_fails 100 (Some 0) Hpre' (le_n 100))
    as (_ & Hleft).
  split; [exact Hg|]. split; [exact Hnf|]. split; [exact Hbound|].
  split; [exact Hdone|]. split; [exact Hall|]. split; [exact Hend|].
  fold second in Hleft.
  destruct Hleft as [H|[[_ H]|[[H _]|[H _]]]].
  - rewrite Hend in H. discriminate H.
  - exact H.
  - rewrite Hend in H. discriminate H.
  - rewrite Hend in H. discriminate H.
Defined.
